(** * Templated communication: placeholder rendering, deviation scoring
      and compliance classification

    A shallow embedding of [src/communication_engine.py] and
    [src/response_processor.py], of the caches and the department profiles
    of [src/config_manager.py], of the dialogues of [src/user_interface.py]
    and of [generate_single_response] of [src/communication_orchestrator.py].

    Conventions of the embedding.
    - A Python [str] is a [str]: the sequence of its code points.  White
      space, decimal digits, case and printable characters are those of the
      character database of the interpreter, given here as Unicode 14.0.0
      (CPython 3.11); the literals of this file are read as UTF-8.
    - A Python [dict] whose items are iterated is the list of its items in
      insertion order.
    - A Python [float] is a binary64 [spec_float]; [float(s)] rounds the
      decimal lexeme [s] to the nearest binary64 value, ties to even.
    - The text-generation service is an oracle whose reply may depend on the
      requests made before; every call is recorded in the world.
    - The files of the configuration are an oracle from paths to parsed
      documents or to the exception that opening or parsing raises, and
      every path opened is recorded.  A document that has not the shape the
      code takes it for is outside of the model: a method that reads one
      gives [None].
    - The console is the list of the lines still to be read and the list of
      what has been written; it takes every text that is printed, and
      reading past the last line raises [EOFError]. *)

From Stdlib Require Import Bool List ZArith Lia.
From Stdlib Require Import Strings.Byte.
From Stdlib Require Import Floats.SpecFloat.
From Stdlib Require DecimalPos.
Import ListNotations.

(** ** Text *)

(** A character is its code point. *)
Inductive char : Type := Char (code : N).

Definition code (c : char) : N := let 'Char n := c in n.

(** A Python [str]: the sequence of its code points. *)
Inductive str : Type :=
| EmptyString
| String (c : char) (s : str).

Declare Scope chr_scope.
Delimit Scope chr_scope with chr.
Bind Scope chr_scope with char.
Declare Scope str_scope.
Delimit Scope str_scope with str.
Bind Scope str_scope with str.

Fixpoint of_codes (cs : list N) : str :=
  match cs with
  | [] => EmptyString
  | c :: cs' => String (Char c) (of_codes cs')
  end.

Fixpoint codes (s : str) : list N :=
  match s with
  | EmptyString => []
  | String c s' => code c :: codes s'
  end.

Fixpoint chars (s : str) : list char :=
  match s with
  | EmptyString => []
  | String c s' => c :: chars s'
  end.

(** The literals of this file are read as UTF-8, as the literals of the
    source are. *)
Module Utf8.

Definition continuation (b : N) : bool := ((128 <=? b) && (b <=? 191))%N.

Fixpoint decode (bs : list N) : option (list N) :=
  match bs with
  | [] => Some []
  | b :: bs1 =>
      if (b <? 128)%N then option_map (cons b) (decode bs1)
      else if ((194 <=? b) && (b <=? 223))%N then
        match bs1 with
        | b1 :: bs2 =>
            if continuation b1
            then option_map (cons ((b - 192) * 64 + (b1 - 128))%N) (decode bs2)
            else None
        | _ => None
        end
      else if ((224 <=? b) && (b <=? 239))%N then
        match bs1 with
        | b1 :: b2 :: bs3 =>
            if continuation b1 && continuation b2
            then option_map (cons ((b - 224) * 4096 + (b1 - 128) * 64 + (b2 - 128))%N)
                   (decode bs3)
            else None
        | _ => None
        end
      else if ((240 <=? b) && (b <=? 244))%N then
        match bs1 with
        | b1 :: b2 :: b3 :: bs4 =>
            if continuation b1 && continuation b2 && continuation b3
            then option_map
                   (cons ((b - 240) * 262144 + (b1 - 128) * 4096 + (b2 - 128) * 64 +
                          (b3 - 128))%N)
                   (decode bs4)
            else None
        | _ => None
        end
      else None
  end.

Definition byte (n : N) : Byte.byte :=
  match Byte.of_N n with
  | Some b => b
  | None => Byte.x00
  end.

Definition encode (c : N) : list Byte.byte :=
  if (c <? 128)%N then [byte c]
  else if (c <? 2048)%N then [byte (192 + c / 64); byte (128 + c mod 64)]
  else if (c <? 65536)%N then
    [byte (224 + c / 4096); byte (128 + (c / 64) mod 64); byte (128 + c mod 64)]
  else [byte (240 + c / 262144); byte (128 + (c / 4096) mod 64);
        byte (128 + (c / 64) mod 64); byte (128 + c mod 64)].

Definition str_of_bytes (bs : list Byte.byte) : option str :=
  option_map of_codes (decode (map Byte.to_N bs)).

Definition bytes_of_str (s : str) : option (list Byte.byte) :=
  Some (flat_map encode (codes s)).

Definition char_of_bytes (bs : list Byte.byte) : option char :=
  match str_of_bytes bs with
  | Some (String c EmptyString) => Some c
  | _ => None
  end.

Definition bytes_of_char (c : char) : option (list Byte.byte) := Some (encode (code c)).

End Utf8.

String Notation str Utf8.str_of_bytes Utf8.bytes_of_str : str_scope.
String Notation char Utf8.char_of_bytes Utf8.bytes_of_char : chr_scope.

Fixpoint append (a b : str) : str :=
  match a with
  | EmptyString => b
  | String c a' => String c (append a' b)
  end.

Infix "++" := append (right associativity, at level 60) : str_scope.

Fixpoint length (s : str) : nat :=
  match s with
  | EmptyString => 0
  | String _ s' => S (length s')
  end.

Open Scope str_scope.

Module Char.

Definition eqb (a b : char) : bool := (code a =? code b)%N.

End Char.

Module Text.

Fixpoint eqb (a b : str) : bool :=
  match a, b with
  | EmptyString, EmptyString => true
  | String x a', String y b' => Char.eqb x y && eqb a' b'
  | _, _ => false
  end.

(** [sep.join(xs)]. *)
Fixpoint concat (sep : str) (xs : list str) : str :=
  match xs with
  | [] => EmptyString
  | [x] => x
  | x :: xs' => x ++ sep ++ concat sep xs'
  end.

End Text.

(** ** The character database

    The properties and the case mappings of the characters are those of
    Unicode 14.0.0, the database of CPython 3.11. *)

Module Unicode.

(** The white space of [str.isspace], [str.strip] and [str.split]. *)
Definition space_ranges : list (N * N) := [
  (9, 13); (28, 32); (133, 133); (160, 160); (5760, 5760); (8192, 8202); (8232, 8233);
  (8239, 8239); (8287, 8287); (12288, 12288)
]%N.

(** The digit zero of every run of ten decimal digits (category Nd). *)
Definition decimal_zeros : list N := [
  48; 1632; 1776; 1984; 2406; 2534; 2662; 2790; 2918; 3046; 3174; 3302; 3430; 3558; 3664; 3792;
  3872; 4160; 4240; 6112; 6160; 6470; 6608; 6784; 6800; 6992; 7088; 7232; 7248; 42528; 43216;
  43264; 43472; 43504; 43600; 44016; 65296; 66720; 68912; 69734; 69872; 69942; 70096; 70384;
  70736; 70864; 71248; 71360; 71472; 71904; 72016; 72784; 73040; 73120; 92768; 92864; 93008;
  120782; 120792; 120802; 120812; 120822; 123200; 123632; 125264; 130032
]%N.

(** The cased characters: property Cased. *)
Definition cased_ranges : list (N * N) := [
  (65, 90); (97, 122); (170, 170); (181, 181); (186, 186); (192, 214); (216, 246); (248, 442);
  (444, 447); (452, 659); (661, 696); (704, 705); (736, 740); (837, 837); (880, 883);
  (886, 887); (890, 893); (895, 895); (902, 902); (904, 906); (908, 908); (910, 929);
  (931, 1013); (1015, 1153); (1162, 1327); (1329, 1366); (1376, 1416); (4256, 4293);
  (4295, 4295); (4301, 4301); (4304, 4346); (4349, 4351); (5024, 5109); (5112, 5117);
  (7296, 7304); (7312, 7354); (7357, 7359); (7424, 7615); (7680, 7957); (7960, 7965);
  (7968, 8005); (8008, 8013); (8016, 8023); (8025, 8025); (8027, 8027); (8029, 8029);
  (8031, 8061); (8064, 8116); (8118, 8124); (8126, 8126); (8130, 8132); (8134, 8140);
  (8144, 8147); (8150, 8155); (8160, 8172); (8178, 8180); (8182, 8188); (8305, 8305);
  (8319, 8319); (8336, 8348); (8450, 8450); (8455, 8455); (8458, 8467); (8469, 8469);
  (8473, 8477); (8484, 8484); (8486, 8486); (8488, 8488); (8490, 8493); (8495, 8500);
  (8505, 8505); (8508, 8511); (8517, 8521); (8526, 8526); (8544, 8575); (8579, 8580);
  (9398, 9449); (11264, 11492); (11499, 11502); (11506, 11507); (11520, 11557); (11559, 11559);
  (11565, 11565); (42560, 42605); (42624, 42653); (42786, 42887); (42891, 42894);
  (42896, 42954); (42960, 42961); (42963, 42963); (42965, 42969); (42997, 42998);
  (43000, 43002); (43824, 43866); (43868, 43880); (43888, 43967); (64256, 64262);
  (64275, 64279); (65313, 65338); (65345, 65370); (66560, 66639); (66736, 66771);
  (66776, 66811); (66928, 66938); (66940, 66954); (66956, 66962); (66964, 66965);
  (66967, 66977); (66979, 66993); (66995, 67001); (67003, 67004); (67456, 67456);
  (67459, 67461); (67463, 67504); (67506, 67514); (68736, 68786); (68800, 68850);
  (71840, 71903); (93760, 93823); (119808, 119892); (119894, 119964); (119966, 119967);
  (119970, 119970); (119973, 119974); (119977, 119980); (119982, 119993); (119995, 119995);
  (119997, 120003); (120005, 120069); (120071, 120074); (120077, 120084); (120086, 120092);
  (120094, 120121); (120123, 120126); (120128, 120132); (120134, 120134); (120138, 120144);
  (120146, 120485); (120488, 120512); (120514, 120538); (120540, 120570); (120572, 120596);
  (120598, 120628); (120630, 120654); (120656, 120686); (120688, 120712); (120714, 120744);
  (120746, 120770); (120772, 120779); (122624, 122633); (122635, 122654); (125184, 125251);
  (127280, 127305); (127312, 127337); (127344, 127369)
]%N.

(** The characters that the final-sigma rule looks through:
    property Case_Ignorable. *)
Definition case_ignorable_ranges : list (N * N) := [
  (39, 39); (46, 46); (58, 58); (94, 94); (96, 96); (168, 168); (173, 173); (175, 175);
  (180, 180); (183, 184); (688, 879); (884, 885); (890, 890); (900, 901); (903, 903);
  (1155, 1161); (1369, 1369); (1375, 1375); (1425, 1469); (1471, 1471); (1473, 1474);
  (1476, 1477); (1479, 1479); (1524, 1524); (1536, 1541); (1552, 1562); (1564, 1564);
  (1600, 1600); (1611, 1631); (1648, 1648); (1750, 1757); (1759, 1768); (1770, 1773);
  (1807, 1807); (1809, 1809); (1840, 1866); (1958, 1968); (2027, 2037); (2042, 2042);
  (2045, 2045); (2070, 2093); (2137, 2139); (2184, 2184); (2192, 2193); (2200, 2207);
  (2249, 2306); (2362, 2362); (2364, 2364); (2369, 2376); (2381, 2381); (2385, 2391);
  (2402, 2403); (2417, 2417); (2433, 2433); (2492, 2492); (2497, 2500); (2509, 2509);
  (2530, 2531); (2558, 2558); (2561, 2562); (2620, 2620); (2625, 2626); (2631, 2632);
  (2635, 2637); (2641, 2641); (2672, 2673); (2677, 2677); (2689, 2690); (2748, 2748);
  (2753, 2757); (2759, 2760); (2765, 2765); (2786, 2787); (2810, 2815); (2817, 2817);
  (2876, 2876); (2879, 2879); (2881, 2884); (2893, 2893); (2901, 2902); (2914, 2915);
  (2946, 2946); (3008, 3008); (3021, 3021); (3072, 3072); (3076, 3076); (3132, 3132);
  (3134, 3136); (3142, 3144); (3146, 3149); (3157, 3158); (3170, 3171); (3201, 3201);
  (3260, 3260); (3263, 3263); (3270, 3270); (3276, 3277); (3298, 3299); (3328, 3329);
  (3387, 3388); (3393, 3396); (3405, 3405); (3426, 3427); (3457, 3457); (3530, 3530);
  (3538, 3540); (3542, 3542); (3633, 3633); (3636, 3642); (3654, 3662); (3761, 3761);
  (3764, 3772); (3782, 3782); (3784, 3789); (3864, 3865); (3893, 3893); (3895, 3895);
  (3897, 3897); (3953, 3966); (3968, 3972); (3974, 3975); (3981, 3991); (3993, 4028);
  (4038, 4038); (4141, 4144); (4146, 4151); (4153, 4154); (4157, 4158); (4184, 4185);
  (4190, 4192); (4209, 4212); (4226, 4226); (4229, 4230); (4237, 4237); (4253, 4253);
  (4348, 4348); (4957, 4959); (5906, 5908); (5938, 5939); (5970, 5971); (6002, 6003);
  (6068, 6069); (6071, 6077); (6086, 6086); (6089, 6099); (6103, 6103); (6109, 6109);
  (6155, 6159); (6211, 6211); (6277, 6278); (6313, 6313); (6432, 6434); (6439, 6440);
  (6450, 6450); (6457, 6459); (6679, 6680); (6683, 6683); (6742, 6742); (6744, 6750);
  (6752, 6752); (6754, 6754); (6757, 6764); (6771, 6780); (6783, 6783); (6823, 6823);
  (6832, 6862); (6912, 6915); (6964, 6964); (6966, 6970); (6972, 6972); (6978, 6978);
  (7019, 7027); (7040, 7041); (7074, 7077); (7080, 7081); (7083, 7085); (7142, 7142);
  (7144, 7145); (7149, 7149); (7151, 7153); (7212, 7219); (7222, 7223); (7288, 7293);
  (7376, 7378); (7380, 7392); (7394, 7400); (7405, 7405); (7412, 7412); (7416, 7417);
  (7468, 7530); (7544, 7544); (7579, 7679); (8125, 8125); (8127, 8129); (8141, 8143);
  (8157, 8159); (8173, 8175); (8189, 8190); (8203, 8207); (8216, 8217); (8228, 8228);
  (8231, 8231); (8234, 8238); (8288, 8292); (8294, 8303); (8305, 8305); (8319, 8319);
  (8336, 8348); (8400, 8432); (11388, 11389); (11503, 11505); (11631, 11631); (11647, 11647);
  (11744, 11775); (11823, 11823); (12293, 12293); (12330, 12333); (12337, 12341);
  (12347, 12347); (12441, 12446); (12540, 12542); (40981, 40981); (42232, 42237);
  (42508, 42508); (42607, 42610); (42612, 42621); (42623, 42623); (42652, 42655);
  (42736, 42737); (42752, 42785); (42864, 42864); (42888, 42890); (42994, 42996);
  (43000, 43001); (43010, 43010); (43014, 43014); (43019, 43019); (43045, 43046);
  (43052, 43052); (43204, 43205); (43232, 43249); (43263, 43263); (43302, 43309);
  (43335, 43345); (43392, 43394); (43443, 43443); (43446, 43449); (43452, 43453);
  (43471, 43471); (43493, 43494); (43561, 43566); (43569, 43570); (43573, 43574);
  (43587, 43587); (43596, 43596); (43632, 43632); (43644, 43644); (43696, 43696);
  (43698, 43700); (43703, 43704); (43710, 43711); (43713, 43713); (43741, 43741);
  (43756, 43757); (43763, 43764); (43766, 43766); (43867, 43871); (43881, 43883);
  (44005, 44005); (44008, 44008); (44013, 44013); (64286, 64286); (64434, 64450);
  (65024, 65039); (65043, 65043); (65056, 65071); (65106, 65106); (65109, 65109);
  (65279, 65279); (65287, 65287); (65294, 65294); (65306, 65306); (65342, 65342);
  (65344, 65344); (65392, 65392); (65438, 65439); (65507, 65507); (65529, 65531);
  (66045, 66045); (66272, 66272); (66422, 66426); (67456, 67461); (67463, 67504);
  (67506, 67514); (68097, 68099); (68101, 68102); (68108, 68111); (68152, 68154);
  (68159, 68159); (68325, 68326); (68900, 68903); (69291, 69292); (69446, 69456);
  (69506, 69509); (69633, 69633); (69688, 69702); (69744, 69744); (69747, 69748);
  (69759, 69761); (69811, 69814); (69817, 69818); (69821, 69821); (69826, 69826);
  (69837, 69837); (69888, 69890); (69927, 69931); (69933, 69940); (70003, 70003);
  (70016, 70017); (70070, 70078); (70089, 70092); (70095, 70095); (70191, 70193);
  (70196, 70196); (70198, 70199); (70206, 70206); (70367, 70367); (70371, 70378);
  (70400, 70401); (70459, 70460); (70464, 70464); (70502, 70508); (70512, 70516);
  (70712, 70719); (70722, 70724); (70726, 70726); (70750, 70750); (70835, 70840);
  (70842, 70842); (70847, 70848); (70850, 70851); (71090, 71093); (71100, 71101);
  (71103, 71104); (71132, 71133); (71219, 71226); (71229, 71229); (71231, 71232);
  (71339, 71339); (71341, 71341); (71344, 71349); (71351, 71351); (71453, 71455);
  (71458, 71461); (71463, 71467); (71727, 71735); (71737, 71738); (71995, 71996);
  (71998, 71998); (72003, 72003); (72148, 72151); (72154, 72155); (72160, 72160);
  (72193, 72202); (72243, 72248); (72251, 72254); (72263, 72263); (72273, 72278);
  (72281, 72283); (72330, 72342); (72344, 72345); (72752, 72758); (72760, 72765);
  (72767, 72767); (72850, 72871); (72874, 72880); (72882, 72883); (72885, 72886);
  (73009, 73014); (73018, 73018); (73020, 73021); (73023, 73029); (73031, 73031);
  (73104, 73105); (73109, 73109); (73111, 73111); (73459, 73460); (78896, 78904);
  (92912, 92916); (92976, 92982); (92992, 92995); (94031, 94031); (94095, 94111);
  (94176, 94177); (94179, 94180); (110576, 110579); (110581, 110587); (110589, 110590);
  (113821, 113822); (113824, 113827); (118528, 118573); (118576, 118598); (119143, 119145);
  (119155, 119170); (119173, 119179); (119210, 119213); (119362, 119364); (121344, 121398);
  (121403, 121452); (121461, 121461); (121476, 121476); (121499, 121503); (121505, 121519);
  (122880, 122886); (122888, 122904); (122907, 122913); (122915, 122916); (122918, 122922);
  (123184, 123197); (123566, 123566); (123628, 123631); (125136, 125142); (125252, 125259);
  (127995, 127999); (917505, 917505); (917536, 917631); (917760, 917999)
]%N.

(** Lower case, one code point for one: the code points [lo], [lo + step],
    ..., [hi] go to themselves plus [delta]. *)
Definition lower_runs : list (N * N * N * Z) := [
  (65, 90, 1, 32%Z); (192, 214, 1, 32%Z); (216, 222, 1, 32%Z); (256, 302, 2, 1%Z);
  (306, 310, 2, 1%Z); (313, 327, 2, 1%Z); (330, 374, 2, 1%Z); (376, 376, 1, (-121)%Z);
  (377, 381, 2, 1%Z); (385, 385, 1, 210%Z); (386, 388, 2, 1%Z); (390, 390, 1, 206%Z);
  (391, 391, 1, 1%Z); (393, 394, 1, 205%Z); (395, 395, 1, 1%Z); (398, 398, 1, 79%Z);
  (399, 399, 1, 202%Z); (400, 400, 1, 203%Z); (401, 401, 1, 1%Z); (403, 403, 1, 205%Z);
  (404, 404, 1, 207%Z); (406, 406, 1, 211%Z); (407, 407, 1, 209%Z); (408, 408, 1, 1%Z);
  (412, 412, 1, 211%Z); (413, 413, 1, 213%Z); (415, 415, 1, 214%Z); (416, 420, 2, 1%Z);
  (422, 422, 1, 218%Z); (423, 423, 1, 1%Z); (425, 425, 1, 218%Z); (428, 428, 1, 1%Z);
  (430, 430, 1, 218%Z); (431, 431, 1, 1%Z); (433, 434, 1, 217%Z); (435, 437, 2, 1%Z);
  (439, 439, 1, 219%Z); (440, 440, 1, 1%Z); (444, 444, 1, 1%Z); (452, 452, 1, 2%Z);
  (453, 453, 1, 1%Z); (455, 455, 1, 2%Z); (456, 456, 1, 1%Z); (458, 458, 1, 2%Z);
  (459, 475, 2, 1%Z); (478, 494, 2, 1%Z); (497, 497, 1, 2%Z); (498, 500, 2, 1%Z);
  (502, 502, 1, (-97)%Z); (503, 503, 1, (-56)%Z); (504, 542, 2, 1%Z); (544, 544, 1, (-130)%Z);
  (546, 562, 2, 1%Z); (570, 570, 1, 10795%Z); (571, 571, 1, 1%Z); (573, 573, 1, (-163)%Z);
  (574, 574, 1, 10792%Z); (577, 577, 1, 1%Z); (579, 579, 1, (-195)%Z); (580, 580, 1, 69%Z);
  (581, 581, 1, 71%Z); (582, 590, 2, 1%Z); (880, 882, 2, 1%Z); (886, 886, 1, 1%Z);
  (895, 895, 1, 116%Z); (902, 902, 1, 38%Z); (904, 906, 1, 37%Z); (908, 908, 1, 64%Z);
  (910, 911, 1, 63%Z); (913, 929, 1, 32%Z); (931, 939, 1, 32%Z); (975, 975, 1, 8%Z);
  (984, 1006, 2, 1%Z); (1012, 1012, 1, (-60)%Z); (1015, 1015, 1, 1%Z); (1017, 1017, 1, (-7)%Z);
  (1018, 1018, 1, 1%Z); (1021, 1023, 1, (-130)%Z); (1024, 1039, 1, 80%Z); (1040, 1071, 1, 32%Z);
  (1120, 1152, 2, 1%Z); (1162, 1214, 2, 1%Z); (1216, 1216, 1, 15%Z); (1217, 1229, 2, 1%Z);
  (1232, 1326, 2, 1%Z); (1329, 1366, 1, 48%Z); (4256, 4293, 1, 7264%Z); (4295, 4295, 1, 7264%Z);
  (4301, 4301, 1, 7264%Z); (5024, 5103, 1, 38864%Z); (5104, 5109, 1, 8%Z);
  (7312, 7354, 1, (-3008)%Z); (7357, 7359, 1, (-3008)%Z); (7680, 7828, 2, 1%Z);
  (7838, 7838, 1, (-7615)%Z); (7840, 7934, 2, 1%Z); (7944, 7951, 1, (-8)%Z);
  (7960, 7965, 1, (-8)%Z); (7976, 7983, 1, (-8)%Z); (7992, 7999, 1, (-8)%Z);
  (8008, 8013, 1, (-8)%Z); (8025, 8031, 2, (-8)%Z); (8040, 8047, 1, (-8)%Z);
  (8072, 8079, 1, (-8)%Z); (8088, 8095, 1, (-8)%Z); (8104, 8111, 1, (-8)%Z);
  (8120, 8121, 1, (-8)%Z); (8122, 8123, 1, (-74)%Z); (8124, 8124, 1, (-9)%Z);
  (8136, 8139, 1, (-86)%Z); (8140, 8140, 1, (-9)%Z); (8152, 8153, 1, (-8)%Z);
  (8154, 8155, 1, (-100)%Z); (8168, 8169, 1, (-8)%Z); (8170, 8171, 1, (-112)%Z);
  (8172, 8172, 1, (-7)%Z); (8184, 8185, 1, (-128)%Z); (8186, 8187, 1, (-126)%Z);
  (8188, 8188, 1, (-9)%Z); (8486, 8486, 1, (-7517)%Z); (8490, 8490, 1, (-8383)%Z);
  (8491, 8491, 1, (-8262)%Z); (8498, 8498, 1, 28%Z); (8544, 8559, 1, 16%Z);
  (8579, 8579, 1, 1%Z); (9398, 9423, 1, 26%Z); (11264, 11311, 1, 48%Z); (11360, 11360, 1, 1%Z);
  (11362, 11362, 1, (-10743)%Z); (11363, 11363, 1, (-3814)%Z); (11364, 11364, 1, (-10727)%Z);
  (11367, 11371, 2, 1%Z); (11373, 11373, 1, (-10780)%Z); (11374, 11374, 1, (-10749)%Z);
  (11375, 11375, 1, (-10783)%Z); (11376, 11376, 1, (-10782)%Z); (11378, 11378, 1, 1%Z);
  (11381, 11381, 1, 1%Z); (11390, 11391, 1, (-10815)%Z); (11392, 11490, 2, 1%Z);
  (11499, 11501, 2, 1%Z); (11506, 11506, 1, 1%Z); (42560, 42604, 2, 1%Z);
  (42624, 42650, 2, 1%Z); (42786, 42798, 2, 1%Z); (42802, 42862, 2, 1%Z);
  (42873, 42875, 2, 1%Z); (42877, 42877, 1, (-35332)%Z); (42878, 42886, 2, 1%Z);
  (42891, 42891, 1, 1%Z); (42893, 42893, 1, (-42280)%Z); (42896, 42898, 2, 1%Z);
  (42902, 42920, 2, 1%Z); (42922, 42922, 1, (-42308)%Z); (42923, 42923, 1, (-42319)%Z);
  (42924, 42924, 1, (-42315)%Z); (42925, 42925, 1, (-42305)%Z); (42926, 42926, 1, (-42308)%Z);
  (42928, 42928, 1, (-42258)%Z); (42929, 42929, 1, (-42282)%Z); (42930, 42930, 1, (-42261)%Z);
  (42931, 42931, 1, 928%Z); (42932, 42946, 2, 1%Z); (42948, 42948, 1, (-48)%Z);
  (42949, 42949, 1, (-42307)%Z); (42950, 42950, 1, (-35384)%Z); (42951, 42953, 2, 1%Z);
  (42960, 42960, 1, 1%Z); (42966, 42968, 2, 1%Z); (42997, 42997, 1, 1%Z);
  (65313, 65338, 1, 32%Z); (66560, 66599, 1, 40%Z); (66736, 66771, 1, 40%Z);
  (66928, 66938, 1, 39%Z); (66940, 66954, 1, 39%Z); (66956, 66962, 1, 39%Z);
  (66964, 66965, 1, 39%Z); (68736, 68786, 1, 64%Z); (71840, 71871, 1, 32%Z);
  (93760, 93791, 1, 32%Z); (125184, 125217, 1, 34%Z)
]%N.

(** Lower case, several code points for one. *)
Definition lower_special : list (N * list N) := [
  (304, [105; 775])
]%N.

(** Title case, one code point for one. *)
Definition title_runs : list (N * N * N * Z) := [
  (97, 122, 1, (-32)%Z); (181, 181, 1, 743%Z); (224, 246, 1, (-32)%Z); (248, 254, 1, (-32)%Z);
  (255, 255, 1, 121%Z); (257, 303, 2, (-1)%Z); (305, 305, 1, (-232)%Z); (307, 311, 2, (-1)%Z);
  (314, 328, 2, (-1)%Z); (331, 375, 2, (-1)%Z); (378, 382, 2, (-1)%Z); (383, 383, 1, (-300)%Z);
  (384, 384, 1, 195%Z); (387, 389, 2, (-1)%Z); (392, 392, 1, (-1)%Z); (396, 396, 1, (-1)%Z);
  (402, 402, 1, (-1)%Z); (405, 405, 1, 97%Z); (409, 409, 1, (-1)%Z); (410, 410, 1, 163%Z);
  (414, 414, 1, 130%Z); (417, 421, 2, (-1)%Z); (424, 424, 1, (-1)%Z); (429, 429, 1, (-1)%Z);
  (432, 432, 1, (-1)%Z); (436, 438, 2, (-1)%Z); (441, 441, 1, (-1)%Z); (445, 445, 1, (-1)%Z);
  (447, 447, 1, 56%Z); (452, 452, 1, 1%Z); (454, 454, 1, (-1)%Z); (455, 455, 1, 1%Z);
  (457, 457, 1, (-1)%Z); (458, 458, 1, 1%Z); (460, 476, 2, (-1)%Z); (477, 477, 1, (-79)%Z);
  (479, 495, 2, (-1)%Z); (497, 497, 1, 1%Z); (499, 501, 2, (-1)%Z); (505, 543, 2, (-1)%Z);
  (547, 563, 2, (-1)%Z); (572, 572, 1, (-1)%Z); (575, 576, 1, 10815%Z); (578, 578, 1, (-1)%Z);
  (583, 591, 2, (-1)%Z); (592, 592, 1, 10783%Z); (593, 593, 1, 10780%Z); (594, 594, 1, 10782%Z);
  (595, 595, 1, (-210)%Z); (596, 596, 1, (-206)%Z); (598, 599, 1, (-205)%Z);
  (601, 601, 1, (-202)%Z); (603, 603, 1, (-203)%Z); (604, 604, 1, 42319%Z);
  (608, 608, 1, (-205)%Z); (609, 609, 1, 42315%Z); (611, 611, 1, (-207)%Z);
  (613, 613, 1, 42280%Z); (614, 614, 1, 42308%Z); (616, 616, 1, (-209)%Z);
  (617, 617, 1, (-211)%Z); (618, 618, 1, 42308%Z); (619, 619, 1, 10743%Z);
  (620, 620, 1, 42305%Z); (623, 623, 1, (-211)%Z); (625, 625, 1, 10749%Z);
  (626, 626, 1, (-213)%Z); (629, 629, 1, (-214)%Z); (637, 637, 1, 10727%Z);
  (640, 640, 1, (-218)%Z); (642, 642, 1, 42307%Z); (643, 643, 1, (-218)%Z);
  (647, 647, 1, 42282%Z); (648, 648, 1, (-218)%Z); (649, 649, 1, (-69)%Z);
  (650, 651, 1, (-217)%Z); (652, 652, 1, (-71)%Z); (658, 658, 1, (-219)%Z);
  (669, 669, 1, 42261%Z); (670, 670, 1, 42258%Z); (837, 837, 1, 84%Z); (881, 883, 2, (-1)%Z);
  (887, 887, 1, (-1)%Z); (891, 893, 1, 130%Z); (940, 940, 1, (-38)%Z); (941, 943, 1, (-37)%Z);
  (945, 961, 1, (-32)%Z); (962, 962, 1, (-31)%Z); (963, 971, 1, (-32)%Z);
  (972, 972, 1, (-64)%Z); (973, 974, 1, (-63)%Z); (976, 976, 1, (-62)%Z);
  (977, 977, 1, (-57)%Z); (981, 981, 1, (-47)%Z); (982, 982, 1, (-54)%Z); (983, 983, 1, (-8)%Z);
  (985, 1007, 2, (-1)%Z); (1008, 1008, 1, (-86)%Z); (1009, 1009, 1, (-80)%Z);
  (1010, 1010, 1, 7%Z); (1011, 1011, 1, (-116)%Z); (1013, 1013, 1, (-96)%Z);
  (1016, 1016, 1, (-1)%Z); (1019, 1019, 1, (-1)%Z); (1072, 1103, 1, (-32)%Z);
  (1104, 1119, 1, (-80)%Z); (1121, 1153, 2, (-1)%Z); (1163, 1215, 2, (-1)%Z);
  (1218, 1230, 2, (-1)%Z); (1231, 1231, 1, (-15)%Z); (1233, 1327, 2, (-1)%Z);
  (1377, 1414, 1, (-48)%Z); (5112, 5117, 1, (-8)%Z); (7296, 7296, 1, (-6254)%Z);
  (7297, 7297, 1, (-6253)%Z); (7298, 7298, 1, (-6244)%Z); (7299, 7300, 1, (-6242)%Z);
  (7301, 7301, 1, (-6243)%Z); (7302, 7302, 1, (-6236)%Z); (7303, 7303, 1, (-6181)%Z);
  (7304, 7304, 1, 35266%Z); (7545, 7545, 1, 35332%Z); (7549, 7549, 1, 3814%Z);
  (7566, 7566, 1, 35384%Z); (7681, 7829, 2, (-1)%Z); (7835, 7835, 1, (-59)%Z);
  (7841, 7935, 2, (-1)%Z); (7936, 7943, 1, 8%Z); (7952, 7957, 1, 8%Z); (7968, 7975, 1, 8%Z);
  (7984, 7991, 1, 8%Z); (8000, 8005, 1, 8%Z); (8017, 8023, 2, 8%Z); (8032, 8039, 1, 8%Z);
  (8048, 8049, 1, 74%Z); (8050, 8053, 1, 86%Z); (8054, 8055, 1, 100%Z); (8056, 8057, 1, 128%Z);
  (8058, 8059, 1, 112%Z); (8060, 8061, 1, 126%Z); (8064, 8071, 1, 8%Z); (8080, 8087, 1, 8%Z);
  (8096, 8103, 1, 8%Z); (8112, 8113, 1, 8%Z); (8115, 8115, 1, 9%Z); (8126, 8126, 1, (-7205)%Z);
  (8131, 8131, 1, 9%Z); (8144, 8145, 1, 8%Z); (8160, 8161, 1, 8%Z); (8165, 8165, 1, 7%Z);
  (8179, 8179, 1, 9%Z); (8526, 8526, 1, (-28)%Z); (8560, 8575, 1, (-16)%Z);
  (8580, 8580, 1, (-1)%Z); (9424, 9449, 1, (-26)%Z); (11312, 11359, 1, (-48)%Z);
  (11361, 11361, 1, (-1)%Z); (11365, 11365, 1, (-10795)%Z); (11366, 11366, 1, (-10792)%Z);
  (11368, 11372, 2, (-1)%Z); (11379, 11379, 1, (-1)%Z); (11382, 11382, 1, (-1)%Z);
  (11393, 11491, 2, (-1)%Z); (11500, 11502, 2, (-1)%Z); (11507, 11507, 1, (-1)%Z);
  (11520, 11557, 1, (-7264)%Z); (11559, 11559, 1, (-7264)%Z); (11565, 11565, 1, (-7264)%Z);
  (42561, 42605, 2, (-1)%Z); (42625, 42651, 2, (-1)%Z); (42787, 42799, 2, (-1)%Z);
  (42803, 42863, 2, (-1)%Z); (42874, 42876, 2, (-1)%Z); (42879, 42887, 2, (-1)%Z);
  (42892, 42892, 1, (-1)%Z); (42897, 42899, 2, (-1)%Z); (42900, 42900, 1, 48%Z);
  (42903, 42921, 2, (-1)%Z); (42933, 42947, 2, (-1)%Z); (42952, 42954, 2, (-1)%Z);
  (42961, 42961, 1, (-1)%Z); (42967, 42969, 2, (-1)%Z); (42998, 42998, 1, (-1)%Z);
  (43859, 43859, 1, (-928)%Z); (43888, 43967, 1, (-38864)%Z); (65345, 65370, 1, (-32)%Z);
  (66600, 66639, 1, (-40)%Z); (66776, 66811, 1, (-40)%Z); (66967, 66977, 1, (-39)%Z);
  (66979, 66993, 1, (-39)%Z); (66995, 67001, 1, (-39)%Z); (67003, 67004, 1, (-39)%Z);
  (68800, 68850, 1, (-64)%Z); (71872, 71903, 1, (-32)%Z); (93792, 93823, 1, (-32)%Z);
  (125218, 125251, 1, (-34)%Z)
]%N.

(** Title case, several code points for one. *)
Definition title_special : list (N * list N) := [
  (223, [83; 115]); (329, [700; 78]); (496, [74; 780]); (912, [921; 776; 769]);
  (944, [933; 776; 769]); (1415, [1333; 1410]); (7830, [72; 817]); (7831, [84; 776]);
  (7832, [87; 778]); (7833, [89; 778]); (7834, [65; 702]); (8016, [933; 787]);
  (8018, [933; 787; 768]); (8020, [933; 787; 769]); (8022, [933; 787; 834]);
  (8114, [8122; 837]); (8116, [902; 837]); (8118, [913; 834]); (8119, [913; 834; 837]);
  (8130, [8138; 837]); (8132, [905; 837]); (8134, [919; 834]); (8135, [919; 834; 837]);
  (8146, [921; 776; 768]); (8147, [921; 776; 769]); (8150, [921; 834]); (8151, [921; 776; 834]);
  (8162, [933; 776; 768]); (8163, [933; 776; 769]); (8164, [929; 787]); (8166, [933; 834]);
  (8167, [933; 776; 834]); (8178, [8186; 837]); (8180, [911; 837]); (8182, [937; 834]);
  (8183, [937; 834; 837]); (64256, [70; 102]); (64257, [70; 105]); (64258, [70; 108]);
  (64259, [70; 102; 105]); (64260, [70; 102; 108]); (64261, [83; 116]); (64262, [83; 116]);
  (64275, [1348; 1398]); (64276, [1348; 1381]); (64277, [1348; 1387]); (64278, [1358; 1398]);
  (64279, [1348; 1389])
]%N.

(** The characters [repr] escapes: not [str.isprintable]. *)
Definition unprintable_ranges : list (N * N) := [
  (0, 31); (127, 160); (173, 173); (888, 889); (896, 899); (907, 907); (909, 909); (930, 930);
  (1328, 1328); (1367, 1368); (1419, 1420); (1424, 1424); (1480, 1487); (1515, 1518);
  (1525, 1541); (1564, 1564); (1757, 1757); (1806, 1807); (1867, 1868); (1970, 1983);
  (2043, 2044); (2094, 2095); (2111, 2111); (2140, 2141); (2143, 2143); (2155, 2159);
  (2191, 2199); (2274, 2274); (2436, 2436); (2445, 2446); (2449, 2450); (2473, 2473);
  (2481, 2481); (2483, 2485); (2490, 2491); (2501, 2502); (2505, 2506); (2511, 2518);
  (2520, 2523); (2526, 2526); (2532, 2533); (2559, 2560); (2564, 2564); (2571, 2574);
  (2577, 2578); (2601, 2601); (2609, 2609); (2612, 2612); (2615, 2615); (2618, 2619);
  (2621, 2621); (2627, 2630); (2633, 2634); (2638, 2640); (2642, 2648); (2653, 2653);
  (2655, 2661); (2679, 2688); (2692, 2692); (2702, 2702); (2706, 2706); (2729, 2729);
  (2737, 2737); (2740, 2740); (2746, 2747); (2758, 2758); (2762, 2762); (2766, 2767);
  (2769, 2783); (2788, 2789); (2802, 2808); (2816, 2816); (2820, 2820); (2829, 2830);
  (2833, 2834); (2857, 2857); (2865, 2865); (2868, 2868); (2874, 2875); (2885, 2886);
  (2889, 2890); (2894, 2900); (2904, 2907); (2910, 2910); (2916, 2917); (2936, 2945);
  (2948, 2948); (2955, 2957); (2961, 2961); (2966, 2968); (2971, 2971); (2973, 2973);
  (2976, 2978); (2981, 2983); (2987, 2989); (3002, 3005); (3011, 3013); (3017, 3017);
  (3022, 3023); (3025, 3030); (3032, 3045); (3067, 3071); (3085, 3085); (3089, 3089);
  (3113, 3113); (3130, 3131); (3141, 3141); (3145, 3145); (3150, 3156); (3159, 3159);
  (3163, 3164); (3166, 3167); (3172, 3173); (3184, 3190); (3213, 3213); (3217, 3217);
  (3241, 3241); (3252, 3252); (3258, 3259); (3269, 3269); (3273, 3273); (3278, 3284);
  (3287, 3292); (3295, 3295); (3300, 3301); (3312, 3312); (3315, 3327); (3341, 3341);
  (3345, 3345); (3397, 3397); (3401, 3401); (3408, 3411); (3428, 3429); (3456, 3456);
  (3460, 3460); (3479, 3481); (3506, 3506); (3516, 3516); (3518, 3519); (3527, 3529);
  (3531, 3534); (3541, 3541); (3543, 3543); (3552, 3557); (3568, 3569); (3573, 3584);
  (3643, 3646); (3676, 3712); (3715, 3715); (3717, 3717); (3723, 3723); (3748, 3748);
  (3750, 3750); (3774, 3775); (3781, 3781); (3783, 3783); (3790, 3791); (3802, 3803);
  (3808, 3839); (3912, 3912); (3949, 3952); (3992, 3992); (4029, 4029); (4045, 4045);
  (4059, 4095); (4294, 4294); (4296, 4300); (4302, 4303); (4681, 4681); (4686, 4687);
  (4695, 4695); (4697, 4697); (4702, 4703); (4745, 4745); (4750, 4751); (4785, 4785);
  (4790, 4791); (4799, 4799); (4801, 4801); (4806, 4807); (4823, 4823); (4881, 4881);
  (4886, 4887); (4955, 4956); (4989, 4991); (5018, 5023); (5110, 5111); (5118, 5119);
  (5760, 5760); (5789, 5791); (5881, 5887); (5910, 5918); (5943, 5951); (5972, 5983);
  (5997, 5997); (6001, 6001); (6004, 6015); (6110, 6111); (6122, 6127); (6138, 6143);
  (6158, 6158); (6170, 6175); (6265, 6271); (6315, 6319); (6390, 6399); (6431, 6431);
  (6444, 6447); (6460, 6463); (6465, 6467); (6510, 6511); (6517, 6527); (6572, 6575);
  (6602, 6607); (6619, 6621); (6684, 6685); (6751, 6751); (6781, 6782); (6794, 6799);
  (6810, 6815); (6830, 6831); (6863, 6911); (6989, 6991); (7039, 7039); (7156, 7163);
  (7224, 7226); (7242, 7244); (7305, 7311); (7355, 7356); (7368, 7375); (7419, 7423);
  (7958, 7959); (7966, 7967); (8006, 8007); (8014, 8015); (8024, 8024); (8026, 8026);
  (8028, 8028); (8030, 8030); (8062, 8063); (8117, 8117); (8133, 8133); (8148, 8149);
  (8156, 8156); (8176, 8177); (8181, 8181); (8191, 8207); (8232, 8239); (8287, 8303);
  (8306, 8307); (8335, 8335); (8349, 8351); (8385, 8399); (8433, 8447); (8588, 8591);
  (9255, 9279); (9291, 9311); (11124, 11125); (11158, 11158); (11508, 11512); (11558, 11558);
  (11560, 11564); (11566, 11567); (11624, 11630); (11633, 11646); (11671, 11679);
  (11687, 11687); (11695, 11695); (11703, 11703); (11711, 11711); (11719, 11719);
  (11727, 11727); (11735, 11735); (11743, 11743); (11870, 11903); (11930, 11930);
  (12020, 12031); (12246, 12271); (12284, 12288); (12352, 12352); (12439, 12440);
  (12544, 12548); (12592, 12592); (12687, 12687); (12772, 12783); (12831, 12831);
  (42125, 42127); (42183, 42191); (42540, 42559); (42744, 42751); (42955, 42959);
  (42962, 42962); (42964, 42964); (42970, 42993); (43053, 43055); (43066, 43071);
  (43128, 43135); (43206, 43213); (43226, 43231); (43348, 43358); (43389, 43391);
  (43470, 43470); (43482, 43485); (43519, 43519); (43575, 43583); (43598, 43599);
  (43610, 43611); (43715, 43738); (43767, 43776); (43783, 43784); (43791, 43792);
  (43799, 43807); (43815, 43815); (43823, 43823); (43884, 43887); (44014, 44015);
  (44026, 44031); (55204, 55215); (55239, 55242); (55292, 63743); (64110, 64111);
  (64218, 64255); (64263, 64274); (64280, 64284); (64311, 64311); (64317, 64317);
  (64319, 64319); (64322, 64322); (64325, 64325); (64451, 64466); (64912, 64913);
  (64968, 64974); (64976, 65007); (65050, 65055); (65107, 65107); (65127, 65127);
  (65132, 65135); (65141, 65141); (65277, 65280); (65471, 65473); (65480, 65481);
  (65488, 65489); (65496, 65497); (65501, 65503); (65511, 65511); (65519, 65531);
  (65534, 65535); (65548, 65548); (65575, 65575); (65595, 65595); (65598, 65598);
  (65614, 65615); (65630, 65663); (65787, 65791); (65795, 65798); (65844, 65846);
  (65935, 65935); (65949, 65951); (65953, 65999); (66046, 66175); (66205, 66207);
  (66257, 66271); (66300, 66303); (66340, 66348); (66379, 66383); (66427, 66431);
  (66462, 66462); (66500, 66503); (66518, 66559); (66718, 66719); (66730, 66735);
  (66772, 66775); (66812, 66815); (66856, 66863); (66916, 66926); (66939, 66939);
  (66955, 66955); (66963, 66963); (66966, 66966); (66978, 66978); (66994, 66994);
  (67002, 67002); (67005, 67071); (67383, 67391); (67414, 67423); (67432, 67455);
  (67462, 67462); (67505, 67505); (67515, 67583); (67590, 67591); (67593, 67593);
  (67638, 67638); (67641, 67643); (67645, 67646); (67670, 67670); (67743, 67750);
  (67760, 67807); (67827, 67827); (67830, 67834); (67868, 67870); (67898, 67902);
  (67904, 67967); (68024, 68027); (68048, 68049); (68100, 68100); (68103, 68107);
  (68116, 68116); (68120, 68120); (68150, 68151); (68155, 68158); (68169, 68175);
  (68185, 68191); (68256, 68287); (68327, 68330); (68343, 68351); (68406, 68408);
  (68438, 68439); (68467, 68471); (68498, 68504); (68509, 68520); (68528, 68607);
  (68681, 68735); (68787, 68799); (68851, 68857); (68904, 68911); (68922, 69215);
  (69247, 69247); (69290, 69290); (69294, 69295); (69298, 69375); (69416, 69423);
  (69466, 69487); (69514, 69551); (69580, 69599); (69623, 69631); (69710, 69713);
  (69750, 69758); (69821, 69821); (69827, 69839); (69865, 69871); (69882, 69887);
  (69941, 69941); (69960, 69967); (70007, 70015); (70112, 70112); (70133, 70143);
  (70162, 70162); (70207, 70271); (70279, 70279); (70281, 70281); (70286, 70286);
  (70302, 70302); (70314, 70319); (70379, 70383); (70394, 70399); (70404, 70404);
  (70413, 70414); (70417, 70418); (70441, 70441); (70449, 70449); (70452, 70452);
  (70458, 70458); (70469, 70470); (70473, 70474); (70478, 70479); (70481, 70486);
  (70488, 70492); (70500, 70501); (70509, 70511); (70517, 70655); (70748, 70748);
  (70754, 70783); (70856, 70863); (70874, 71039); (71094, 71095); (71134, 71167);
  (71237, 71247); (71258, 71263); (71277, 71295); (71354, 71359); (71370, 71423);
  (71451, 71452); (71468, 71471); (71495, 71679); (71740, 71839); (71923, 71934);
  (71943, 71944); (71946, 71947); (71956, 71956); (71959, 71959); (71990, 71990);
  (71993, 71994); (72007, 72015); (72026, 72095); (72104, 72105); (72152, 72153);
  (72165, 72191); (72264, 72271); (72355, 72367); (72441, 72703); (72713, 72713);
  (72759, 72759); (72774, 72783); (72813, 72815); (72848, 72849); (72872, 72872);
  (72887, 72959); (72967, 72967); (72970, 72970); (73015, 73017); (73019, 73019);
  (73022, 73022); (73032, 73039); (73050, 73055); (73062, 73062); (73065, 73065);
  (73103, 73103); (73106, 73106); (73113, 73119); (73130, 73439); (73465, 73647);
  (73649, 73663); (73714, 73726); (74650, 74751); (74863, 74863); (74869, 74879);
  (75076, 77711); (77811, 77823); (78895, 82943); (83527, 92159); (92729, 92735);
  (92767, 92767); (92778, 92781); (92863, 92863); (92874, 92879); (92910, 92911);
  (92918, 92927); (92998, 93007); (93018, 93018); (93026, 93026); (93048, 93052);
  (93072, 93759); (93851, 93951); (94027, 94030); (94088, 94094); (94112, 94175);
  (94181, 94191); (94194, 94207); (100344, 100351); (101590, 101631); (101641, 110575);
  (110580, 110580); (110588, 110588); (110591, 110591); (110883, 110927); (110931, 110947);
  (110952, 110959); (111356, 113663); (113771, 113775); (113789, 113791); (113801, 113807);
  (113818, 113819); (113824, 118527); (118574, 118575); (118599, 118607); (118724, 118783);
  (119030, 119039); (119079, 119080); (119155, 119162); (119275, 119295); (119366, 119519);
  (119540, 119551); (119639, 119647); (119673, 119807); (119893, 119893); (119965, 119965);
  (119968, 119969); (119971, 119972); (119975, 119976); (119981, 119981); (119994, 119994);
  (119996, 119996); (120004, 120004); (120070, 120070); (120075, 120076); (120085, 120085);
  (120093, 120093); (120122, 120122); (120127, 120127); (120133, 120133); (120135, 120137);
  (120145, 120145); (120486, 120487); (120780, 120781); (121484, 121498); (121504, 121504);
  (121520, 122623); (122655, 122879); (122887, 122887); (122905, 122906); (122914, 122914);
  (122917, 122917); (122923, 123135); (123181, 123183); (123198, 123199); (123210, 123213);
  (123216, 123535); (123567, 123583); (123642, 123646); (123648, 124895); (124903, 124903);
  (124908, 124908); (124911, 124911); (124927, 124927); (125125, 125126); (125143, 125183);
  (125260, 125263); (125274, 125277); (125280, 126064); (126133, 126208); (126270, 126463);
  (126468, 126468); (126496, 126496); (126499, 126499); (126501, 126502); (126504, 126504);
  (126515, 126515); (126520, 126520); (126522, 126522); (126524, 126529); (126531, 126534);
  (126536, 126536); (126538, 126538); (126540, 126540); (126544, 126544); (126547, 126547);
  (126549, 126550); (126552, 126552); (126554, 126554); (126556, 126556); (126558, 126558);
  (126560, 126560); (126563, 126563); (126565, 126566); (126571, 126571); (126579, 126579);
  (126584, 126584); (126589, 126589); (126591, 126591); (126602, 126602); (126620, 126624);
  (126628, 126628); (126634, 126634); (126652, 126703); (126706, 126975); (127020, 127023);
  (127124, 127135); (127151, 127152); (127168, 127168); (127184, 127184); (127222, 127231);
  (127406, 127461); (127491, 127503); (127548, 127551); (127561, 127567); (127570, 127583);
  (127590, 127743); (128728, 128732); (128749, 128751); (128765, 128767); (128884, 128895);
  (128985, 128991); (129004, 129007); (129009, 129023); (129036, 129039); (129096, 129103);
  (129114, 129119); (129160, 129167); (129198, 129199); (129202, 129279); (129620, 129631);
  (129646, 129647); (129653, 129655); (129661, 129663); (129671, 129679); (129709, 129711);
  (129723, 129727); (129734, 129743); (129754, 129759); (129768, 129775); (129783, 129791);
  (129939, 129939); (129995, 130031); (130042, 131071); (173792, 173823); (177977, 177983);
  (178206, 178207); (183970, 183983); (191457, 194559); (195102, 196607); (201547, 917759);
  (918000, 1114111)
]%N.

Definition within (n : N) (ranges : list (N * N)) : bool :=
  existsb (fun r => (fst r <=? n) && (n <=? snd r))%N ranges.

(** [Py_UNICODE_ISSPACE]. *)
Definition is_space (c : char) : bool := within (code c) space_ranges.

(** [Py_UNICODE_TODECIMAL]: the value of a decimal digit. *)
Definition decimal (c : char) : option Z :=
  match find (fun zero => (zero <=? code c) && (code c <=? zero + 9))%N decimal_zeros with
  | Some zero => Some (Z.of_N (code c - zero))
  | None => None
  end.

Definition is_cased (c : char) : bool := within (code c) cased_ranges.

Definition is_case_ignorable (c : char) : bool := within (code c) case_ignorable_ranges.

(** [Py_UNICODE_ISPRINTABLE]. *)
Definition is_printable (c : char) : bool := negb (within (code c) unprintable_ranges).

Definition in_run (n : N) (r : N * N * N * Z) : bool :=
  let '(lo, hi, step, _) := r in
  ((lo <=? n) && (n <=? hi) && ((n - lo) mod step =? 0))%N.

Definition simple (runs : list (N * N * N * Z)) (n : N) : N :=
  match find (in_run n) runs with
  | Some (_, _, _, delta) => Z.to_N (Z.of_N n + delta)
  | None => n
  end.

Definition full (special : list (N * list N)) (runs : list (N * N * N * Z)) (c : char)
    : str :=
  match find (fun entry => (fst entry =? code c)%N) special with
  | Some (_, cs) => of_codes cs
  | None => String (Char (simple runs (code c))) EmptyString
  end.

(** The lower case of a character by itself. *)
Definition to_lower_full (c : char) : str := full lower_special lower_runs c.

(** The title case of a character. *)
Definition to_title_full (c : char) : str := full title_special title_runs c.

End Unicode.

(** ** Python strings *)

Module Str.

Definition is_space (c : char) : bool := Unicode.is_space c.

(** The class [\d] of a pattern on [str], and the digits of [int] and
    [float]: the decimal digits of every script. *)
Definition is_digit (c : char) : bool :=
  match Unicode.decimal c with
  | Some _ => true
  | None => false
  end.

(** [s.startswith(p)]. *)
Fixpoint startswith (p s : str) : bool :=
  match p, s with
  | EmptyString, _ => true
  | String a p', String b s' => Char.eqb a b && startswith p' s'
  | String _ _, EmptyString => false
  end.

(** [p in s]: [p] occurs in [s] as a substring. *)
Fixpoint contains (p s : str) : bool :=
  startswith p s ||
  match s with
  | EmptyString => false
  | String _ s' => contains p s'
  end.

(** The scan of [str.replace] for a non-empty [old]: left to right, a
    position where [old] starts emits [new] and jumps over [old] ([skip]
    counts the characters of the match still to be jumped over); any other
    position emits its character. *)
Fixpoint replace_scan (old new : str) (skip : nat) (s : str) : str :=
  match s with
  | EmptyString => EmptyString
  | String c s' =>
      match skip with
      | S n => replace_scan old new n s'
      | O =>
          if startswith old s
          then new ++ replace_scan old new (pred (length old)) s'
          else String c (replace_scan old new 0 s')
      end
  end.

(** For an empty [old], [str.replace] puts [new] before every character and
    at the end. *)
Fixpoint interleave (new s : str) : str :=
  match s with
  | EmptyString => new
  | String c s' => new ++ String c (interleave new s')
  end.

(** [s.replace(old, new)]. *)
Definition replace (old new s : str) : str :=
  match old with
  | EmptyString => interleave new s
  | String _ _ => replace_scan old new 0 s
  end.

Definition capital_sigma : char := Char 931.
Definition small_sigma : char := Char 963.
Definition final_sigma : char := Char 962.

(** As far as the text after it goes, a capital sigma ends its word: no
    cased character follows it, case-ignorable characters apart. *)
Fixpoint final_after (s : str) : bool :=
  match s with
  | EmptyString => true
  | String c s' =>
      if Unicode.is_case_ignorable c then final_after s' else negb (Unicode.is_cased c)
  end.

(** Whether a cased character comes before the next position,
    case-ignorable characters apart, given that for the position of [c]. *)
Definition cased_before (before : bool) (c : char) : bool :=
  if Unicode.is_case_ignorable c then before else Unicode.is_cased c.

(** The lower case of [c] where it stands, before [rest]: a capital sigma
    that ends a word becomes a final sigma. *)
Definition lower_at (before : bool) (c : char) (rest : str) : str :=
  if Char.eqb c capital_sigma then
    String (if before && final_after rest then final_sigma else small_sigma) EmptyString
  else Unicode.to_lower_full c.

Fixpoint lower_from (before : bool) (s : str) : str :=
  match s with
  | EmptyString => EmptyString
  | String c s' => lower_at before c s' ++ lower_from (cased_before before c) s'
  end.

(** [s.lower()]. *)
Definition lower (s : str) : str := lower_from false s.

(** [s.title()]: a character that follows a cased character is lowercased,
    any other character is put in title case. *)
Fixpoint title_from (previous_is_cased before : bool) (s : str) : str :=
  match s with
  | EmptyString => EmptyString
  | String c s' =>
      (if previous_is_cased then lower_at before c s' else Unicode.to_title_full c) ++
      title_from (Unicode.is_cased c) (cased_before before c) s'
  end.

Definition title (s : str) : str := title_from false false s.

Fixpoint lstrip_with (space : char -> bool) (s : str) : str :=
  match s with
  | EmptyString => EmptyString
  | String c s' => if space c then lstrip_with space s' else s
  end.

Fixpoint rstrip_with (space : char -> bool) (s : str) : str :=
  match s with
  | EmptyString => EmptyString
  | String c s' =>
      match rstrip_with space s' with
      | EmptyString => if space c then EmptyString else String c EmptyString
      | r => String c r
      end
  end.

Definition lstrip (s : str) : str := lstrip_with is_space s.
Definition rstrip (s : str) : str := rstrip_with is_space s.

(** [s.strip()]. *)
Definition strip (s : str) : str := rstrip (lstrip s).

Fixpoint of_uint (d : Decimal.uint) : str :=
  match d with
  | Decimal.Nil => EmptyString
  | Decimal.D0 d' => String "0" (of_uint d')
  | Decimal.D1 d' => String "1" (of_uint d')
  | Decimal.D2 d' => String "2" (of_uint d')
  | Decimal.D3 d' => String "3" (of_uint d')
  | Decimal.D4 d' => String "4" (of_uint d')
  | Decimal.D5 d' => String "5" (of_uint d')
  | Decimal.D6 d' => String "6" (of_uint d')
  | Decimal.D7 d' => String "7" (of_uint d')
  | Decimal.D8 d' => String "8" (of_uint d')
  | Decimal.D9 d' => String "9" (of_uint d')
  end.

(** [str(n)] for an integer. *)
Definition of_int (n : Z) : str :=
  match n with
  | Z0 => "0"
  | Zpos p => of_uint (Pos.to_uint p)
  | Zneg p => String "-" (of_uint (Pos.to_uint p))
  end.

(** The digits [str(n)] writes. *)
Definition is_ascii_digit (c : char) : bool := ((48 <=? code c) && (code c <=? 57))%N.

(** [x in xs] for a list of strings. *)
Definition mem (x : str) (xs : list str) : bool :=
  existsb (Text.eqb x) xs.

(** [xs.index(x)], for an [x] that is in [xs]. *)
Fixpoint index (x : str) (xs : list str) : Z :=
  match xs with
  | [] => 0
  | y :: xs' => if Text.eqb y x then 0 else 1 + index x xs'
  end.

(** The white space [int] and [float] drop around a literal: the six of C
    below 127, and above it the white space of [str.isspace]. *)
Definition is_literal_space (c : char) : bool :=
  if (code c <? 127)%N
  then ((9 <=? code c) && (code c <=? 13) || (code c =? 32))%N
  else Unicode.is_space c.

(** The digits of a decimal integer literal after its sign: a digit
    first, a digit last, and never two underscores in a row.
    [after_digit] tells whether the character before was a digit. *)
Fixpoint int_digits (acc : Z) (after_digit : bool) (s : str) : option Z :=
  match s with
  | EmptyString => if after_digit then Some acc else None
  | String c s' =>
      match Unicode.decimal c with
      | Some d => int_digits (10 * acc + d) true s'
      | None =>
          if Char.eqb c "_" then
            if after_digit then int_digits acc false s' else None
          else None
      end
  end.

(** [int(s)]: white space around the literal is dropped, one sign may
    come first; [None] stands for [ValueError].  [too_long] is the
    interpreter's limit on the number of digits of a literal, which turns a
    literal it holds for into a [ValueError]. *)
Definition int (too_long : str -> bool) (s : str) : option Z :=
  let literal := rstrip_with is_literal_space (lstrip_with is_literal_space s) in
  let '(negative, digits) :=
    match literal with
    | EmptyString => (false, literal)
    | String c rest =>
        if Char.eqb c "-" then (true, rest)
        else if Char.eqb c "+" then (false, rest)
        else (false, literal)
    end in
  match int_digits 0 false digits with
  | Some n => if too_long literal then None else Some (if negative then - n else n)%Z
  | None => None
  end.

Definition hex_digit (n : N) : char :=
  if (n <? 10)%N then Char (48 + n) else Char (87 + n).

(** The last [digits] hexadecimal digits of [n]. *)
Fixpoint hex (digits : nat) (n : N) : str :=
  match digits with
  | O => EmptyString
  | S k => hex k (n / 16) ++ String (hex_digit (n mod 16)) EmptyString
  end.

(** One character inside [repr(s)], for the quote the literal is put in. *)
Definition repr_char (quote c : char) : str :=
  if Char.eqb c quote || Char.eqb c "\" then String "\" (String c EmptyString)
  else if (code c =? 9)%N then "\t"
  else if (code c =? 10)%N then "\n"
  else if (code c =? 13)%N then "\r"
  else if (code c <? 32)%N || (code c =? 127)%N then "\x" ++ hex 2 (code c)
  else if (code c <? 127)%N then String c EmptyString
  else if Unicode.is_printable c then String c EmptyString
  else if (code c <=? 255)%N then "\x" ++ hex 2 (code c)
  else if (code c <=? 65535)%N then "\u" ++ hex 4 (code c)
  else "\U" ++ hex 8 (code c).

Fixpoint repr_chars (quote : char) (s : str) : str :=
  match s with
  | EmptyString => EmptyString
  | String c s' => repr_char quote c ++ repr_chars quote s'
  end.

Fixpoint has_char (c : char) (s : str) : bool :=
  match s with
  | EmptyString => false
  | String d s' => Char.eqb c d || has_char c s'
  end.

(** [repr(s)]: single quotes, unless the text has a single quote and no
    double quote. *)
Definition repr (s : str) : str :=
  let quote : char :=
    if has_char "'" s && negb (has_char (Char 34) s) then Char 34 else "'"%chr in
  String quote (repr_chars quote s ++ String quote EmptyString).

(** [repr(xs)] for a list of strings. *)
Definition repr_list (xs : list str) : str :=
  "[" ++ Text.concat ", " (map repr xs) ++ "]".

End Str.

(** ** Python floats and the comparison of a float with an integer *)

Module Float.

Definition prec : Z := 53.
Definition emax : Z := 1024.

(** The float literal [0.0]. *)
Definition zero : spec_float := S754_zero false.

(** A non-negative integer as an exact (not yet rounded) operand. *)
Definition operand (n : Z) : spec_float :=
  match n with
  | Zpos p => S754_finite false p 0
  | _ => S754_zero false
  end.

(** The binary64 value nearest to [num / den] (ties to even), for
    [0 <= num] and [0 < den]. *)
Definition of_ratio (num den : Z) : spec_float :=
  SFdiv prec emax (operand num) (operand den).

(** [float(n)] for a non-negative integer. *)
Definition of_int (n : Z) : spec_float := of_ratio n 1.

Definition digit_value (c : char) : Z :=
  match Unicode.decimal c with
  | Some d => d
  | None => 0%Z
  end.

Fixpoint digits_value (acc : Z) (s : str) : Z :=
  match s with
  | EmptyString => acc
  | String c s' => digits_value (10 * acc + digit_value c) s'
  end.

Fixpoint all_digits (s : str) : bool :=
  match s with
  | EmptyString => true
  | String c s' => Str.is_digit c && all_digits s'
  end.

(** The integer part and the fraction part of a decimal lexeme:
    [12.5] gives [("12", "5")] and [73] gives [("73", EmptyString)]. *)
Fixpoint split_point (s : str) : str * str :=
  match s with
  | EmptyString => (EmptyString, EmptyString)
  | String c s' =>
      if Char.eqb c "." then (EmptyString, s')
      else let (i, f) := split_point s' in (String c i, f)
  end.

(** A decimal lexeme is [digits] or [digits.digits], each run non-empty. *)
Definition is_lexeme (s : str) : bool :=
  let (i, f) := split_point s in
  negb (Text.eqb i EmptyString) && all_digits i && all_digits f &&
  (Text.eqb s i || negb (Text.eqb f EmptyString)).

(** [float(s)] on the decimal lexemes, the only strings the engine passes
    to it: a decimal digit of any script stands for its value.  [None]
    stands for a text outside of the lexemes. *)
Definition of_str (s : str) : option spec_float :=
  if is_lexeme s then
    let (i, f) := split_point s in
    Some (of_ratio (digits_value 0 (i ++ f)) (10 ^ Z.of_nat (length f)))
  else None.

(** [x <= n] for a float [x] and an integer [n]: Python compares the two
    exactly; a NaN compares false. *)
Definition le_int (x : spec_float) (n : Z) : bool :=
  match x with
  | S754_nan => false
  | S754_infinity s => s
  | S754_zero _ => (0 <=? n)%Z
  | S754_finite s m e =>
      let v := if s then Zneg m else Zpos m in
      match e with
      | Zneg k => (v <=? n * 2 ^ Zpos k)%Z
      | _ => (v * 2 ^ e <=? n)%Z
      end
  end.


(** [x] is not a NaN and its sign bit is clear. *)
Definition non_negative (x : spec_float) : bool :=
  match x with
  | S754_nan => false
  | S754_zero s | S754_infinity s | S754_finite s _ _ => negb s
  end.

End Float.

(** ** Python dictionaries, exceptions and the world *)

Module Dict.

(** The items of a dictionary in insertion order; the keys are distinct. *)
Definition t (V : Type) : Type := list (str * V).

Fixpoint get {V : Type} (d : t V) (k : str) : option V :=
  match d with
  | [] => None
  | (k', v) :: d' => if Text.eqb k' k then Some v else get d' k
  end.

(** [k in d]. *)
Definition mem {V : Type} (d : t V) (k : str) : bool :=
  match get d k with Some _ => true | None => false end.

(** [d.get(k, default)]. *)
Definition get_default {V : Type} (d : t V) (k : str) (default : V) : V :=
  match get d k with Some v => v | None => default end.

(** A dictionary is true when it is not empty. *)
Definition truthy {V : Type} (d : t V) : bool :=
  match d with [] => false | _ :: _ => true end.

(** [list(d.keys())]. *)
Definition keys {V : Type} (d : t V) : list str := map fst d.

(** [d[k] = v]: the value of a key that is there is replaced where it is,
    a new key goes to the end. *)
Fixpoint set {V : Type} (d : t V) (k : str) (v : V) : t V :=
  match d with
  | [] => [(k, v)]
  | (k', v') :: d' =>
      if Text.eqb k' k then (k', v) :: d' else (k', v') :: set d' k v
  end.

(** [d.update(other)]. *)
Definition update {V : Type} (d other : t V) : t V :=
  fold_left (fun d entry => set d (fst entry) (snd entry)) other d.

End Dict.

(** The exceptions of the code; [OtherError] is an exception of another
    class, an instance of [Exception], that the code meets and whose class
    it does not tell from the others. *)
Inductive exn : Type :=
| ValueError (msg : str)
| KeyError (key : str)
| Exception (msg : str)
| FileNotFoundError (msg : str)
| OtherError (class_name str_e : str).

(** [str(e)]. *)
Definition str_of_exn (e : exn) : str :=
  match e with
  | ValueError msg => msg
  | KeyError key => Str.repr key
  | Exception msg => msg
  | FileNotFoundError msg => msg
  | OtherError _ str_e => str_e
  end.

Inductive result (A : Type) : Type :=
| Ok (a : A)
| Raise (e : exn).
Arguments Ok {A} a.
Arguments Raise {A} e.

Record message : Type := { role : str; content : str }.

(** The keyword arguments of [client.chat.completions.create]. *)
Record request : Type := {
  model : str;
  messages : list message;
  max_tokens : Z;
  temperature : spec_float
}.

(** What a call gives back to the code around it: the text
    [response.choices[0].message.content], or an exception, raised by the
    call or while that text is read, of which the code only uses [str(e)]. *)
Inductive reply : Type :=
| Completion (text : str)
| Failure (str_e : str).

(** The service answers a request given the requests made before it. *)
Definition service : Type := list request -> request -> reply.

Record world : Type := {
  requests : list request;   (* the calls made so far, oldest first *)
  stdout : list str       (* the lines printed so far *)
}.

Definition M (A : Type) : Type := world -> result A * world.

Definition ret {A : Type} (a : A) : M A := fun w => (Ok a, w).

Definition raise {A : Type} (e : exn) : M A := fun w => (Raise e, w).

Definition bind {A B : Type} (m : M A) (k : A -> M B) : M B :=
  fun w =>
    match m w with
    | (Ok a, w') => k a w'
    | (Raise e, w') => (Raise e, w')
    end.

(** [try: m  except Exception as e: handler e]. *)
Definition try_except {A : Type} (m : M A) (handler : exn -> M A) : M A :=
  fun w =>
    match m w with
    | (Ok a, w') => (Ok a, w')
    | (Raise e, w') => handler e w'
    end.

Definition lift {A : Type} (r : result A) : M A := fun w => (r, w).

Definition print (line : str) : M unit :=
  fun w => (Ok tt, {| requests := requests w; stdout := stdout w ++ [line] |}).

(** One call of the service: the request is recorded, and a failure is
    raised as an exception whose text is the service's. *)
Definition create (svc : service) (rq : request) : M str :=
  fun w =>
    let w' := {| requests := requests w ++ [rq]; stdout := stdout w |} in
    match svc (requests w) rq with
    | Completion text => (Ok text, w')
    | Failure str_e => (Raise (Exception str_e), w')
    end.

(** The world after one more call and some more printed lines. *)
Definition after (w : world) (rq : request) (lines : list str) : world :=
  {| requests := requests w ++ [rq]; stdout := stdout w ++ lines |}.

Declare Scope monad_scope.
Delimit Scope monad_scope with monad.
Notation "x <- m ;; k" := (bind m (fun x => k))
  (at level 61, m at next level, right associativity) : monad_scope.
Notation "m ;;; k" := (bind m (fun _ => k))
  (at level 61, right associativity) : monad_scope.

(** The line feed of the source's multi-line literals. *)
Definition nl : str := String (Char 10) EmptyString.

(** ** communication_engine.py *)

Module CommunicationEngine.

Record tolerance_config : Type := { limit : Z; instruction : str }.

Definition deviation_tolerance_settings : Dict.t tolerance_config := [
  ("strict",
   {| limit := 10;
      instruction := "Follow the standard response EXACTLY. Make only minimal changes necessary to address the specific customer inquiry. Deviation should be less than 10%." |});
  ("minimal",
   {| limit := 25;
      instruction := "Follow the standard response closely but allow minor modifications to better address the customer inquiry. Deviation should be less than 25%." |});
  ("moderate",
   {| limit := 50;
      instruction := "Use the standard response as a strong guideline but allow moderate changes to personalize and improve the response. Deviation should be less than 50%." |});
  ("flexible",
   {| limit := 70;
      instruction := "Use the standard response as a foundation but feel free to significantly modify to create the best possible response. Deviation can be up to 70%." |})
].

(** [d[k]], which raises [KeyError] on a missing key. *)
Definition subscript {V : Type} (d : Dict.t V) (k : str) : result V :=
  match Dict.get d k with
  | Some v => Ok v
  | None => Raise (KeyError k)
  end.

(** [settings.get(tolerance, settings["minimal"])]: the default is
    evaluated before the lookup. *)
Definition tolerance_lookup (tolerance : str) : result tolerance_config :=
  match subscript deviation_tolerance_settings "minimal" with
  | Ok default => Ok (Dict.get_default deviation_tolerance_settings tolerance default)
  | Raise e => Raise e
  end.

Definition personalization_system_message : str :=
  "You are a corporate customer service representative. You MUST use the provided standard response as your base template and stay within the specified deviation tolerance. Personalize the standard response to address the specific customer inquiry while maintaining the organization's approved language, tone, and structure. Do not deviate beyond the allowed percentage.".

Definition personalization_prompt
    (customer_inquiry standard_response instruction : str) : str :=
  nl ++ "        Customer Inquiry: " ++ customer_inquiry ++
  nl ++ "        " ++
  nl ++ "        Organization's Standard Response Template:" ++
  nl ++ "        " ++ standard_response ++
  nl ++ "        " ++
  nl ++ "        Deviation Guidelines: " ++ instruction ++
  nl ++ "        " ++
  nl ++ "        Using the standard response above as your base template, generate a personalized response that addresses the specific customer inquiry while staying within the allowed deviation tolerance. Maintain the organization's professional tone and include all required corporate elements." ++
  nl ++ "        ".

Definition personalization_request
    (prompt model : str) (max_tokens : Z) : request :=
  {| model := model;
     messages := [ {| role := "system"; content := personalization_system_message |};
                   {| role := "user"; content := prompt |} ];
     max_tokens := max_tokens;
     temperature := Float.of_ratio 7 10 |}.

Definition generate_personalized_response (svc : service)
    (customer_inquiry standard_response deviation_tolerance model : str)
    (max_tokens : Z) : M str :=
  (tolerance_config <- lift (tolerance_lookup deviation_tolerance) ;;
   let prompt :=
     personalization_prompt customer_inquiry standard_response
       (instruction tolerance_config) in
   try_except
     (print prompt ;;;
      text <- create svc (personalization_request prompt model max_tokens) ;;
      ret (Str.strip text))
     (fun e => raise (Exception ("Error generating communication: " ++ str_of_exn e))))%monad.

Definition comparison_system_message : str :=
  "You are an expert text comparison analyst. Provide only the numeric percentage of deviation.".

Definition comparison_prompt (generated_response standard_response : str) : str :=
  nl ++ "            Compare these two responses and calculate the percentage of deviation from the standard response." ++
  nl ++ "            Consider differences in:" ++
  nl ++ "            - Content structure and organization" ++
  nl ++ "            - Tone and language style" ++
  nl ++ "            - Information completeness" ++
  nl ++ "            - Professional formality" ++
  nl ++ "            - Specific details and procedures" ++
  nl ++ "            " ++
  nl ++ "            Standard Response:" ++
  nl ++ "            " ++ standard_response ++
  nl ++ "            " ++
  nl ++ "            Generated Response:" ++
  nl ++ "            " ++ generated_response ++
  nl ++ "            " ++
  nl ++ "            Provide ONLY a numeric percentage (0-100) representing how much the generated response deviates from the standard." ++
  nl ++ "            0% means identical, 100% means completely different." ++
  nl ++ "            ".

Definition comparison_request (generated_response standard_response : str) : request :=
  {| model := "gpt-3.5-turbo";
     messages := [ {| role := "system"; content := comparison_system_message |};
                   {| role := "user";
                      content := comparison_prompt generated_response standard_response |} ];
     max_tokens := 50;
     temperature := Float.of_ratio 1 10 |}.

(** The longest run of digits at the head of [s], and what follows it. *)
Fixpoint span_digits (s : str) : str * str :=
  match s with
  | EmptyString => (EmptyString, EmptyString)
  | String c s' =>
      if Str.is_digit c
      then let (ds, rest) := span_digits s' in (String c ds, rest)
      else (EmptyString, s)
  end.

(** The pattern [(\d+(?:\.\d+)?)] matched at the head of [s]: both
    repetitions are greedy and the match never needs to backtrack into the
    first run, so group 1 is the longest run of digits, followed by a point
    and the longest run of digits after it when that run is not empty. *)
Definition match_number (s : str) : option str :=
  let (ds, rest) := span_digits s in
  match ds with
  | EmptyString => None
  | String _ _ =>
      match rest with
      | EmptyString => Some ds
      | String c rest' =>
          if Char.eqb c "." then
            match fst (span_digits rest') with
            | EmptyString => Some ds
            | String _ _ as fs => Some (ds ++ "." ++ fs)
            end
          else Some ds
      end
  end.

(** [re.search(r'(\d+(?:\.\d+)?)', s)]: group 1 of the leftmost match. *)
Fixpoint search_number (s : str) : option str :=
  match match_number s with
  | Some lexeme => Some lexeme
  | None =>
      match s with
      | EmptyString => None
      | String _ s' => search_number s'
      end
  end.

(** [float(lexeme)] inside the [try]: a str that is no decimal lexeme
    raises [ValueError]. *)
Definition float (lexeme : str) : result spec_float :=
  match Float.of_str lexeme with
  | Some x => Ok x
  | None => Raise (ValueError ("could not convert string to float: " ++ Str.repr lexeme))
  end.

Definition calculate_deviation_percentage (svc : service)
    (generated_response standard_response : str) : M spec_float :=
  try_except
    (text <- create svc (comparison_request generated_response standard_response) ;;
     let result := Str.strip text in
     match search_number result with
     | Some lexeme => lift (float lexeme)
     | None => ret Float.zero
     end)%monad
    (fun e =>
       print ("Error calculating deviation: " ++ str_of_exn e) ;;;
       ret Float.zero)%monad.

Definition get_deviation_tolerance_limit (tolerance : str) : result Z :=
  match tolerance_lookup tolerance with
  | Ok config => Ok (limit config)
  | Raise e => Raise e
  end.

(** [__init__], as far as the key goes: the key the client is built with.
    [environ] is the value of the variable [OPENAI_API_KEY], if it is set;
    an empty str counts as no key. *)
Definition init (api_key environ : option str) : result str :=
  let api_key :=
    match api_key with
    | Some (String _ _ as key) => Some key
    | _ => environ
    end in
  match api_key with
  | Some (String _ _ as key) => Ok key
  | _ => Raise (ValueError "OpenAI API key not found. Please set OPENAI_API_KEY environment variable or pass api_key parameter.")
  end.

End CommunicationEngine.

(** ** response_processor.py *)

Module ResponseProcessor.

Import CommunicationEngine.

Record ConfigManager : Type := {
  (* the table the property [standard_responses] returns once loaded *)
  standard_responses : Dict.t str
}.

(** [f"[{field.replace('_', ' ').title()}]"]. *)
Definition placeholder (field : str) : str :=
  "[" ++ Str.title (Str.replace "_" " " field) ++ "]".

(** One group of substitutions: the loop over [fields.items()], guarded by
    the truth of the dictionary. *)
Definition fill (fields : Dict.t str) (standard_response : str) : str :=
  if Dict.truthy fields then
    fold_left
      (fun standard_response '(field, value) =>
         Str.replace (placeholder field) value standard_response)
      fields standard_response
  else standard_response.

Definition prepare_standard_response (config_manager : ConfigManager)
    (template_type : str) (customer_data company_info : Dict.t str)
    : result str :=
  if negb (Dict.mem (standard_responses config_manager) template_type) then
    Raise (ValueError ("Template type '" ++ template_type ++
                       "' not found in standard responses"))
  else
    match subscript (standard_responses config_manager) template_type with
    | Raise e => Raise e
    | Ok standard_response =>
        Ok (fill company_info (fill customer_data standard_response))
    end.

(** The record [generate_response] returns. *)
Record generation_result : Type := {
  generated_response : str;
  standard_response : str;
  deviation_percentage : spec_float;
  max_allowed_deviation : Z;
  is_compliant : bool;
  compliance_level : str;
  compliance_message : str;
  template_type : str;
  deviation_tolerance : str
}.

Definition generate_response (config_manager : ConfigManager) (svc : service)
    (template_type customer_inquiry : str)
    (customer_data company_info : Dict.t str)
    (deviation_tolerance : str) : M generation_result :=
  (standard_response <-
     lift (prepare_standard_response config_manager template_type
             customer_data company_info) ;;
   generated_response <-
     generate_personalized_response svc customer_inquiry standard_response
       deviation_tolerance "gpt-3.5-turbo" 800 ;;
   deviation_percentage <-
     calculate_deviation_percentage svc generated_response standard_response ;;
   max_allowed <- lift (get_deviation_tolerance_limit deviation_tolerance) ;;
   let is_compliant := Float.le_int deviation_percentage max_allowed in
   let '(compliance_level, compliance_message) :=
     if Float.le_int deviation_percentage 10 then
       ("excellent",
        "✅ Excellent: Response closely follows organization standards")
     else if Float.le_int deviation_percentage 25 then
       ("good",
        "✅ Good: Response stays within acceptable deviation range")
     else if Float.le_int deviation_percentage max_allowed then
       ("acceptable",
        "✅ Acceptable: Response meets deviation tolerance requirements")
     else
       ("warning",
        "❌ Warning: Response exceeds " ++ deviation_tolerance ++
        " tolerance limit (" ++ Str.of_int max_allowed ++ "%)") in
   ret {| generated_response := generated_response;
          standard_response := standard_response;
          deviation_percentage := deviation_percentage;
          max_allowed_deviation := max_allowed;
          is_compliant := is_compliant;
          compliance_level := compliance_level;
          compliance_message := compliance_message;
          template_type := template_type;
          deviation_tolerance := deviation_tolerance |})%monad.

Definition template_fields : Dict.t (list str) := [
  ("customer_inquiry_response", ["customer_name"; "account_number"]);
  ("complaint_resolution_letter", ["customer_name"; "complaint_number"]);
  ("policy_cancellation_response",
   ["customer_name"; "policy_number"; "policy_type"; "effective_date"; "refund_amount"]);
  ("claim_processing_update",
   ["customer_name"; "claim_number"; "policy_number"; "incident_date"; "claim_status";
    "next_steps"]);
  ("claim_approval_notification",
   ["customer_name"; "claim_number"; "approved_amount"; "payment_date";
    "settlement_details"]);
  ("claim_denial_notification",
   ["customer_name"; "claim_number"; "policy_number"; "denial_reason"; "policy_section";
    "appeal_process"]);
  ("billing_inquiry_response",
   ["customer_name"; "account_number"; "billing_period"; "amount_due"; "due_date";
    "payment_methods"]);
  ("premium_adjustment_notice",
   ["customer_name"; "policy_number"; "current_premium"; "new_premium"; "effective_date";
    "increase_reason"]);
  ("coverage_modification_notice",
   ["customer_name"; "policy_number"; "coverage_changes"; "effective_date";
    "premium_impact"]);
  ("new_customer_welcome",
   ["customer_name"; "policy_number"; "agent_name"; "agent_contact"; "coverage_summary";
    "important_dates"])
].

Definition get_template_fields (template_type : str) : list str :=
  Dict.get_default template_fields template_type [].

Definition format_customer_data (customer_data : Dict.t str) : str :=
  if negb (Dict.truthy customer_data) then "No customer data provided"
  else
    Text.concat "; "
      (map (fun '(key, value) => key ++ ": " ++ value) customer_data).

End ResponseProcessor.

(** ** Vocabulary of the properties *)

Module Bracket.

Definition is_bracket (c : char) : bool := Char.eqb c "[" || Char.eqb c "]".

(** No square bracket occurs in [s]. *)
Fixpoint free (s : str) : bool :=
  match s with
  | EmptyString => true
  | String c s' => negb (is_bracket c) && free s'
  end.

(** The square brackets of [s] alternate, an opening one first and a
    closing one last: every bracket belongs to a group [[...]] and no group
    contains another.  [inside] tells whether a group is open. *)
Fixpoint balanced (inside : bool) (s : str) : bool :=
  match s with
  | EmptyString => negb inside
  | String c s' =>
      if Char.eqb c "[" then negb inside && balanced true s'
      else if Char.eqb c "]" then inside && balanced false s'
      else balanced inside s'
  end.

Definition well_formed (s : str) : bool := balanced false s.

(** The placeholder tokens that occur in a text, in order: the groups
    [[x]] in which [x] has no bracket.  [pending] is the text read since
    the last opening bracket, when no closing one has followed it yet. *)
Fixpoint groups_from (pending : option str) (s : str) : list str :=
  match s with
  | EmptyString => []
  | String c s' =>
      if Char.eqb c "[" then groups_from (Some EmptyString) s'
      else if Char.eqb c "]" then
        match pending with
        | Some x => ("[" ++ x ++ "]") :: groups_from None s'
        | None => groups_from None s'
        end
      else
        match pending with
        | Some x => groups_from (Some (x ++ String c EmptyString)) s'
        | None => groups_from None s'
        end
  end.

Definition groups (s : str) : list str := groups_from None s.

(** The case mappings keep away from the square brackets: the code points
    of a run and their images lie on one side of both brackets, and so do
    the code points of a several-for-one entry. *)
Definition is_bracket_code (n : N) : bool := ((n =? 91) || (n =? 93))%N.

Definition run_clear (r : N * N * N * Z) : bool :=
  let '(lo, hi, _, delta) := r in
  ((hi <? 91) || (93 <? lo))%N &&
  ((Z.of_N hi + delta <? 91) || (93 <? Z.of_N lo + delta))%Z.

Definition special_clear (entry : N * list N) : bool :=
  negb (is_bracket_code (fst entry)) &&
  forallb (fun n => negb (is_bracket_code n)) (snd entry).

End Bracket.

Module Render.

Import ResponseProcessor.

(** The substitution of one entry, the body of both loops of
    [prepare_standard_response]. *)
Definition substitute (text : str) (entry : str * str) : str :=
  Str.replace (placeholder (fst entry)) (snd entry) text.

(** The two groups of substitutions, customer data first: what
    [prepare_standard_response] does to the body it has looked up. *)
Definition render (customer_data company_info : Dict.t str) (body : str) : str :=
  fill company_info (fill customer_data body).

(** The field set covers every placeholder token that occurs in the body. *)
Definition covers (fields : Dict.t str) (body : str) : bool :=
  forallb
    (fun token => existsb (fun entry => Text.eqb token (placeholder (fst entry))) fields)
    (Bracket.groups body).

Definition values_bracket_free (fields : Dict.t str) : bool :=
  forallb (fun entry => Bracket.free (snd entry)) fields.

Definition keys_bracket_free (fields : Dict.t str) : bool :=
  forallb (fun entry => Bracket.free (fst entry)) fields.

(** No token derived from a key of [xs] is derived from a key of [ys]. *)
Definition tokens_disjoint (xs ys : Dict.t str) : bool :=
  forallb
    (fun x => forallb
       (fun y => negb (Text.eqb (placeholder (fst x)) (placeholder (fst y)))) ys)
    xs.

End Render.

Module Spec.

(** The tier as the specification words it, from the deviation and the
    ceiling alone. *)
Definition classify (deviation : spec_float) (ceiling : Z) : str :=
  if Float.le_int deviation 10 then "excellent"
  else if Float.le_int deviation 25 then "good"
  else if Float.le_int deviation ceiling then "acceptable"
  else "warning".

(** The ceiling the specification gives each tolerance level. *)
Definition ceilings : list (str * Z) :=
  [("strict", 10); ("minimal", 25); ("moderate", 50); ("flexible", 70)]%Z.

(** The text has a digit. *)
Fixpoint has_digit (s : str) : bool :=
  match s with
  | EmptyString => false
  | String c s' => Str.is_digit c || has_digit s'
  end.

(** The text does not start with a digit. *)
Definition no_digit_ahead (s : str) : bool :=
  match s with
  | EmptyString => true
  | String c _ => negb (Str.is_digit c)
  end.

(** The lexeme cannot be made longer by what follows it: no digit follows,
    and no point with a digit follows a lexeme that has no point. *)
Definition maximal (lexeme post : str) : bool :=
  match post with
  | EmptyString => true
  | String c post' =>
      negb (Str.is_digit c) &&
      negb (Char.eqb c "." && Float.all_digits lexeme &&
            match post' with
            | EmptyString => false
            | String d _ => Str.is_digit d
            end)
  end.

(** The score that follows from a reply of the service: the first decimal
    lexeme of the trimmed text read as a float, and [0.0] when there is no
    lexeme or no text. *)
Definition score_of (r : reply) (x : spec_float) : Prop :=
  match r with
  | Failure _ => x = Float.zero
  | Completion text =>
      match CommunicationEngine.search_number (Str.strip text) with
      | None => x = Float.zero
      | Some lexeme => Float.of_str lexeme = Some x
      end
  end.

End Spec.

(** A service that answers the [n]-th call of a run with the [n]-th reply of
    a script, and fails once the script is exhausted. *)
Definition scripted (replies : list reply) : service :=
  fun history _ => nth (List.length history) replies (Failure "no reply").

Definition initial_world : world := {| requests := []; stdout := [] |}.

(** A service that gives every call the same text. *)
Definition always (text : str) : service := fun _ _ => Completion text.

(** A small template store for the examples. *)
Definition sample_config : ResponseProcessor.ConfigManager :=
  {| ResponseProcessor.standard_responses :=
       [("customer_inquiry_response",
         "Dear [Customer Name], thank you for contacting [Company Name] about account [Account Number].")] |}.

Definition sample_customer : Dict.t str :=
  [("customer_name", "Jane Doe"); ("account_number", "A-1002")].

Definition sample_company : Dict.t str := [("company_name", "Acme Insurance")].

(** ** config_manager.py *)

Module Config.

(** A parsed JSON document; [JNull] is Python's [None]. *)
#[warnings="-register-all"]
Inductive json : Type :=
| JNull
| JBool (b : bool)
| JInt (n : Z)
| JFloat (x : spec_float)
| JString (s : str)
| JArray (items : list json)
| JObject (members : list (str * json)).

(** What opening and parsing the file at a path gives.  [Unreadable] is
    any exception of [open] or [json.load] that is neither of the two the
    code catches: [PermissionError], [IsADirectoryError],
    [UnicodeDecodeError], [RecursionError] and the like. *)
Inductive file : Type :=
| Missing                              (* [open] raises [FileNotFoundError] *)
| Malformed (str_e : str)              (* [json.load] raises [JSONDecodeError] *)
| Unreadable (class_name str_e : str)  (* another exception is raised *)
| Document (doc : json).

Definition filesystem : Type := str -> file.

(** The manager object: its base path and its three caches, each [None]
    until a document is loaded. *)
Record manager : Type := {
  base_path : str;
  _templates : option json;
  _standard_responses : option json;
  _company_config : option json
}.

(** The manager together with the paths opened so far, oldest first. *)
Record state : Type := { self : manager; opened : list str }.

(** [ConfigManager(base_path)]. *)
Definition init (base_path : str) : manager :=
  {| base_path := base_path; _templates := None; _standard_responses := None;
     _company_config := None |}.

Fixpoint endswith_slash (s : str) : bool :=
  match s with
  | EmptyString => false
  | String c EmptyString => Char.eqb c "/"
  | String _ s' => endswith_slash s'
  end.

(** [os.path.join(a, b)] with the separator [/]. *)
Definition path_join (a b : str) : str :=
  if Str.startswith "/" b then b
  else if Text.eqb a EmptyString || endswith_slash a then a ++ b
  else a ++ "/" ++ b.

Definition _load_json_file (fs : filesystem) (filename : str) (st : state)
    : (json + exn) * state :=
  let filepath := path_join (base_path (self st)) filename in
  let st' := {| self := self st; opened := opened st ++ [filepath] |} in
  match fs filepath with
  | Document doc => (inl doc, st')
  | Missing =>
      (inr (FileNotFoundError ("Config file '" ++ filename ++ "' not found in " ++
                               base_path (self st))), st')
  | Malformed str_e =>
      (inr (ValueError ("Invalid JSON in config file '" ++ filename ++ "': " ++ str_e)),
       st')
  | Unreadable class_name str_e => (inr (OtherError class_name str_e), st')
  end.

(** What a cache holds after a document is assigned to it: a null
    document is [None], so that the cache counts as empty. *)
Definition assigned (doc : json) : option json :=
  match doc with
  | JNull => None
  | _ => Some doc
  end.

(** What reading a cache gives. *)
Definition value (cache : option json) : json :=
  match cache with
  | Some doc => doc
  | None => JNull
  end.

(** The property [templates]. *)
Definition templates (fs : filesystem) (st : state) : (json + exn) * state :=
  match _templates (self st) with
  | Some doc => (inl doc, st)
  | None =>
      match _load_json_file fs "templates_config.json" st with
      | (inl doc, st') =>
          let m := self st' in
          let m' := {| base_path := base_path m; _templates := assigned doc;
                       _standard_responses := _standard_responses m;
                       _company_config := _company_config m |} in
          (inl (value (_templates m')), {| self := m'; opened := opened st' |})
      | (inr e, st') => (inr e, st')
      end
  end.

(** The property [standard_responses]. *)
Definition standard_responses (fs : filesystem) (st : state) : (json + exn) * state :=
  match _standard_responses (self st) with
  | Some doc => (inl doc, st)
  | None =>
      match _load_json_file fs "standard_responses.json" st with
      | (inl doc, st') =>
          let m := self st' in
          let m' := {| base_path := base_path m; _templates := _templates m;
                       _standard_responses := assigned doc;
                       _company_config := _company_config m |} in
          (inl (value (_standard_responses m')), {| self := m'; opened := opened st' |})
      | (inr e, st') => (inr e, st')
      end
  end.

(** The property [company_config]. *)
Definition company_config (fs : filesystem) (st : state) : (json + exn) * state :=
  match _company_config (self st) with
  | Some doc => (inl doc, st)
  | None =>
      match _load_json_file fs "company_config.json" st with
      | (inl doc, st') =>
          let m := self st' in
          let m' := {| base_path := base_path m; _templates := _templates m;
                       _standard_responses := _standard_responses m;
                       _company_config := assigned doc |} in
          (inl (value (_company_config m')), {| self := m'; opened := opened st' |})
      | (inr e, st') => (inr e, st')
      end
  end.

Definition reload_configs (st : state) : state :=
  {| self := {| base_path := base_path (self st); _templates := None;
                _standard_responses := None; _company_config := None |};
     opened := opened st |}.

(** The company configuration once loaded, in the shape the code reads it:
    the str entries of the document, and its entry [departments], a
    dictionary of dictionaries of strings, if it has one. *)
Record company : Type := {
  entries : Dict.t str;
  departments : option (Dict.t (Dict.t str))
}.

(** [config.get("departments", {})]. *)
Definition departments_of (config : company) : Dict.t (Dict.t str) :=
  match departments config with
  | Some d => d
  | None => []
  end.

(** The company-level part of [get_department_info]. *)
Definition base_info (config : company) : Dict.t str := [
  ("company_name", Dict.get_default (entries config) "company_name" "Our Company");
  ("company_type", Dict.get_default (entries config) "company_type" "Organization");
  ("company_address", Dict.get_default (entries config) "company_address" EmptyString);
  ("company_website", Dict.get_default (entries config) "company_website" EmptyString);
  ("company_phone", Dict.get_default (entries config) "company_phone" EmptyString);
  ("company_email", Dict.get_default (entries config) "company_email" EmptyString)
].

Definition get_department_info (config : company) (department_key : str)
    : Dict.t str :=
  let base_info := base_info config in
  let departments := departments_of config in
  if Dict.mem departments department_key then
    let dept_info := Dict.get_default departments department_key [] in
    Dict.update base_info dept_info
  else
    Dict.update base_info [
      ("department", "Customer Service");
      ("representative_name", "Customer Service Team");
      ("contact_phone", Dict.get_default base_info "company_phone" EmptyString);
      ("contact_email", Dict.get_default base_info "company_email" EmptyString);
      ("hours", "Business hours")
    ].

Definition get_available_departments (config : company) : Dict.t str :=
  fold_left
    (fun result '(key, dept_info) =>
       Dict.set result key
         (Dict.get_default dept_info "department"
            (Str.title (Str.replace "_" " " key))))
    (departments_of config) [].

(** *** The documents as the code reads them

    The code takes [standard_responses.json] for an object of strings,
    [templates_config.json] for an object, and [company_config.json] for an
    object whose company entries are strings and whose entry [departments],
    if there is one, is an object of objects of strings.  A document of
    another shape is read as [None]: what the code does with it is outside
    of this model. *)

Fixpoint strings (members : list (str * json)) : option (Dict.t str) :=
  match members with
  | [] => Some []
  | (key, JString value) :: rest =>
      match strings rest with
      | Some entries => Some ((key, value) :: entries)
      | None => None
      end
  | _ => None
  end.

Definition as_table (doc : json) : option (Dict.t str) :=
  match doc with
  | JObject members => strings members
  | _ => None
  end.

Definition as_keys (doc : json) : option (list str) :=
  match doc with
  | JObject members => Some (map fst members)
  | _ => None
  end.

Fixpoint tables (members : list (str * json)) : option (Dict.t (Dict.t str)) :=
  match members with
  | [] => Some []
  | (key, doc) :: rest =>
      match as_table doc, tables rest with
      | Some table, Some others => Some ((key, table) :: others)
      | _, _ => None
      end
  end.

Definition company_keys : list str :=
  ["company_name"; "company_type"; "company_address"; "company_website";
   "company_phone"; "company_email"].

(** The string entries of the document; a company entry that is no string
    has no place in a [company]. *)
Fixpoint company_entries (members : list (str * json)) : option (Dict.t str) :=
  match members with
  | [] => Some []
  | (key, value) :: rest =>
      match company_entries rest with
      | None => None
      | Some entries =>
          match value with
          | JString text => Some ((key, text) :: entries)
          | _ => if Str.mem key company_keys then None else Some entries
          end
      end
  end.

Definition as_company (doc : json) : option company :=
  match doc with
  | JObject members =>
      let plain :=
        filter (fun member => negb (Text.eqb (fst member) "departments")) members in
      match company_entries plain, Dict.get members "departments" with
      | Some entries, None => Some {| entries := entries; departments := None |}
      | Some entries, Some (JObject depts) =>
          match tables depts with
          | Some d => Some {| entries := entries; departments := Some d |}
          | None => None
          end
      | _, _ => None
      end
  | _ => None
  end.

End Config.

(** ** config_manager.py: the methods on the state of the manager *)

Module Manager.

(** What a method gives: a value or an exception, and the state after it;
    [None] when a document it reads has not the shape the code takes it
    for. *)
Definition method (A : Type) : Type := Config.state -> option (result A * Config.state).

(** A property read as the code reads it. *)
Definition read {A : Type} (property : Config.state -> (Config.json + exn) * Config.state)
    (shape : Config.json -> option A) : method A :=
  fun st =>
    match property st with
    | (inl doc, st') =>
        match shape doc with
        | Some a => Some (Ok a, st')
        | None => None
        end
    | (inr e, st') => Some (Raise e, st')
    end.

Definition map_method {A B : Type} (f : A -> B) (m : method A) : method B :=
  fun st =>
    match m st with
    | Some (Ok a, st') => Some (Ok (f a), st')
    | Some (Raise e, st') => Some (Raise e, st')
    | None => None
    end.

(** [self.company_config], the first step of [get_department_info] and of
    [get_available_departments]. *)
Definition company_config (fs : Config.filesystem) : method Config.company :=
  read (Config.company_config fs) Config.as_company.

Definition get_department_info (fs : Config.filesystem) (department_key : str)
    : method (Dict.t str) :=
  map_method (fun config => Config.get_department_info config department_key)
    (company_config fs).

Definition get_available_departments (fs : Config.filesystem) : method (Dict.t str) :=
  map_method Config.get_available_departments (company_config fs).

(** [self.config_manager.standard_responses], as [prepare_standard_response]
    reads it. *)
Definition standard_responses (fs : Config.filesystem) : method (Dict.t str) :=
  read (Config.standard_responses fs) Config.as_table.

(** [list(self.config_manager.templates.keys())]. *)
Definition templates (fs : Config.filesystem) : method (list str) :=
  read (Config.templates fs) Config.as_keys.

End Manager.

(** ** user_interface.py *)

Module UserInterface.

(** The console: the lines still to be read, and what has been written,
    one item for each [print] (its text and a line feed) and for each
    prompt of [input]. *)
Record console : Type := { pending : list str; written : list str }.

Inductive outcome (A : Type) : Type :=
| Return (a : A)
| EOFError            (* [input] at the end of the input *)
| Uncaught (e : exn).
Arguments Return {A} a.
Arguments EOFError {A}.
Arguments Uncaught {A} e.

Definition UI (A : Type) : Type := console -> outcome A * console.

Definition unit_ui {A : Type} (a : A) : UI A := fun c => (Return a, c).

Definition then_ui {A B : Type} (m : UI A) (k : A -> UI B) : UI B :=
  fun c =>
    match m c with
    | (Return a, c') => k a c'
    | (EOFError, c') => (EOFError, c')
    | (Uncaught e, c') => (Uncaught e, c')
    end.

(** [print(text)]. *)
Definition say (text : str) : UI unit :=
  fun c => (Return tt, {| pending := pending c; written := written c ++ [text ++ nl] |}).

Fixpoint say_all (texts : list str) : UI unit :=
  match texts with
  | [] => unit_ui tt
  | text :: rest => then_ui (say text) (fun _ => say_all rest)
  end.

(** [input()]. *)
Definition read : UI str :=
  fun c =>
    match pending c with
    | [] => (EOFError, c)
    | line :: rest => (Return line, {| pending := rest; written := written c |})
    end.

(** [input(prompt)]. *)
Definition input (prompt : str) : UI str :=
  fun c =>
    let c' := {| pending := pending c; written := written c ++ [prompt] |} in
    read c'.

(** The lines [f"{i}. {name}"] of a menu whose first number is [i]. *)
Fixpoint menu (i : Z) (names : list str) : list str :=
  match names with
  | [] => []
  | name :: rest => (Str.of_int i ++ ". " ++ name) :: menu (i + 1) rest
  end.

Definition len {A : Type} (xs : list A) : Z := Z.of_nat (List.length xs).

(** [xs[i]] for an index within the list. *)
Definition item (xs : list str) (i : Z) : str := nth (Z.to_nat i) xs EmptyString.

Definition display_name (key : str) : str := Str.title (Str.replace "_" " " key).

(** The console together with the configuration manager the interface
    holds. *)
Record session : Type := { manager : Config.state; terminal : console }.

(** What a step on a session gives; [None] as for [Manager.method]. *)
Definition Session (A : Type) : Type := session -> option (outcome A * session).

Definition on_terminal {A : Type} (m : UI A) : Session A :=
  fun s =>
    let (o, c) := m (terminal s) in
    Some (o, {| manager := manager s; terminal := c |}).

Definition on_manager {A : Type} (m : Manager.method A) : Session A :=
  fun s =>
    match m (manager s) with
    | Some (Ok a, st) => Some (Return a, {| manager := st; terminal := terminal s |})
    | Some (Raise e, st) => Some (Uncaught e, {| manager := st; terminal := terminal s |})
    | None => None
    end.

Definition then_session {A B : Type} (m : Session A) (k : A -> Session B) : Session B :=
  fun s =>
    match m s with
    | Some (Return a, s') => k a s'
    | Some (EOFError, s') => Some (EOFError, s')
    | Some (Uncaught e, s') => Some (Uncaught e, s')
    | None => None
    end.

(** The console of a session after the heading of a menu is printed. *)
Definition headed (heading : str) (s : session) : console :=
  {| pending := pending (terminal s); written := written (terminal s) ++ [heading ++ nl] |}.

(** [select_department] from the menu on: the lines after the call of
    [get_available_departments]. *)
Definition choose_department (too_long : str -> bool) (departments : Dict.t str)
    : UI str :=
  let dept_list := Dict.keys departments in
  match dept_list with
  | _ :: _ =>
      then_ui (say_all (menu 1 (map snd departments))) (fun _ =>
      then_ui (say (nl ++ "Select department (1-" ++ Str.of_int (len dept_list) ++
                    ") or press Enter for Customer Service:")) (fun _ =>
      then_ui read (fun line =>
      let dept_choice := Str.strip line in
      match dept_choice with
      | String _ _ =>
          match Str.int too_long dept_choice with
          | Some n =>
              let dept_index := (n - 1)%Z in
              if (0 <=? dept_index)%Z && (dept_index <? len dept_list)%Z
              then unit_ui (item dept_list dept_index)
              else unit_ui "customer_service"
          | None => unit_ui "customer_service"
          end
      | EmptyString => unit_ui "customer_service"
      end)))
  | [] => unit_ui "customer_service"
  end.

Definition select_department (too_long : str -> bool) (fs : Config.filesystem)
    : Session str :=
  then_session (on_terminal (say "=== Available Departments ===")) (fun _ =>
  then_session (on_manager (Manager.get_available_departments fs)) (fun departments =>
  on_terminal (choose_department too_long departments))).

(** [company_info[key]]. *)
Definition lookup (company_info : Dict.t str) (key : str) : UI str :=
  fun c =>
    match Dict.get company_info key with
    | Some v => (Return v, c)
    | None => (Uncaught (KeyError key), c)
    end.

Definition display_company_profile (company_info : Dict.t str) : UI unit :=
  then_ui (lookup company_info "company_name") (fun company_name =>
  then_ui (lookup company_info "department") (fun department =>
  then_ui (say (nl ++ "Corporate Profile: " ++ company_name ++ " - " ++ department)) (fun _ =>
  then_ui (lookup company_info "contact_phone") (fun contact_phone =>
  then_ui (lookup company_info "contact_email") (fun contact_email =>
  say ("Contact: " ++ contact_phone ++ " | " ++ contact_email ++ nl)))))).

(** [select_template] from the menu on: the lines after [templates] is
    read; the name is [None] when no template is selected. *)
Definition choose_template (too_long : str -> bool) (templates : list str)
    : UI (option str * Z) :=
  then_ui (say_all (menu 1 (map display_name templates))) (fun _ =>
  then_ui (say (nl ++ "Select a template number (or type 'exit' to quit):")) (fun _ =>
  then_ui read (fun line =>
  let user_input := Str.strip line in
  if Text.eqb (Str.lower user_input) "exit" then unit_ui (None, (-1)%Z)
  else
    match Str.int too_long user_input with
    | Some n =>
        let template_index := (n - 1)%Z in
        if (0 <=? template_index)%Z && (template_index <? len templates)%Z
        then unit_ui (Some (item templates template_index), template_index)
        else then_ui (say "Invalid template number!") (fun _ => unit_ui (None, (-2)%Z))
    | None =>
        let selected_template :=
          Str.replace " " "_" (Str.lower user_input) ++ "_response" in
        if Str.mem selected_template templates
        then unit_ui (Some selected_template, Str.index selected_template templates)
        else
          then_ui (say ("Template not found. Available templates: " ++
                        Str.repr_list (map display_name templates)))
                  (fun _ => unit_ui (None, (-2)%Z))
    end))).

Definition select_template (too_long : str -> bool) (fs : Config.filesystem)
    : Session (option str * Z) :=
  then_session (on_terminal (say "Available Response Templates:")) (fun _ =>
  then_session (on_manager (Manager.templates fs)) (fun templates =>
  on_terminal (choose_template too_long templates))).

(** [get_customer_inquiry]; [None] when no inquiry is given. *)
Definition get_customer_inquiry (template_name : str) : UI (option str) :=
  then_ui (say (nl ++ "Selected template: " ++ display_name template_name)) (fun _ =>
  then_ui (say (nl ++ "Enter the customer's question, inquiry, or complaint:")) (fun _ =>
  then_ui read (fun line =>
  let customer_inquiry := Str.strip line in
  match customer_inquiry with
  | EmptyString =>
      then_ui (say "No customer inquiry provided!") (fun _ => unit_ui None)
  | String _ _ => unit_ui (Some customer_inquiry)
  end))).

Definition deviation_map : Dict.t str :=
  [("1", "strict"); ("2", "minimal"); ("3", "moderate"); ("4", "flexible")].

Definition select_deviation_tolerance : UI str :=
  then_ui (say_all [
    nl ++ "=== Deviation Tolerance Settings ===";
    "How much should the AI be allowed to deviate from your standard response?";
    "1. Strict (0-10% deviation) - Follow standard exactly";
    "2. Minimal (0-25% deviation) - Minor modifications allowed";
    "3. Moderate (0-50% deviation) - Moderate personalization allowed";
    "4. Flexible (0-70% deviation) - Significant customization allowed" ]) (fun _ =>
  then_ui (input "Select deviation tolerance (1-4): ") (fun line =>
  let tolerance_choice := Str.strip line in
  let deviation_tolerance := Dict.get_default deviation_map tolerance_choice "minimal" in
  then_ui (say ("Selected: " ++ Str.title deviation_tolerance ++ " deviation tolerance"))
          (fun _ => unit_ui deviation_tolerance))).

(** The value stored for a field: the answer without the white space
    around it, or the field's bracketed display name for a blank answer. *)
Definition answer (field line : str) : str :=
  match Str.strip line with
  | EmptyString => "[" ++ display_name field ++ "]"
  | String _ _ as value => value
  end.

(** The loop of [collect_customer_data]. *)
Fixpoint collect_fields (template_fields : list str) (customer_data : Dict.t str)
    : UI (Dict.t str) :=
  match template_fields with
  | [] => unit_ui customer_data
  | field :: rest =>
      then_ui (input (display_name field ++ ": ")) (fun line =>
      collect_fields rest (Dict.set customer_data field (answer field line)))
  end.

Definition collect_customer_data (template_fields : list str) : UI (Dict.t str) :=
  match template_fields with
  | [] => unit_ui []
  | _ :: _ =>
      then_ui (say (nl ++ "=== Customer Data Collection ===")) (fun _ =>
      then_ui (say "Please provide the following customer information:") (fun _ =>
      collect_fields template_fields []))
  end.

End UserInterface.

(** ** communication_orchestrator.py *)

Module Orchestrator.

(** The orchestrator's configuration manager, and the world of its
    engine. *)
Record system : Type := { config_manager : Config.state; outside : world }.

(** What a step of the orchestrator gives; [None] as for
    [Manager.method]. *)
Definition Run (A : Type) : Type := system -> option (result A * system).

Definition on_manager {A : Type} (m : Manager.method A) : Run A :=
  fun s =>
    match m (config_manager s) with
    | Some (r, st) => Some (r, {| config_manager := st; outside := outside s |})
    | None => None
    end.







End Orchestrator.

(** Samples for the configuration manager and the console. *)
Definition sample_document : Config.json :=
  Config.JObject [("customer_inquiry_response", Config.JString "Inquiry reply")].

Definition sample_files : Config.filesystem :=
  fun path =>
    if Text.eqb path "./templates_config.json" then Config.Document sample_document
    else if Text.eqb path "./company_config.json" then Config.Malformed "Expecting value"
    else if Text.eqb path "./standard_responses.json" then Config.Document Config.JNull
    else Config.Missing.

Definition no_files : Config.filesystem := fun _ => Config.Missing.

Definition fresh_manager : Config.state :=
  {| Config.self := Config.init "."; Config.opened := [] |}.

Definition sample_company_config : Config.company :=
  {| Config.entries := [("company_name", "Acme Insurance"); ("company_phone", "555-0100")];
     Config.departments :=
       Some [("claims", [("department", "Claims Department"); ("contact_phone", "555-0199")]);
             ("billing_team", [("hours", "9-5")])] |}.

Definition no_limit : str -> bool := fun _ => false.

(** The no-break space, white space that is not ASCII. *)
Definition nbsp : str := String (Char 160) EmptyString.

Definition sample_company_document : Config.json :=
  Config.JObject
    [("company_name", Config.JString "Acme Insurance");
     ("company_phone", Config.JString "555-0100");
     ("founded", Config.JInt 1950);
     ("departments",
      Config.JObject
        [("claims",
          Config.JObject [("department", Config.JString "Claims Department");
                          ("contact_phone", Config.JString "555-0199")]);
         ("billing_team", Config.JObject [("hours", Config.JString "9-5")])])].

Definition sample_responses_document : Config.json :=
  Config.JObject
    [("customer_inquiry_response",
      Config.JString "Dear [Customer Name], thank you for contacting [Company Name] about account [Account Number].")].

Definition sample_templates_document : Config.json :=
  Config.JObject [("complaint_resolution_letter", Config.JString "x");
                  ("customer_inquiry_response", Config.JString "y")].

(** An office whose three files are in place. *)
Definition office_files : Config.filesystem :=
  fun path =>
    if Text.eqb path "./templates_config.json" then Config.Document sample_templates_document
    else if Text.eqb path "./company_config.json" then Config.Document sample_company_document
    else if Text.eqb path "./standard_responses.json"
    then Config.Document sample_responses_document
    else Config.Missing.

(** A directory in which nothing can be read. *)
Definition locked_files : Config.filesystem :=
  fun path => Config.Unreadable "PermissionError" ("[Errno 13] Permission denied: " ++ Str.repr path).

Definition fresh_session (lines : list str) : UserInterface.session :=
  {| UserInterface.manager := fresh_manager;
     UserInterface.terminal := {| UserInterface.pending := lines; UserInterface.written := [] |} |}.


(** * Properties *)

(** ** Strings *)

Section TextFacts.

Lemma char_eqb_eq (a b : char) : Char.eqb a b = true <-> a = b.
Proof.
  unfold Char.eqb. rewrite N.eqb_eq. destruct a as [m], b as [n]. simpl.
  split; [now intros -> | now intros [= ->]].
Qed.

Lemma char_eqb_refl (a : char) : Char.eqb a a = true.
Proof. now apply char_eqb_eq. Qed.

Lemma char_eqb_sym (a b : char) : Char.eqb a b = Char.eqb b a.
Proof. unfold Char.eqb. apply N.eqb_sym. Qed.

Lemma char_eqb_neq (a b : char) : Char.eqb a b = false <-> a <> b.
Proof.
  rewrite <- char_eqb_eq. destruct (Char.eqb a b); split; congruence.
Qed.

Lemma text_eqb_eq (a b : str) : Text.eqb a b = true <-> a = b.
Proof.
  revert b. induction a as [|x a IH]; intros [|y b]; simpl; try easy.
  rewrite andb_true_iff, char_eqb_eq, IH. split; [now intros [-> ->] | now intros [= -> ->]].
Qed.

Lemma text_eqb_refl (a : str) : Text.eqb a a = true.
Proof. now apply text_eqb_eq. Qed.

Lemma text_eqb_neq (a b : str) : Text.eqb a b = false <-> a <> b.
Proof.
  rewrite <- text_eqb_eq. destruct (Text.eqb a b); split; congruence.
Qed.


Lemma text_eqb_spec (a b : str) : reflect (a = b) (Text.eqb a b).
Proof. apply iff_reflect. symmetry. apply text_eqb_eq. Qed.

End TextFacts.

Section StringFacts.

Import Str.

Lemma append_assoc (a b c : str) : (a ++ b) ++ c = a ++ b ++ c.
Proof. induction a as [|x a IH]; simpl; [reflexivity | now rewrite IH]. Qed.

Lemma append_nil_r (a : str) : a ++ EmptyString = a.
Proof. induction a as [|x a IH]; simpl; [reflexivity | now rewrite IH]. Qed.

Lemma length_append (a b : str) : length (a ++ b) = length a + length b.
Proof. induction a as [|x a IH]; simpl; [reflexivity | now rewrite IH]. Qed.

Lemma startswith_append (p r : str) : startswith p (p ++ r) = true.
Proof.
  induction p as [|x p IH]; simpl; [reflexivity|].
  now rewrite char_eqb_refl, IH.
Qed.

Lemma startswith_split (p s : str) :
  startswith p s = true -> exists r, s = p ++ r.
Proof.
  revert s; induction p as [|x p IH]; intros s H.
  - now exists s.
  - destruct s as [|y s]; simpl in H; [discriminate|].
    apply andb_true_iff in H as [Hxy Hp].
    apply char_eqb_eq in Hxy; subst y.
    destruct (IH _ Hp) as [r ->]. now exists r.
Qed.

Lemma startswith_extend (p s t : str) :
  startswith p s = true -> startswith p (s ++ t) = true.
Proof.
  intros H. destruct (startswith_split _ _ H) as [r ->].
  rewrite append_assoc. apply startswith_append.
Qed.

Lemma contains_cons (p : str) (c : char) (s : str) :
  contains p (String c s) = startswith p (String c s) || contains p s.
Proof. reflexivity. Qed.

Lemma contains_append (p a b : str) : contains p (a ++ p ++ b) = true.
Proof.
  induction a as [|x a IH].
  - simpl append. destruct (p ++ b) eqn:E.
    + simpl. rewrite <- E. now rewrite startswith_append.
    + rewrite contains_cons, <- E, startswith_append. reflexivity.
  - simpl append. rewrite contains_cons, IH. apply orb_true_r.
Qed.

Lemma contains_split (p s : str) :
  contains p s = true -> exists a b, s = a ++ p ++ b.
Proof.
  induction s as [|c s IH]; intros H.
  - simpl in H. rewrite orb_false_r in H.
    destruct (startswith_split _ _ H) as [r ->]. now exists EmptyString, r.
  - rewrite contains_cons in H. apply orb_true_iff in H as [H|H].
    + destruct (startswith_split _ _ H) as [r ->]. now exists EmptyString, r.
    + destruct (IH H) as (a & b & ->). now exists (String c a), b.
Qed.

Lemma replace_scan_skip (old new y r : str) :
  replace_scan old new (length y) (y ++ r) = replace_scan old new 0 r.
Proof. induction y as [|x y IH]; simpl; [reflexivity | exact IH]. Qed.

(** [str.replace] at a position where [old] starts. *)
Lemma replace_hit (old new r : str) :
  old <> EmptyString -> replace old new (old ++ r) = new ++ replace old new r.
Proof.
  intros Hne. destruct old as [|a k]; [congruence|].
  unfold replace. change (String a k ++ r) with (String a (k ++ r)).
  cbn [replace_scan].
  change (String a (k ++ r)) with (String a k ++ r).
  rewrite startswith_append. cbn [length pred].
  now rewrite replace_scan_skip.
Qed.

(** [str.replace] at a position where [old] does not start. *)
Lemma replace_miss (old new : str) (c : char) (s : str) :
  old <> EmptyString -> startswith old (String c s) = false ->
  replace old new (String c s) = String c (replace old new s).
Proof.
  intros Hne H. destruct old as [|a k]; [congruence|].
  unfold replace. cbn [replace_scan]. now rewrite H.
Qed.

Lemma replace_empty (old new : str) : old <> EmptyString -> replace old new EmptyString = EmptyString.
Proof. intros Hne. destruct old; [congruence | reflexivity]. Qed.

(** A text in which [old] does not occur is left as it is. *)
Lemma replace_absent (old new s : str) :
  old <> EmptyString -> contains old s = false -> replace old new s = s.
Proof.
  intros Hne. induction s as [|c s IH]; intros H.
  - now apply replace_empty.
  - rewrite contains_cons in H. apply orb_false_iff in H as [H1 H2].
    rewrite replace_miss by assumption. now rewrite IH.
Qed.

Lemma concat_cons (sep x : str) (xs : list str) :
  xs <> [] -> Text.concat sep (x :: xs) = x ++ sep ++ Text.concat sep xs.
Proof. destruct xs; [congruence | reflexivity]. Qed.

Lemma contains_nil (old : str) : old <> EmptyString -> contains old EmptyString = false.
Proof. destruct old; [congruence | reflexivity]. Qed.

(** [str.replace] cuts the text at occurrences of [old] into pieces in
    which [old] does not occur, and joins the pieces with [new]. *)
Lemma replace_pieces (old new : str) :
  old <> EmptyString ->
  forall s, exists pieces,
    s = Text.concat old pieces /\
    replace old new s = Text.concat new pieces /\
    pieces <> [] /\
    Forall (fun piece => contains old piece = false) pieces.
Proof.
  intros Hne s.
  remember (length s) as n eqn:Hn.
  revert s Hn. induction n as [n IH] using lt_wf_ind. intros s Hn.
  destruct s as [|c s].
  - exists [EmptyString]. rewrite replace_empty by assumption. repeat split; try easy.
    constructor; [|constructor]. now apply contains_nil.
  - destruct (startswith old (String c s)) eqn:Hs.
    + destruct (startswith_split _ _ Hs) as [r Hr].
      assert (Hlen : length r < n).
      { subst n. rewrite Hr, length_append. destruct old; [congruence|simpl; lia]. }
      destruct (IH _ Hlen r eq_refl) as (ps & E1 & E2 & Hps & Hall).
      exists (EmptyString :: ps).
      rewrite Hr, replace_hit, !concat_cons by assumption.
      rewrite <- E1, <- E2. repeat split; try easy.
      constructor; [|assumption]. now apply contains_nil.
    + assert (Hlen : length s < n) by (subst n; simpl; lia).
      destruct (IH _ Hlen s eq_refl) as (ps & E1 & E2 & Hps & Hall).
      destruct ps as [|q ps]; [congruence|].
      exists (String c q :: ps). rewrite replace_miss by assumption.
      pose proof (Forall_inv Hall) as Hq.
      pose proof (Forall_inv_tail Hall) as Hrest.
      assert (Hcq : contains old (String c q) = false).
      { rewrite contains_cons, Hq, orb_false_r.
        destruct (startswith old (String c q)) eqn:Hcq; [|reflexivity].
        rewrite <- Hs, E1. symmetry.
        destruct ps as [|q' ps].
        - exact Hcq.
        - rewrite concat_cons by easy.
          apply (startswith_extend _ (String c q)), Hcq. }
      rewrite E2. rewrite E1 at 1.
      destruct ps as [|q' ps].
      * repeat split; try easy. now constructor.
      * rewrite !concat_cons by easy. repeat split; try easy. now constructor.
Qed.

(** The str operations on the values Python gives. *)
Example string_samples :
  replace "aa" "b" "aaaaa" = "bba" /\
  replace EmptyString "-" "abc" = "-a-b-c-" /\
  replace "[A]" "xy" "a[A]b[A][A" = "axybxy[A" /\
  title "aBC d1e f_g" = "Abc D1E F_G" /\
  title (replace "_" " " "policy_number") = "Policy Number" /\
  strip (String (Char 10) "  12.5 % ") = "12.5 %".
Proof. repeat split; reflexivity. Qed.

(** [float] on the values Python gives: 0.1 is 0x1.999999999999ap-4, an
    integer above 2^53 is rounded to even, and the largest finite float is
    followed by infinity. *)
Example float_samples :
  Float.of_str "0.1" = Some (S754_finite false 7205759403792794 (-56)) /\
  Float.of_str "12.5" = Some (S754_finite false 7036874417766400 (-49)) /\
  Float.of_str "9007199254740993" = Some (S754_finite false 4503599627370496 1) /\
  Float.of_str "0.000" = Some (S754_zero false) /\
  Float.of_str ("1" ++ "0000000000" ++ "0000000000" ++ "0000000000" ++ "0000000000")
    = Some (S754_finite false 8271806125530277 80) /\
  Float.of_str "1.5.2" = None /\
  Float.le_int (Float.of_int 10) 10 = true /\
  Float.le_int (Float.of_ratio 101 10) 10 = false.
Proof. repeat split; vm_compute; reflexivity. Qed.

End StringFacts.

(** ** Square brackets *)

Section BracketFacts.

Import Str Bracket.

Lemma is_bracket_false (c : char) :
  is_bracket c = false -> Char.eqb c "[" = false /\ Char.eqb c "]" = false.
Proof. unfold is_bracket. apply orb_false_iff. Qed.

Lemma free_cons (c : char) (s : str) :
  free (String c s) = true -> is_bracket c = false /\ free s = true.
Proof.
  simpl. intros H. apply andb_true_iff in H as [H1 H2].
  now apply negb_true_iff in H1.
Qed.

Lemma free_append (a b : str) : free (a ++ b) = free a && free b.
Proof.
  induction a as [|c a IH]; simpl; [reflexivity|].
  now rewrite IH, andb_assoc.
Qed.

Lemma balanced_plain (inside : bool) (c : char) (s : str) :
  is_bracket c = false -> balanced inside (String c s) = balanced inside s.
Proof. intros H. apply is_bracket_false in H as [H1 H2]. simpl. now rewrite H1, H2. Qed.

Lemma balanced_free (inside : bool) (v s : str) :
  free v = true -> balanced inside (v ++ s) = balanced inside s.
Proof.
  induction v as [|c v IH]; intros H; [reflexivity|].
  apply free_cons in H as [Hc Hv].
  simpl append. rewrite balanced_plain by assumption. auto.
Qed.

(** After a closing bracket that the scan accepts, no group is open. *)
Lemma balanced_close (inside : bool) (a r : str) :
  balanced inside (a ++ String "]" r) = true -> balanced false r = true.
Proof.
  revert inside. induction a as [|c a IH]; intros inside H.
  - simpl in H. now apply andb_true_iff in H.
  - simpl in H. destruct (Char.eqb c "["); [|destruct (Char.eqb c "]")].
    + apply andb_true_iff in H as [_ H]. eauto.
    + apply andb_true_iff in H as [_ H]. eauto.
    + eauto.
Qed.

(** An open group is closed: the text goes on with the rest of the group,
    its closing bracket and a well-formed text. *)
Lemma balanced_open (s : str) :
  balanced true s = true ->
  exists x r, s = x ++ String "]" r /\ free x = true /\ balanced false r = true.
Proof.
  induction s as [|c s IH]; intros H; [discriminate|].
  simpl in H. destruct (Char.eqb c "[") eqn:E1; [discriminate|].
  destruct (Char.eqb c "]") eqn:E2.
  - apply char_eqb_eq in E2; subst c. now exists EmptyString, s.
  - destruct (IH H) as (x & r & -> & Hx & Hr).
    exists (String c x), r. repeat split; [|assumption].
    simpl. unfold is_bracket. now rewrite E1, E2, Hx.
Qed.

Lemma well_formed_cases (s : str) :
  well_formed s = true ->
  s = EmptyString \/
  (exists c s', s = String c s' /\ is_bracket c = false /\ well_formed s' = true) \/
  (exists x r, s = "[" ++ x ++ String "]" r /\ free x = true /\ well_formed r = true).
Proof.
  unfold well_formed. destruct s as [|c s]; [now left|]. intros H. right.
  simpl in H. destruct (Char.eqb c "[") eqn:E1; [|destruct (Char.eqb c "]") eqn:E2].
  - right. apply char_eqb_eq in E1; subst c. simpl in H.
    destruct (balanced_open _ H) as (x & r & -> & Hx & Hr). now exists x, r.
  - discriminate.
  - left. exists c, s. unfold is_bracket. now rewrite E1, E2.
Qed.

(** Induction over a well-formed text: plain characters and whole groups. *)
Lemma well_formed_ind (P : str -> Prop) :
  P EmptyString ->
  (forall c s, is_bracket c = false -> well_formed s = true -> P s -> P (String c s)) ->
  (forall x r, free x = true -> well_formed r = true -> P r ->
               P ("[" ++ x ++ String "]" r)) ->
  forall s, well_formed s = true -> P s.
Proof.
  intros Hnil Hplain Hgroup s.
  remember (length s) as n eqn:Hn. revert s Hn.
  induction n as [n IH] using lt_wf_ind. intros s Hn Hs.
  destruct (well_formed_cases s Hs)
    as [-> | [(c & s' & -> & Hc & Hs') | (x & r & -> & Hx & Hr)]].
  - exact Hnil.
  - apply Hplain; try assumption. apply (IH (length s')); subst; simpl; auto.
  - apply Hgroup; try assumption. apply (IH (length r)); trivial.
    subst n. simpl. rewrite length_append. simpl. lia.
Qed.

Lemma well_formed_group (x r : str) :
  free x = true -> well_formed ("[" ++ x ++ String "]" r) = well_formed r.
Proof.
  intros Hx. unfold well_formed. simpl. now rewrite balanced_free.
Qed.

Lemma groups_plain (c : char) (s : str) :
  is_bracket c = false -> groups (String c s) = groups s.
Proof.
  intros H. apply is_bracket_false in H as [H1 H2].
  unfold groups. simpl. now rewrite H1, H2.
Qed.

Lemma groups_free (v s : str) : free v = true -> groups (v ++ s) = groups s.
Proof.
  induction v as [|c v IH]; intros H; [reflexivity|].
  apply free_cons in H as [Hc Hv].
  simpl append. rewrite groups_plain by assumption. auto.
Qed.

Lemma groups_from_pending (p x r : str) :
  free x = true ->
  groups_from (Some p) (x ++ String "]" r) = ("[" ++ (p ++ x) ++ "]") :: groups r.
Proof.
  revert p. induction x as [|c x IH]; intros p H.
  - simpl. now rewrite append_nil_r.
  - apply free_cons in H as [Hc Hx]. apply is_bracket_false in Hc as [H1 H2].
    simpl append. cbn [groups_from]. rewrite H1, H2, IH by assumption.
    now rewrite (append_assoc p (String c EmptyString) x).
Qed.

Lemma groups_group (x r : str) :
  free x = true ->
  groups ("[" ++ x ++ String "]" r) = ("[" ++ x ++ "]") :: groups r.
Proof. intros H. unfold groups at 1. simpl. now rewrite groups_from_pending. Qed.

(** The groups after a closing bracket are groups of the whole text. *)
Lemma groups_from_close (pending : option str) (a r : str) :
  exists l, groups_from pending (a ++ String "]" r) = (l ++ groups r)%list.
Proof.
  revert pending. induction a as [|c a IH]; intros pending.
  - simpl. destruct pending; [now eexists [_] | now exists []].
  - simpl append. cbn [groups_from].
    destruct (Char.eqb c "["); [|destruct (Char.eqb c "]")].
    + apply IH.
    + destruct pending.
      * destruct (IH None) as [l ->]. now eexists (_ :: l).
      * apply IH.
    + destruct pending; apply IH.
Qed.

(** A well-formed text without a group has no bracket. *)
Lemma well_formed_no_group (s : str) :
  well_formed s = true -> groups s = [] -> free s = true.
Proof.
  intros Hs. pattern s. apply well_formed_ind; [ | | | exact Hs]; clear s Hs.
  - reflexivity.
  - intros c s Hc _ IH Hg.
    rewrite groups_plain in Hg by assumption. simpl. now rewrite Hc, IH.
  - intros x r Hx _ IH Hg.
    rewrite groups_group in Hg by assumption. discriminate.
Qed.

Lemma contains_free (t v s : str) :
  free v = true -> contains (String "[" t) (v ++ s) = contains (String "[" t) s.
Proof.
  induction v as [|c v IH]; intros H; [reflexivity|].
  apply free_cons in H as [Hc Hv]. apply is_bracket_false in Hc as [H1 _].
  simpl append. rewrite contains_cons, IH by assumption.
  cbn [startswith]. rewrite char_eqb_sym, H1. reflexivity.
Qed.

(** A text without a bracket contains no token. *)
Lemma contains_in_free (t s : str) :
  free s = true -> contains (String "[" t) s = false.
Proof.
  intros H. rewrite <- (append_nil_r s), contains_free by assumption. reflexivity.
Qed.

(** A token without inner brackets starts a group exactly when it is the
    group. *)
Lemma startswith_group (t x r : str) :
  free t = true -> free x = true ->
  startswith ("[" ++ t ++ "]") ("[" ++ x ++ String "]" r) = Text.eqb t x.
Proof.
  cbn [append startswith]. rewrite char_eqb_refl. cbn [andb].
  revert x. induction t as [|a t IH]; intros x Ht Hx.
  - destruct x as [|c x]; [cbn [append startswith]; now rewrite char_eqb_refl|].
    apply free_cons in Hx as [Hc _]. apply is_bracket_false in Hc as [_ H2].
    cbn [append startswith Text.eqb]. now rewrite char_eqb_sym, H2.
  - apply free_cons in Ht as [Ha Ht]. destruct x as [|c x].
    + apply is_bracket_false in Ha as [_ H2].
      cbn [append startswith Text.eqb]. now rewrite H2.
    + apply free_cons in Hx as [_ Hx].
      cbn [append startswith Text.eqb]. now rewrite IH.
Qed.

(** A token without inner brackets that occurs in a well-formed text is
    one of its groups. *)
Lemma contains_group (t s : str) :
  free t = true -> well_formed s = true ->
  contains ("[" ++ t ++ "]") s = true -> In ("[" ++ t ++ "]") (groups s).
Proof.
  intros Ht Hs. change ("[" ++ t ++ "]") with (String "[" (t ++ "]")).
  pattern s. apply well_formed_ind; [ | | | exact Hs]; clear s Hs.
  - discriminate.
  - intros c s Hc _ IH H.
    rewrite groups_plain by assumption. apply IH.
    change (String c s) with (String c EmptyString ++ s) in H.
    rewrite contains_free in H; [assumption|]. simpl. now rewrite Hc.
  - intros x r Hx _ IH H.
    rewrite groups_group by assumption.
    change ("[" ++ x ++ String "]" r) with (String "[" (x ++ String "]" r)) in H.
    rewrite contains_cons in H. apply orb_true_iff in H as [H|H].
    + left.
      change (startswith ("[" ++ t ++ "]") ("[" ++ x ++ String "]" r) = true) in H.
      rewrite startswith_group in H by assumption.
      apply text_eqb_eq in H. now subst.
    + right. apply IH. rewrite contains_free in H by assumption.
      rewrite contains_cons in H. cbn [startswith] in H.
      now replace (Char.eqb "[" "]") with false in H by reflexivity.
Qed.

End BracketFacts.

(** ** One substitution on a well-formed text *)

Section ReplaceFacts.

Import Str Bracket.

Variables (t v : str).

Lemma token_not_empty : ("[" ++ t ++ "]") <> EmptyString.
Proof. discriminate. Qed.

Lemma group_append (x r : str) : "[" ++ x ++ String "]" r = ("[" ++ x ++ "]") ++ r.
Proof. simpl. now rewrite append_assoc. Qed.

Lemma replace_plain (c : char) (s : str) :
  is_bracket c = false ->
  replace ("[" ++ t ++ "]") v (String c s) = String c (replace ("[" ++ t ++ "]") v s).
Proof.
  intros H. apply is_bracket_false in H as [H1 _].
  apply replace_miss; [apply token_not_empty|].
  cbn [append startswith]. now rewrite char_eqb_sym, H1.
Qed.

Lemma replace_free_prefix (y r : str) :
  free y = true -> replace ("[" ++ t ++ "]") v (y ++ r) = y ++ replace ("[" ++ t ++ "]") v r.
Proof.
  induction y as [|c y IH]; intros H; [reflexivity|].
  apply free_cons in H as [Hc Hy].
  simpl append. rewrite replace_plain by assumption. now rewrite IH.
Qed.

Lemma replace_close (r : str) :
  replace ("[" ++ t ++ "]") v (String "]" r) = String "]" (replace ("[" ++ t ++ "]") v r).
Proof. apply replace_miss; [apply token_not_empty | reflexivity]. Qed.

(** A group that the ("[" ++ t ++ "]") does not start is copied. *)
Lemma replace_other_group (x r : str) :
  free x = true ->
  startswith ("[" ++ t ++ "]") ("[" ++ x ++ String "]" r) = false ->
  replace ("[" ++ t ++ "]") v ("[" ++ x ++ String "]" r) = "[" ++ x ++ String "]" (replace ("[" ++ t ++ "]") v r).
Proof.
  intros Hx H.
  change ("[" ++ x ++ String "]" r) with (String "[" (x ++ String "]" r)) in *.
  rewrite replace_miss by (assumption || apply token_not_empty).
  now rewrite replace_free_prefix, replace_close.
Qed.

Hypothesis v_free : free v = true.

(** What one substitution keeps: the text stays well formed, no group is
    created, and the ("[" ++ t ++ "]") is no longer a group. *)
Lemma replace_invariants (s : str) :
  well_formed s = true ->
  well_formed (replace ("[" ++ t ++ "]") v s) = true /\
  incl (groups (replace ("[" ++ t ++ "]") v s)) (groups s) /\
  ~ In ("[" ++ t ++ "]") (groups (replace ("[" ++ t ++ "]") v s)).
Proof.
  remember (length s) as n eqn:Hn. revert s Hn.
  induction n as [n IH] using lt_wf_ind. intros s Hn Hs.
  destruct (well_formed_cases s Hs)
    as [-> | [(c & s' & -> & Hc & Hs') | (x & r & -> & Hx & Hr)]].
  - rewrite replace_empty by apply token_not_empty.
    repeat split; [apply incl_refl | intros []].
  - destruct (IH (length s')) with (s := s') as (W & I & N); trivial.
    { subst n. simpl. lia. }
    rewrite replace_plain by assumption.
    unfold well_formed. rewrite balanced_plain, !groups_plain by assumption.
    now repeat split.
  - destruct (startswith ("[" ++ t ++ "]") ("[" ++ x ++ String "]" r)) eqn:E.
    + destruct (startswith_split _ _ E) as [r2 E2].
      assert (Hr2 : well_formed r2 = true).
      { rewrite E2 in Hs.
        change (("[" ++ t ++ "]") ++ r2) with (String "[" ((t ++ "]") ++ r2)) in Hs.
        rewrite append_assoc in Hs.
        apply (balanced_close false (String "[" t)), Hs. }
      assert (Hg : incl (groups r2) (groups ("[" ++ x ++ String "]" r))).
      { rewrite E2.
        change (("[" ++ t ++ "]") ++ r2) with (String "[" ((t ++ "]") ++ r2)).
        rewrite append_assoc.
        destruct (groups_from_close None (String "[" t) r2) as [l El].
        unfold groups at 2. cbn [append] in El |- *. rewrite El.
        apply incl_appr, incl_refl. }
      destruct (IH (length r2)) with (s := r2) as (W & I & N); trivial.
      { subst n. rewrite E2, length_append. simpl. lia. }
      assert (R : replace ("[" ++ t ++ "]") v ("[" ++ x ++ String "]" r) = v ++ replace ("[" ++ t ++ "]") v r2)
        by (rewrite E2; apply replace_hit, token_not_empty).
      rewrite R.
      unfold well_formed. rewrite balanced_free, groups_free by assumption.
      repeat split; trivial. eapply incl_tran; eassumption.
    + destruct (IH (length r)) with (s := r) as (W & I & N); trivial.
      { subst n. simpl. rewrite length_append. simpl. lia. }
      rewrite replace_other_group by assumption.
      rewrite well_formed_group, !groups_group by assumption.
      repeat split; trivial.
      * intros g [<-|Hg]; [now left | right; now apply I].
      * intros [Hg|Hg]; [|now apply N].
        rewrite (group_append x r), Hg, startswith_append in E. discriminate.
Qed.

End ReplaceFacts.

(** ** The renderer *)

Section RenderFacts.

Import Str Bracket ResponseProcessor Render.

Lemma placeholder_token (field : str) :
  placeholder field = "[" ++ title (replace "_" " " field) ++ "]".
Proof. reflexivity. Qed.

Lemma placeholder_not_empty (field : str) : placeholder field <> EmptyString.
Proof. discriminate. Qed.

Lemma fill_fold (fields : Dict.t str) (s : str) :
  fill fields s = fold_left substitute fields s.
Proof.
  unfold fill. destruct fields as [|e fields]; [reflexivity|].
  cbn [Dict.truthy]. generalize (e :: fields). clear. intros l. revert s.
  induction l as [|[field value] l IH]; intros s; [reflexivity|].
  simpl. apply IH.
Qed.

Lemma render_fold (customer_data company_info : Dict.t str) (body : str) :
  render customer_data company_info body =
  fold_left substitute (customer_data ++ company_info)%list body.
Proof. unfold render. now rewrite !fill_fold, fold_left_app. Qed.

Lemma values_bracket_free_cons (e : str * str) (fields : Dict.t str) :
  values_bracket_free (e :: fields) = true ->
  free (snd e) = true /\ values_bracket_free fields = true.
Proof. apply andb_true_iff. Qed.

(** What a sequence of substitutions keeps. *)
Lemma substitutions_invariants (fields : Dict.t str) :
  values_bracket_free fields = true ->
  forall s, well_formed s = true ->
  well_formed (fold_left substitute fields s) = true /\
  incl (groups (fold_left substitute fields s)) (groups s) /\
  forall e, In e fields ->
            ~ In (placeholder (fst e)) (groups (fold_left substitute fields s)).
Proof.
  induction fields as [|e fields IH]; intros Hv s Hs.
  - repeat split; [assumption | apply incl_refl | intros e []].
  - apply values_bracket_free_cons in Hv as [He Hv].
    destruct (replace_invariants (title (replace "_" " " (fst e))) (snd e) He s Hs)
      as (W1 & I1 & N1).
    destruct (IH Hv (substitute s e) W1) as (W & I & N).
    cbn [fold_left]. repeat split; trivial.
    + eapply incl_tran; eassumption.
    + intros e' [<-|He']; [|now apply N].
      intros Hin. apply N1, I, Hin.
Qed.

(** Substitutions whose tokens do not occur leave the text as it is. *)
Lemma substitutions_absent (fields : Dict.t str) (s : str) :
  (forall e, In e fields -> contains (placeholder (fst e)) s = false) ->
  fold_left substitute fields s = s.
Proof.
  induction fields as [|e fields IH]; intros H; [reflexivity|].
  cbn [fold_left]. unfold substitute at 2.
  rewrite replace_absent.
  - apply IH. intros e' He'. apply H. now right.
  - apply placeholder_not_empty.
  - apply H. now left.
Qed.

Lemma is_bracket_of_code (c : char) : is_bracket c = is_bracket_code (code c).
Proof. reflexivity. Qed.

(** A one-for-one case mapping whose runs are clear of the brackets maps
    the brackets to themselves and nothing else to a bracket. *)
Lemma simple_clear (runs : list (N * N * N * Z)) (n : N) :
  forallb run_clear runs = true ->
  is_bracket_code (Unicode.simple runs n) = is_bracket_code n.
Proof.
  intros Hall. unfold Unicode.simple.
  destruct (find (Unicode.in_run n) runs) as [[[[lo hi] step] delta]|] eqn:F;
    [|reflexivity].
  apply find_some in F as [Hin Hrun].
  rewrite forallb_forall in Hall. specialize (Hall _ Hin).
  unfold run_clear in Hall. unfold Unicode.in_run in Hrun.
  apply andb_true_iff in Hrun as [Hrun _]. apply andb_true_iff in Hrun as [Hlo Hhi].
  apply N.leb_le in Hlo, Hhi.
  apply andb_true_iff in Hall as [Hin' Hout].
  apply orb_true_iff in Hin'. apply orb_true_iff in Hout.
  rewrite !N.ltb_lt in Hin'. rewrite !Z.ltb_lt in Hout.
  unfold is_bracket_code.
  replace (n =? 91)%N with false by (symmetry; apply N.eqb_neq; lia).
  replace (n =? 93)%N with false by (symmetry; apply N.eqb_neq; lia).
  replace (Z.to_N (Z.of_N n + delta) =? 91)%N with false
    by (symmetry; apply N.eqb_neq; lia).
  replace (Z.to_N (Z.of_N n + delta) =? 93)%N with false
    by (symmetry; apply N.eqb_neq; lia).
  reflexivity.
Qed.

Lemma free_of_codes (cs : list N) :
  free (of_codes cs) = forallb (fun n => negb (is_bracket_code n)) cs.
Proof. induction cs as [|n cs IH]; [reflexivity|]. simpl. now rewrite IH. Qed.

Lemma full_clear (special : list (N * list N)) (runs : list (N * N * N * Z)) (c : char) :
  forallb special_clear special = true ->
  forallb run_clear runs = true ->
  free (Unicode.full special runs c) = negb (is_bracket c).
Proof.
  intros Hspecial Hruns. unfold Unicode.full.
  destruct (find (fun entry => (fst entry =? code c)%N) special) as [[k cs]|] eqn:F.
  - apply find_some in F as [Hin Hk]. cbn [fst] in Hk. apply N.eqb_eq in Hk. subst k.
    rewrite forallb_forall in Hspecial. specialize (Hspecial _ Hin).
    unfold special_clear in Hspecial. cbn [fst snd] in Hspecial.
    apply andb_true_iff in Hspecial as [Hc Hcs].
    now rewrite free_of_codes, Hcs, is_bracket_of_code, Hc.
  - cbn [free]. rewrite !is_bracket_of_code. cbn [code].
    rewrite simple_clear by assumption. apply andb_true_r.
Qed.

Lemma free_to_title_full (c : char) :
  free (Unicode.to_title_full c) = negb (is_bracket c).
Proof. apply full_clear; vm_compute; reflexivity. Qed.

Lemma free_to_lower_full (c : char) :
  free (Unicode.to_lower_full c) = negb (is_bracket c).
Proof. apply full_clear; vm_compute; reflexivity. Qed.

Lemma free_lower_at (before : bool) (c : char) (rest : str) :
  free (lower_at before c rest) = negb (is_bracket c).
Proof.
  unfold lower_at. destruct (Char.eqb c capital_sigma) eqn:E.
  - apply char_eqb_eq in E. subst c. now destruct (before && final_after rest).
  - apply free_to_lower_full.
Qed.

(** Title case neither makes nor removes a square bracket. *)
Lemma free_title_from (previous_is_cased before : bool) (s : str) :
  free (title_from previous_is_cased before s) = free s.
Proof.
  revert previous_is_cased before.
  induction s as [|c s IH]; intros previous_is_cased before; [reflexivity|].
  cbn [title_from free]. rewrite free_append, IH.
  now destruct previous_is_cased; rewrite ?free_lower_at, ?free_to_title_full.
Qed.

Lemma free_underscores (s : str) : free (replace "_" " " s) = free s.
Proof.
  unfold replace. induction s as [|c s IH]; [reflexivity|].
  cbn [replace_scan startswith length pred].
  destruct (Char.eqb "_" c) eqn:E.
  - apply char_eqb_eq in E; subst c. cbn [andb]. simpl. exact IH.
  - cbn [andb]. simpl. now rewrite IH.
Qed.

Lemma underscores_append (a b : str) :
  replace "_" " " (a ++ b) = replace "_" " " a ++ replace "_" " " b.
Proof.
  unfold replace. induction a as [|c a IH]; [reflexivity|].
  cbn [append replace_scan startswith length pred].
  destruct (Char.eqb "_" c); cbn [andb]; cbn [append]; now rewrite IH.
Qed.

(** A space ends a word for the final-sigma rule. *)
Lemma final_after_space (a b : str) : final_after (a ++ String " " b) = final_after a.
Proof.
  induction a as [|c a IH]; [reflexivity|].
  cbn [append final_after]. now rewrite IH.
Qed.

Lemma title_from_space (previous_is_cased before : bool) (a b : str) :
  title_from previous_is_cased before (a ++ String " " b) =
  title_from previous_is_cased before a ++ String " " (title b).
Proof.
  revert previous_is_cased before.
  induction a as [|c a IH]; intros previous_is_cased before.
  - cbn [append title_from]. unfold title. now destruct previous_is_cased, before.
  - cbn [append title_from]. rewrite IH, append_assoc. f_equal.
    unfold lower_at. now rewrite final_after_space.
Qed.

(** The words of a text, as spaces part them, are put in title case one
    by one. *)
Lemma title_words (a b : str) : title (a ++ " " ++ b) = title a ++ " " ++ title b.
Proof. apply title_from_space. Qed.

(** The name inside the token of a key without brackets has no bracket. *)
Lemma free_token_name (field : str) :
  free field = true -> free (title (replace "_" " " field)) = true.
Proof. intros H. unfold title. now rewrite free_title_from, free_underscores. Qed.

End RenderFacts.

(** ** Substitutions of different tokens commute *)

Section CommuteFacts.

Import Str Bracket ResponseProcessor Render.

(** A token without inner brackets on a group: the group is replaced when
    it is the token, and copied when it is not. *)
Lemma replace_group (t v x r : str) :
  free t = true -> free x = true ->
  replace ("[" ++ t ++ "]") v ("[" ++ x ++ String "]" r) =
  if Text.eqb t x then v ++ replace ("[" ++ t ++ "]") v r
  else "[" ++ x ++ String "]" (replace ("[" ++ t ++ "]") v r).
Proof.
  intros Ht Hx. destruct (Text.eqb t x) eqn:E.
  - apply text_eqb_eq in E; subst x.
    rewrite (group_append t r).
    apply (replace_hit ("[" ++ t ++ "]") v r). discriminate.
  - apply replace_other_group; [assumption|].
    now rewrite startswith_group.
Qed.

Lemma replace_commute (t1 v1 t2 v2 : str) :
  free t1 = true -> free v1 = true -> free t2 = true -> free v2 = true ->
  t1 <> t2 ->
  forall s, well_formed s = true ->
  replace ("[" ++ t1 ++ "]") v1 (replace ("[" ++ t2 ++ "]") v2 s) =
  replace ("[" ++ t2 ++ "]") v2 (replace ("[" ++ t1 ++ "]") v1 s).
Proof.
  intros Ht1 Hv1 Ht2 Hv2 Hne s Hs.
  pattern s. apply well_formed_ind; [ | | | exact Hs]; clear s Hs.
  - reflexivity.
  - intros c s Hc _ IH. rewrite !replace_plain by assumption. now rewrite IH.
  - intros x r Hx _ IH.
    rewrite (replace_group t2), (replace_group t1) by assumption.
    destruct (Text.eqb t2 x) eqn:E2; destruct (Text.eqb t1 x) eqn:E1.
    + apply text_eqb_eq in E1, E2. congruence.
    + rewrite (replace_free_prefix t1 v1 v2), (replace_group t2), E2, IH
        by assumption.
      reflexivity.
    + rewrite (replace_free_prefix t2 v2 v1), (replace_group t1), E1, IH
        by assumption.
      reflexivity.
    + rewrite (replace_group t1), (replace_group t2), E1, E2, IH by assumption.
      reflexivity.
Qed.

Lemma substitute_well_formed (e : str * str) (s : str) :
  free (snd e) = true -> well_formed s = true ->
  well_formed (substitute s e) = true.
Proof. intros He Hs. now apply replace_invariants. Qed.

Lemma substitute_commute (x y : str * str) (s : str) :
  free (fst x) = true -> free (snd x) = true ->
  free (fst y) = true -> free (snd y) = true ->
  placeholder (fst x) <> placeholder (fst y) ->
  well_formed s = true ->
  substitute (substitute s x) y = substitute (substitute s y) x.
Proof.
  intros Hx1 Hx2 Hy1 Hy2 Hne Hs. unfold substitute.
  rewrite !placeholder_token in *.
  apply replace_commute; auto using free_token_name.
  intros E. apply Hne. now rewrite E.
Qed.

Lemma keys_bracket_free_cons (e : str * str) (fields : Dict.t str) :
  keys_bracket_free (e :: fields) = true ->
  free (fst e) = true /\ keys_bracket_free fields = true.
Proof. apply andb_true_iff. Qed.

(** One substitution moves across a sequence of substitutions of other
    tokens. *)
Lemma substitute_across (x : str * str) (ys : Dict.t str) :
  free (fst x) = true -> free (snd x) = true ->
  keys_bracket_free ys = true -> values_bracket_free ys = true ->
  forallb (fun y => negb (Text.eqb (placeholder (fst x)) (placeholder (fst y)))) ys = true ->
  forall s, well_formed s = true ->
  substitute (fold_left substitute ys s) x = fold_left substitute ys (substitute s x).
Proof.
  intros Hx1 Hx2. induction ys as [|y ys IH]; intros Hk Hv Hd s Hs; [reflexivity|].
  apply keys_bracket_free_cons in Hk as [Hy1 Hk].
  apply values_bracket_free_cons in Hv as [Hy2 Hv].
  cbn [forallb] in Hd. apply andb_true_iff in Hd as [Hxy Hd].
  apply negb_true_iff, text_eqb_neq in Hxy.
  cbn [fold_left].
  rewrite IH by auto using substitute_well_formed.
  now rewrite (substitute_commute x y).
Qed.

(** Two sequences of substitutions with disjoint tokens commute. *)
Lemma substitutions_commute (xs ys : Dict.t str) :
  keys_bracket_free xs = true -> values_bracket_free xs = true ->
  keys_bracket_free ys = true -> values_bracket_free ys = true ->
  tokens_disjoint xs ys = true ->
  forall s, well_formed s = true ->
  fold_left substitute ys (fold_left substitute xs s) =
  fold_left substitute xs (fold_left substitute ys s).
Proof.
  intros Hkx Hvx Hky Hvy Hd. revert Hkx Hvx Hd.
  induction xs as [|x xs IH]; intros Hkx Hvx Hd s Hs; [reflexivity|].
  apply keys_bracket_free_cons in Hkx as [Hx1 Hkx].
  apply values_bracket_free_cons in Hvx as [Hx2 Hvx].
  unfold tokens_disjoint in Hd. cbn [forallb] in Hd.
  apply andb_true_iff in Hd as [Hxd Hd].
  cbn [fold_left].
  rewrite IH by auto using substitute_well_formed.
  now rewrite substitute_across.
Qed.

End CommuteFacts.

(** ** The pattern of the deviation score *)

Section PatternFacts.

Import Str CommunicationEngine.

Lemma span_digits_eq (s : str) :
  s = fst (span_digits s) ++ snd (span_digits s).
Proof.
  induction s as [|c s IH]; [reflexivity|].
  simpl. destruct (is_digit c); [|reflexivity].
  destruct (span_digits s) as [ds rest]. simpl in *. now rewrite IH at 1.
Qed.

Lemma span_digits_all (s : str) : Float.all_digits (fst (span_digits s)) = true.
Proof.
  induction s as [|c s IH]; [reflexivity|].
  simpl. destruct (is_digit c) eqn:E; [|reflexivity].
  destruct (span_digits s) as [ds rest]. simpl in *. now rewrite E.
Qed.

Lemma span_digits_rest (s : str) : Spec.no_digit_ahead (snd (span_digits s)) = true.
Proof.
  induction s as [|c s IH]; [reflexivity|].
  simpl. destruct (is_digit c) eqn:E.
  - destruct (span_digits s) as [ds rest]. exact IH.
  - simpl. now rewrite E.
Qed.

Lemma span_digits_nil (s : str) :
  fst (span_digits s) = EmptyString -> Spec.no_digit_ahead s = true.
Proof.
  destruct s as [|c s]; [reflexivity|]. simpl.
  destruct (is_digit c); [|reflexivity].
  destruct (span_digits s). discriminate.
Qed.

Lemma point_not_digit (c : char) : Char.eqb c "." = true -> is_digit c = false.
Proof. intros H. apply char_eqb_eq in H. now subst. Qed.

Lemma split_point_digits (ds : str) :
  Float.all_digits ds = true -> Float.split_point ds = (ds, EmptyString).
Proof.
  induction ds as [|c ds IH]; intros H; [reflexivity|].
  simpl in H. apply andb_true_iff in H as [Hc Hds]. simpl.
  destruct (Char.eqb c ".") eqn:E.
  - apply point_not_digit in E. congruence.
  - now rewrite IH.
Qed.

Lemma split_point_fraction (ds fs : str) :
  Float.all_digits ds = true -> Float.split_point (ds ++ "." ++ fs) = (ds, fs).
Proof.
  induction ds as [|c ds IH]; intros H; [reflexivity|].
  simpl in H. apply andb_true_iff in H as [Hc Hds]. simpl.
  destruct (Char.eqb c ".") eqn:E.
  - apply point_not_digit in E. congruence.
  - simpl in IH. now rewrite IH.
Qed.

Lemma all_digits_point (ds fs : str) :
  Float.all_digits (ds ++ "." ++ fs) = false.
Proof.
  induction ds as [|c ds IH]; [reflexivity|].
  simpl in *. rewrite IH. apply andb_false_r.
Qed.

Lemma is_lexeme_digits (ds : str) :
  ds <> EmptyString -> Float.all_digits ds = true -> Float.is_lexeme ds = true.
Proof.
  intros Hne H. unfold Float.is_lexeme. rewrite split_point_digits by assumption.
  rewrite H, text_eqb_refl. apply text_eqb_neq in Hne. now rewrite Hne.
Qed.

Lemma is_lexeme_fraction (ds fs : str) :
  ds <> EmptyString -> fs <> EmptyString -> Float.all_digits ds = true -> Float.all_digits fs = true ->
  Float.is_lexeme (ds ++ "." ++ fs) = true.
Proof.
  intros Hd Hf H1 H2. unfold Float.is_lexeme.
  rewrite split_point_fraction by assumption.
  apply text_eqb_neq in Hd, Hf. rewrite H1, H2, Hd, Hf.
  cbn [negb andb]. apply orb_true_r.
Qed.

(** The match at the head of a text is a decimal lexeme that what follows
    cannot make longer. *)
Lemma match_number_spec (s lexeme : str) :
  match_number s = Some lexeme ->
  exists post, s = lexeme ++ post /\
               Float.is_lexeme lexeme = true /\
               Spec.maximal lexeme post = true.
Proof.
  unfold match_number.
  pose proof (span_digits_eq s) as Heq.
  pose proof (span_digits_all s) as Hall.
  pose proof (span_digits_rest s) as Hrest.
  destruct (span_digits s) as [ds rest]. cbn [fst snd] in *.
  destruct ds as [|d ds]; [discriminate|].
  destruct rest as [|c rest'].
  - intros [= <-]. exists EmptyString. repeat split; trivial.
    apply is_lexeme_digits; [discriminate | assumption].
  - destruct (Char.eqb c ".") eqn:Ec.
    + pose proof (span_digits_eq rest') as Heq'.
      pose proof (span_digits_all rest') as Hall'.
      pose proof (span_digits_rest rest') as Hrest'.
      pose proof (span_digits_nil rest') as Hnil'.
      destruct (span_digits rest') as [fs post]. cbn [fst snd] in *.
      apply char_eqb_eq in Ec; subst c.
      destruct fs as [|f fs].
      * intros [= <-]. exists (String "." rest'). repeat split; trivial.
        { apply is_lexeme_digits; [discriminate | assumption]. }
        cbn [Spec.maximal]. rewrite Hall.
        specialize (Hnil' eq_refl). destruct rest' as [|e rest'']; [reflexivity|].
        cbn [Spec.no_digit_ahead] in Hnil'. apply negb_true_iff in Hnil'.
        now rewrite Hnil'.
      * intros [= <-]. exists post. split; [|split].
        { rewrite Heq, Heq'. simpl. f_equal.
          now rewrite (append_assoc ds (String "." (String f fs)) post). }
        { apply (is_lexeme_fraction (String d ds) (String f fs));
            try discriminate; assumption. }
        destruct post as [|e post']; [reflexivity|].
        pose proof (all_digits_point (String d ds) (String f fs)) as Hp.
        cbn [append] in Hp.
        cbn [Spec.maximal]. cbn [Spec.no_digit_ahead] in Hrest'.
        rewrite Hrest', Hp. now rewrite andb_false_r.
    + intros [= <-]. exists (String c rest'). repeat split; trivial.
      { apply is_lexeme_digits; [discriminate | assumption]. }
      cbn [Spec.maximal]. cbn [Spec.no_digit_ahead] in Hrest. now rewrite Hrest, Ec.
Qed.

Lemma match_number_none (c : char) (s : str) :
  is_digit c = false -> match_number (String c s) = None.
Proof. intros H. unfold match_number. simpl. now rewrite H. Qed.

Lemma match_number_some (c : char) (s : str) :
  is_digit c = true -> exists lexeme, match_number (String c s) = Some lexeme.
Proof.
  intros H. unfold match_number. simpl. rewrite H.
  destruct (span_digits s) as [ds rest].
  destruct rest as [|e rest']; [eauto|].
  destruct (Char.eqb e "."); [|eauto].
  destruct (fst (span_digits rest')); eauto.
Qed.

(** The search finds the leftmost match: no digit comes before it. *)
Lemma search_number_spec (s lexeme : str) :
  search_number s = Some lexeme ->
  exists pre post, s = pre ++ lexeme ++ post /\
                   Spec.has_digit pre = false /\
                   Float.is_lexeme lexeme = true /\
                   Spec.maximal lexeme post = true.
Proof.
  induction s as [|c s IH]; [discriminate|].
  cbn [search_number]. destruct (is_digit c) eqn:Ec.
  - destruct (match_number_some c s Ec) as [l El]. rewrite El. intros [= <-].
    destruct (match_number_spec _ _ El) as (post & E & L & X).
    now exists EmptyString, post.
  - rewrite match_number_none by assumption. intros H.
    destruct (IH H) as (pre & post & -> & D & L & X).
    exists (String c pre), post. repeat split; trivial.
    simpl. now rewrite Ec.
Qed.


Lemma float_lexeme (lexeme : str) :
  Float.is_lexeme lexeme = true ->
  exists x, Float.of_str lexeme = Some x /\ float lexeme = Ok x.
Proof.
  intros H. unfold float, Float.of_str. rewrite H.
  destruct (Float.split_point lexeme). eauto.
Qed.

End PatternFacts.

(** ** The runs of the engine and of the pipeline *)

Section RunFacts.

Import CommunicationEngine ResponseProcessor Render.

Variable svc : service.

Lemma minimal_config :
  exists config,
    Dict.get deviation_tolerance_settings "minimal" = Some config /\
    limit config = 25%Z.
Proof. eexists. split; reflexivity. Qed.

Lemma get_deviation_tolerance_limit_eq (tolerance : str) :
  get_deviation_tolerance_limit tolerance =
  Ok (match Dict.get deviation_tolerance_settings tolerance with
      | Some config => limit config
      | None => 25%Z
      end).
Proof.
  destruct minimal_config as (config & Hget & Hlimit).
  unfold get_deviation_tolerance_limit, tolerance_lookup, subscript, Dict.get_default.
  rewrite Hget.
  destruct (Dict.get deviation_tolerance_settings tolerance); [reflexivity|].
  now rewrite Hlimit.
Qed.

Lemma calculate_deviation_percentage_run (generated standard : str) (w : world) :
  exists x lines,
    calculate_deviation_percentage svc generated standard w =
      (Ok x, after w (comparison_request generated standard) lines) /\
    Spec.score_of (svc (requests w) (comparison_request generated standard)) x.
Proof.
  unfold calculate_deviation_percentage, try_except, bind, create, Spec.score_of.
  destruct (svc (requests w) (comparison_request generated standard)) as [text|str_e].
  - destruct (search_number (Str.strip text)) as [lexeme|] eqn:E.
    + destruct (search_number_spec _ _ E) as (pre & post & _ & _ & L & _).
      destruct (float_lexeme _ L) as (x & Hx & Hf).
      exists x, []. unfold lift, after. rewrite Hf, app_nil_r. now split.
    + exists Float.zero, []. unfold ret, after. rewrite app_nil_r. now split.
  - exists Float.zero, ["Error calculating deviation: " ++ str_e].
    unfold print, ret, after. cbn. now split.
Qed.

Lemma tolerance_lookup_total (tolerance : str) :
  exists config, tolerance_lookup tolerance = Ok config.
Proof.
  destruct minimal_config as (config & Hget & _).
  unfold tolerance_lookup, subscript. rewrite Hget. eauto.
Qed.

Lemma prepare_standard_response_eq (config_manager : ConfigManager)
    (key : str) (customer_data company_info : Dict.t str) :
  prepare_standard_response config_manager key customer_data company_info =
  match Dict.get (standard_responses config_manager) key with
  | Some body => Ok (render customer_data company_info body)
  | None => Raise (ValueError ("Template type '" ++ key ++
                               "' not found in standard responses"))
  end.
Proof.
  unfold prepare_standard_response, Dict.mem, subscript.
  destruct (Dict.get (standard_responses config_manager) key); reflexivity.
Qed.

Lemma generate_personalized_response_run
    (inquiry standard tolerance : str) (config : tolerance_config) (w : world) :
  tolerance_lookup tolerance = Ok config ->
  let prompt := personalization_prompt inquiry standard (instruction config) in
  let rq := personalization_request prompt "gpt-3.5-turbo" 800 in
  generate_personalized_response svc inquiry standard tolerance "gpt-3.5-turbo" 800 w =
  match svc (requests w) rq with
  | Completion text => (Ok (Str.strip text), after w rq [prompt])
  | Failure str_e =>
      (Raise (Exception ("Error generating communication: " ++ str_e)), after w rq [prompt])
  end.
Proof.
  intros H. unfold generate_personalized_response, bind, lift, try_except, print, create.
  rewrite H. cbn [requests stdout].
  destruct (svc (requests w) _); reflexivity.
Qed.

(** A run of the pipeline that returns a record went through every step. *)
Lemma generate_response_ok (config_manager : ConfigManager)
    (key inquiry : str) (customer_data company_info : Dict.t str)
    (tolerance : str) (w w' : world) (r : generation_result) :
  generate_response config_manager svc key inquiry customer_data company_info
    tolerance w = (Ok r, w') ->
  exists body config text w1,
    Dict.get (standard_responses config_manager) key = Some body /\
    tolerance_lookup tolerance = Ok config /\
    standard_response r = render customer_data company_info body /\
    generate_personalized_response svc inquiry (standard_response r) tolerance
      "gpt-3.5-turbo" 800 w = (Ok (Str.strip text), w1) /\
    generated_response r = Str.strip text /\
    calculate_deviation_percentage svc (generated_response r) (standard_response r) w1
      = (Ok (deviation_percentage r), w') /\
    max_allowed_deviation r = limit config /\
    is_compliant r = Float.le_int (deviation_percentage r) (max_allowed_deviation r) /\
    compliance_level r =
      Spec.classify (deviation_percentage r) (max_allowed_deviation r) /\
    template_type r = key /\ deviation_tolerance r = tolerance.
Proof.
  unfold generate_response. unfold bind at 1. unfold lift at 1.
  rewrite prepare_standard_response_eq.
  destruct (Dict.get (standard_responses config_manager) key) as [body|];
    [|discriminate].
  destruct (tolerance_lookup_total tolerance) as [config Hconfig].
  unfold bind at 1.
  rewrite (generate_personalized_response_run _ _ _ config) by assumption.
  destruct (svc (requests w) _) as [text|str_e] eqn:Hsvc; [|discriminate].
  unfold bind at 1.
  destruct (calculate_deviation_percentage svc _ _ _) as [[x|e] w2] eqn:Hscore;
    [|discriminate].
  unfold bind at 1. unfold lift at 1.
  assert (Hlimit : get_deviation_tolerance_limit tolerance = Ok (limit config)).
  { unfold get_deviation_tolerance_limit. now rewrite Hconfig. }
  rewrite Hlimit. unfold ret, Spec.classify.
  intros H. exists body, config, text, (after w
    (personalization_request
       (personalization_prompt inquiry (render customer_data company_info body)
          (instruction config)) "gpt-3.5-turbo" 800)
    [personalization_prompt inquiry (render customer_data company_info body)
       (instruction config)]).
  destruct (Float.le_int x 10) eqn:E1; [|destruct (Float.le_int x 25) eqn:E2;
    [|destruct (Float.le_int x (limit config)) eqn:E3]];
    injection H as <- <-;
    cbn [standard_response generated_response deviation_percentage
         max_allowed_deviation is_compliant compliance_level template_type
         deviation_tolerance];
    rewrite (generate_personalized_response_run _ _ _ config), Hsvc by assumption;
    rewrite ?E1, ?E2, ?E3; repeat split; trivial.
Qed.

(** The pipeline returns a record whenever the template is there and the
    service answers the personalization request. *)
Lemma generate_response_returns (config_manager : ConfigManager)
    (key inquiry : str) (customer_data company_info : Dict.t str)
    (tolerance : str) (w : world) (body text : str) (config : tolerance_config) :
  Dict.get (standard_responses config_manager) key = Some body ->
  tolerance_lookup tolerance = Ok config ->
  svc (requests w)
      (personalization_request
         (personalization_prompt inquiry (render customer_data company_info body)
            (instruction config)) "gpt-3.5-turbo" 800) = Completion text ->
  exists r w',
    generate_response config_manager svc key inquiry customer_data company_info
      tolerance w = (Ok r, w').
Proof.
  intros Hbody Hconfig Hsvc.
  unfold generate_response. unfold bind at 1. unfold lift at 1.
  rewrite prepare_standard_response_eq, Hbody.
  unfold bind at 1.
  rewrite (generate_personalized_response_run _ _ _ config), Hsvc by assumption.
  unfold bind at 1.
  destruct (calculate_deviation_percentage_run (Str.strip text)
              (render customer_data company_info body)
              (after w
                 (personalization_request
                    (personalization_prompt inquiry
                       (render customer_data company_info body)
                       (instruction config)) "gpt-3.5-turbo" 800)
                 [personalization_prompt inquiry
                    (render customer_data company_info body)
                    (instruction config)]))
    as (x & lines & -> & _).
  unfold bind at 1. unfold lift at 1.
  assert (Hlimit : get_deviation_tolerance_limit tolerance = Ok (limit config)).
  { unfold get_deviation_tolerance_limit. now rewrite Hconfig. }
  rewrite Hlimit. unfold ret.
  destruct (Float.le_int x 10); [|destruct (Float.le_int x 25);
    [|destruct (Float.le_int x (limit config))]]; eauto.
Qed.

End RunFacts.

(** * The claims *)

Section Claims.

Import Str Bracket CommunicationEngine ResponseProcessor Render.

Lemma le_int_monotone (x : spec_float) (a b : Z) :
  (a <= b)%Z -> Float.le_int x a = true -> Float.le_int x b = true.
Proof.
  intros Hab. destruct x as [s|s| |s m e]; simpl; trivial.
  - rewrite !Z.leb_le. lia.
  - destruct e as [|k|k]; rewrite !Z.leb_le; intros H; try lia.
    assert (0 < 2 ^ Zpos k)%Z by (apply Z.pow_pos_nonneg; lia). nia.
Qed.

(** The band between 25 and the ceiling is empty when the ceiling is at
    most 25. *)
Lemma acceptable_band_dead (deviation : spec_float) (ceiling : Z) :
  (ceiling <= 25)%Z -> Spec.classify deviation ceiling <> "acceptable".
Proof.
  intros Hc. unfold Spec.classify.
  destruct (Float.le_int deviation 10); [discriminate|].
  destruct (Float.le_int deviation 25) eqn:E; [discriminate|].
  destruct (Float.le_int deviation ceiling) eqn:E'; [|discriminate].
  rewrite (le_int_monotone _ _ _ Hc E') in E. discriminate.
Qed.

(** C1, as amended.  The tier of every record the pipeline returns is the
    specification's [classify] of the record's deviation and ceiling:
    excellent up to 10, else good up to 25, else acceptable up to the
    ceiling, else warning.  Five sample values of the specification hold;
    the sixth, a deviation of 11 under the ceiling 10, is classified good,
    because the second threshold is tried before the ceiling.  With the
    ceiling 10 no deviation is classified acceptable. *)
Theorem classification_thresholds :
  (forall config_manager svc key inquiry customer_data company_info tolerance w r w',
      generate_response config_manager svc key inquiry customer_data company_info
        tolerance w = (Ok r, w') ->
      compliance_level r =
        Spec.classify (deviation_percentage r) (max_allowed_deviation r)) /\
  Spec.classify (Float.of_int 8) 25 = "excellent" /\
  Spec.classify (Float.of_int 18) 25 = "good" /\
  Spec.classify (Float.of_int 40) 50 = "acceptable" /\
  Spec.classify (Float.of_int 40) 25 = "warning" /\
  Spec.classify (Float.of_int 10) 10 = "excellent" /\
  Spec.classify (Float.of_int 11) 10 = "good" /\
  (forall deviation, Spec.classify deviation 10 <> "acceptable").
Proof.
  split.
  - intros * H. now destruct (generate_response_ok _ _ _ _ _ _ _ _ _ _ H)
      as (body & config & text & w1 & _ & _ & _ & _ & _ & _ & _ & _ & Hc & _).
  - do 6 (split; [reflexivity|]).
    intros deviation. now apply acceptable_band_dead.
Qed.

(** C1 as stated fails: under the tolerance strict (ceiling 10) a score of
    11 gives a record whose tier is good, not warning. *)
Lemma classification_strict_eleven :
  exists r w',
    generate_response sample_config (scripted [Completion "Dear Jane"; Completion "11"])
      "customer_inquiry_response" "Where is my card?" sample_customer sample_company
      "strict" initial_world = (Ok r, w') /\
    deviation_percentage r = Float.of_int 11 /\
    max_allowed_deviation r = 10%Z /\
    compliance_level r = "good" /\
    compliance_level r <> "warning".
Proof.
  eexists. eexists. split; [vm_compute; reflexivity|].
  repeat split; try reflexivity. discriminate.
Qed.

Lemma classification_thresholds_witness :
  exists r w',
    generate_response sample_config (scripted [Completion "Dear Jane"; Completion "40"])
      "customer_inquiry_response" "Where is my card?" sample_customer sample_company
      "moderate" initial_world = (Ok r, w') /\
    compliance_level r = "acceptable" /\
    compliance_level r =
      Spec.classify (deviation_percentage r) (max_allowed_deviation r).
Proof.
  eexists. eexists. split; [vm_compute; reflexivity|].
  split; [reflexivity|].
  eapply (proj1 classification_thresholds sample_config
            (scripted [Completion "Dear Jane"; Completion "40"])
            "customer_inquiry_response" "Where is my card?" sample_customer
            sample_company "moderate" initial_world).
  vm_compute. reflexivity.
Defined.

(** C2.  For a template key that is absent from the standard-responses
    table the pipeline raises the template-not-found error (the source's
    [ValueError] with the text "Template type '...' not found in standard
    responses") and leaves the world as it was: no request has been sent to
    the service, neither for personalization nor for scoring. *)
Theorem unknown_template_aborts
    (config_manager : ConfigManager) (svc : service) (key inquiry : str)
    (customer_data company_info : Dict.t str) (tolerance : str) (w : world) :
  Dict.mem (standard_responses config_manager) key = false ->
  generate_response config_manager svc key inquiry customer_data company_info
    tolerance w =
    (Raise (ValueError ("Template type '" ++ key ++ "' not found in standard responses")),
     w) /\
  requests (snd (generate_response config_manager svc key inquiry customer_data
                   company_info tolerance w)) = requests w.
Proof.
  intros H.
  assert (E : generate_response config_manager svc key inquiry customer_data
                company_info tolerance w =
              (Raise (ValueError ("Template type '" ++ key ++
                                  "' not found in standard responses")), w)).
  { unfold generate_response. unfold bind at 1. unfold lift at 1.
    unfold prepare_standard_response. now rewrite H. }
  now rewrite E.
Qed.

Lemma unknown_template_aborts_witness :
  generate_response sample_config (always "50") "claim_denial_notification"
    "Why was my claim denied?" sample_customer sample_company "minimal" initial_world =
    (Raise (ValueError "Template type 'claim_denial_notification' not found in standard responses"),
     initial_world) /\
  requests (snd (generate_response sample_config (always "50") "claim_denial_notification"
                   "Why was my claim denied?" sample_customer sample_company "minimal"
                   initial_world)) = [].
Proof.
  apply (unknown_template_aborts sample_config (always "50") "claim_denial_notification"
           "Why was my claim denied?" sample_customer sample_company "minimal"
           initial_world).
  reflexivity.
Defined.

(** C3.  For each of the four tolerance levels, a record the pipeline
    returns has the level's ceiling (10, 25, 50, 70) as its
    [max_allowed_deviation], its deviation is the score measured on the
    generated and the standard text, and its compliance flag is true exactly
    when that deviation is at most the ceiling. *)
Theorem ceiling_and_compliance
    (config_manager : ConfigManager) (svc : service) (key inquiry : str)
    (customer_data company_info : Dict.t str) (tolerance : str) (ceiling : Z)
    (w w' : world) (r : generation_result) :
  In (tolerance, ceiling) Spec.ceilings ->
  generate_response config_manager svc key inquiry customer_data company_info
    tolerance w = (Ok r, w') ->
  max_allowed_deviation r = ceiling /\
  (exists w1, calculate_deviation_percentage svc (generated_response r)
                (standard_response r) w1 = (Ok (deviation_percentage r), w')) /\
  (is_compliant r = true <-> Float.le_int (deviation_percentage r) ceiling = true).
Proof.
  intros Hin H.
  destruct (generate_response_ok _ _ _ _ _ _ _ _ _ _ H)
    as (body & config & text & w1 & _ & Hconfig & _ & _ & _ & Hscore & Hmax & Hflag & _).
  assert (Hc : max_allowed_deviation r = ceiling).
  { rewrite Hmax. simpl in Hin.
    destruct Hin as [E|[E|[E|[E|[]]]]]; injection E as <- <-;
      vm_compute in Hconfig; injection Hconfig as <-; reflexivity. }
  split; [exact Hc|]. split; [now exists w1|].
  now rewrite Hflag, Hc.
Qed.

Lemma ceiling_and_compliance_witness :
  exists r w',
    generate_response sample_config (scripted [Completion "Dear Jane"; Completion "40"])
      "customer_inquiry_response" "Where is my card?" sample_customer sample_company
      "flexible" initial_world = (Ok r, w') /\
    deviation_percentage r = Float.of_int 40 /\
    max_allowed_deviation r = 70%Z /\
    (is_compliant r = true <-> Float.le_int (deviation_percentage r) 70 = true).
Proof.
  eexists. eexists. split; [vm_compute; reflexivity|].
  split; [reflexivity|].
  refine ((fun H => conj (proj1 H) (proj2 (proj2 H)))
            (ceiling_and_compliance sample_config
               (scripted [Completion "Dear Jane"; Completion "40"])
               "customer_inquiry_response" "Where is my card?" sample_customer
               sample_company "flexible" 70 initial_world _ _ _ _)).
  - right. right. right. left. reflexivity.
  - vm_compute. reflexivity.
Defined.

Lemma dict_get_in {V : Type} (d : Dict.t V) (k : str) (v : V) :
  Dict.get d k = Some v -> In v (map snd d).
Proof.
  induction d as [|[k' v'] d IH]; [discriminate|]. simpl.
  destruct (Text.eqb k' k); [intros [= ->]; now left | auto].
Qed.

(** C5.  The tolerance lookup answers every str: it raises nothing, its
    answer is one of the four entries of the table, the limit function gives
    that entry's ceiling, and a str that is no key of the table gets the
    entry of minimal, whose ceiling is 25. *)
Theorem tolerance_lookup_fails_open (tolerance : str) :
  exists config,
    tolerance_lookup tolerance = Ok config /\
    get_deviation_tolerance_limit tolerance = Ok (limit config) /\
    In config (map snd deviation_tolerance_settings) /\
    (Dict.mem deviation_tolerance_settings tolerance = false ->
     Dict.get deviation_tolerance_settings "minimal" = Some config /\
     limit config = 25%Z).
Proof.
  destruct minimal_config as (minimal & Hget & Hlimit).
  exists (Dict.get_default deviation_tolerance_settings tolerance minimal).
  unfold get_deviation_tolerance_limit, tolerance_lookup, subscript.
  rewrite Hget. repeat split.
  - unfold Dict.get_default.
    destruct (Dict.get deviation_tolerance_settings tolerance) eqn:E.
    + eapply dict_get_in, E.
    + eapply dict_get_in, Hget.
  - unfold Dict.mem in H. unfold Dict.get_default.
    destruct (Dict.get deviation_tolerance_settings tolerance); [discriminate|].
    reflexivity.
  - unfold Dict.mem in H. unfold Dict.get_default.
    destruct (Dict.get deviation_tolerance_settings tolerance); [discriminate|].
    exact Hlimit.
Qed.

Lemma tolerance_lookup_fails_open_witness :
  exists config,
    tolerance_lookup "lenient" = Ok config /\
    get_deviation_tolerance_limit "lenient" = Ok 25%Z /\
    Dict.get deviation_tolerance_settings "minimal" = Some config.
Proof.
  destruct (tolerance_lookup_fails_open "lenient") as (config & H1 & H2 & _ & H4).
  destruct (H4 eq_refl) as [Hget Hlimit].
  exists config. rewrite Hlimit in H2. now repeat split.
Defined.



(** C10.  In every record the pipeline returns, the tier warning implies
    that the compliance flag is false.  The converse fails: under the
    tolerance strict, whose ceiling is 10, a score of 20 gives a record that
    is not compliant and whose tier is good. *)
Theorem tier_and_flag_disagree :
  (forall config_manager svc key inquiry customer_data company_info tolerance w r w',
      generate_response config_manager svc key inquiry customer_data company_info
        tolerance w = (Ok r, w') ->
      compliance_level r = "warning" -> is_compliant r = false) /\
  (exists r w',
      generate_response sample_config (scripted [Completion "Dear Jane"; Completion "20"])
        "customer_inquiry_response" "Where is my card?" sample_customer sample_company
        "strict" initial_world = (Ok r, w') /\
      max_allowed_deviation r = 10%Z /\
      deviation_percentage r = Float.of_int 20 /\
      is_compliant r = false /\
      compliance_level r = "good").
Proof.
  split.
  - intros * H Hw.
    destruct (generate_response_ok _ _ _ _ _ _ _ _ _ _ H)
      as (body & config & text & w1 & _ & _ & _ & _ & _ & _ & _ & Hflag & Hlevel & _).
    rewrite Hflag. rewrite Hlevel in Hw. unfold Spec.classify in Hw.
    destruct (Float.le_int (deviation_percentage r) 10); [discriminate|].
    destruct (Float.le_int (deviation_percentage r) 25); [discriminate|].
    destruct (Float.le_int (deviation_percentage r) (max_allowed_deviation r));
      [discriminate | reflexivity].
  - eexists. eexists. split; [vm_compute; reflexivity|].
    repeat split; reflexivity.
Qed.

Lemma tier_and_flag_disagree_witness :
  exists r w',
    generate_response sample_config (scripted [Completion "Dear Jane"; Completion "60"])
      "customer_inquiry_response" "Where is my card?" sample_customer sample_company
      "moderate" initial_world = (Ok r, w') /\
    compliance_level r = "warning" /\
    is_compliant r = false.
Proof.
  eexists. eexists. split; [vm_compute; reflexivity|].
  split; [reflexivity|].
  eapply (proj1 tier_and_flag_disagree sample_config
            (scripted [Completion "Dear Jane"; Completion "60"])
            "customer_inquiry_response" "Where is my card?" sample_customer
            sample_company "moderate" initial_world).
  - vm_compute. reflexivity.
  - reflexivity.
Defined.

(** C6.  The token of a field is its key with underscores turned into
    spaces, put in title case and wrapped in square brackets, so that
    [account_number] gives [[Account Number]] and [straße] gives [[Straße]];
    the words that underscores part are put in title case one by one.  On a
    template that is in the
    table, [prepare_standard_response] returns the body after the
    substitutions of the customer data, in their order, followed by those of
    the company information.  Each substitution cuts the text at the
    occurrences of the token into pieces free of the token and puts the
    value between the pieces: every occurrence is replaced, and nothing else
    is changed. *)
Theorem prepare_standard_response_substitutes :
  placeholder "account_number" = "[Account Number]" /\
  placeholder "straße" = "[Straße]" /\
  (forall field,
      placeholder field = "[" ++ title (replace "_" " " field) ++ "]") /\
  (forall a b,
      placeholder (a ++ "_" ++ b) =
      "[" ++ title (replace "_" " " a) ++ " " ++ title (replace "_" " " b) ++ "]") /\
  (forall config_manager key body customer_data company_info,
      Dict.get (standard_responses config_manager) key = Some body ->
      prepare_standard_response config_manager key customer_data company_info =
        Ok (fold_left substitute (customer_data ++ company_info)%list body)) /\
  (forall text field value,
      exists pieces,
        text = Text.concat (placeholder field) pieces /\
        substitute text (field, value) = Text.concat value pieces /\
        Forall (fun piece => contains (placeholder field) piece = false) pieces).
Proof.
  split; [reflexivity|]. split; [reflexivity|]. split; [reflexivity|]. split; [|split].
  - intros a b. unfold placeholder.
    rewrite (underscores_append a ("_" ++ b)), (underscores_append "_" b).
    change (replace "_" " " "_") with " ".
    now rewrite title_words, !append_assoc.
  - intros * H. rewrite prepare_standard_response_eq, H. now rewrite render_fold.
  - intros text field value.
    destruct (replace_pieces (placeholder field) value (placeholder_not_empty field) text)
      as (pieces & E1 & E2 & _ & Hall).
    now exists pieces.
Qed.

Lemma prepare_standard_response_substitutes_witness :
  prepare_standard_response sample_config "customer_inquiry_response"
    sample_customer sample_company =
  Ok "Dear Jane Doe, thank you for contacting Acme Insurance about account A-1002.".
Proof.
  rewrite (proj1 (proj2 (proj2 (proj2 (proj2 prepare_standard_response_substitutes))))
             sample_config "customer_inquiry_response"
             "Dear [Customer Name], thank you for contacting [Company Name] about account [Account Number]."
             sample_customer sample_company eq_refl).
  reflexivity.
Defined.

(** After the substitutions of bracket-free values in a well-formed body,
    no group of the result is the token of a supplied field. *)
Lemma render_invariants (customer_data company_info : Dict.t str) (body : str) :
  well_formed body = true ->
  values_bracket_free (customer_data ++ company_info)%list = true ->
  well_formed (render customer_data company_info body) = true /\
  incl (groups (render customer_data company_info body)) (groups body) /\
  forall e, In e (customer_data ++ company_info)%list ->
            ~ In (placeholder (fst e)) (groups (render customer_data company_info body)).
Proof.
  intros Hb Hv. rewrite render_fold. now apply substitutions_invariants.
Qed.

(** C7 as stated fails.  A value that carries its own token makes every
    rendering longer, and a body with a nested group resolves one level of
    nesting per rendering, although each field set covers the tokens of its
    body. *)
Lemma render_idempotent_counterexample :
  (covers [("a", "[A][A]")] "[A]" = true /\
   render [("a", "[A][A]")] [] "[A]" = "[A][A]" /\
   render [("a", "[A][A]")] [] (render [("a", "[A][A]")] [] "[A]") = "[A][A][A][A]") /\
  (covers [("a", "A")] "[[A]]" = true /\
   render [("a", "A")] [] "[[A]]" = "[A]" /\
   render [("a", "A")] [] (render [("a", "A")] [] "[[A]]") = "A").
Proof. repeat split; reflexivity. Qed.

(** C7, as amended.  When the brackets of the body are well formed, no
    supplied value contains a square bracket and the field set covers every
    placeholder token of the body, rendering the rendered text again with
    the same field set returns it unchanged. *)
Theorem render_idempotent
    (customer_data company_info : Dict.t str) (body : str) :
  well_formed body = true ->
  values_bracket_free (customer_data ++ company_info)%list = true ->
  covers (customer_data ++ company_info)%list body = true ->
  render customer_data company_info (render customer_data company_info body) =
  render customer_data company_info body.
Proof.
  intros Hb Hv Hc.
  destruct (render_invariants _ _ _ Hb Hv) as (W & I & N).
  set (out := render customer_data company_info body) in *.
  assert (Hg : groups out = []).
  { destruct (groups out) as [|g gs] eqn:E; [reflexivity|]. exfalso.
    assert (Hin : In g (groups body)) by (apply I; now left).
    unfold covers in Hc. rewrite forallb_forall in Hc.
    specialize (Hc g Hin). apply existsb_exists in Hc as (e & He & Heq).
    apply text_eqb_eq in Heq. subst g.
    apply (N e He). now left. }
  rewrite (render_fold _ _ out). apply substitutions_absent.
  intros e _. rewrite placeholder_token.
  apply (contains_in_free _ out), well_formed_no_group; assumption.
Qed.

Lemma render_idempotent_witness :
  render sample_customer sample_company
    (render sample_customer sample_company
       "Dear [Customer Name], your account [Account Number] at [Company Name] is open.") =
  render sample_customer sample_company
    "Dear [Customer Name], your account [Account Number] at [Company Name] is open.".
Proof.
  apply (render_idempotent sample_customer sample_company
           "Dear [Customer Name], your account [Account Number] at [Company Name] is open.");
    reflexivity.
Defined.

(** C8 as stated fails.  The value "A" has no bracket, yet the token [[A]]
    is in the rendering of a nested group; the value of another field can
    bring the token in; and a key with brackets has a token that spans two
    groups, which a later substitution can put together. *)
Lemma token_absent_counterexample :
  (free "A" = true /\
   contains (placeholder "a") (render [("a", "A")] [] "[[A]]") = true) /\
  (free "x" = true /\
   contains (placeholder "a") (render [("a", "x"); ("b", "[A]")] [] "[B]") = true) /\
  (free "y" = true /\ free "X" = true /\
   contains (placeholder "a]x[b")
     (render [("a]x[b", "y"); ("k", "X")] [] "[A][K][B]") = true).
Proof. repeat split; reflexivity. Qed.

(** C8, as amended.  When the brackets of the body are well formed and no
    supplied value contains a square bracket, the token of a supplied key
    that has no square bracket itself does not occur in the rendered text. *)
Theorem token_absent_after_render
    (customer_data company_info : Dict.t str) (body field value : str) :
  well_formed body = true ->
  values_bracket_free (customer_data ++ company_info)%list = true ->
  In (field, value) (customer_data ++ company_info)%list ->
  free field = true ->
  contains (placeholder field) (render customer_data company_info body) = false.
Proof.
  intros Hb Hv Hin Hf.
  destruct (render_invariants _ _ _ Hb Hv) as (W & I & N).
  destruct (contains (placeholder field) (render customer_data company_info body))
    eqn:E; [exfalso|reflexivity].
  apply (N (field, value) Hin). cbn [fst].
  rewrite placeholder_token in *.
  apply contains_group; auto using free_token_name.
Qed.

Lemma token_absent_after_render_witness :
  contains "[Account Number]"
    (render sample_customer sample_company
       "Account [Account Number] of [Customer Name]; see [Policy Number].") = false.
Proof.
  apply (token_absent_after_render sample_customer sample_company
           "Account [Account Number] of [Customer Name]; see [Policy Number]."
           "account_number" "A-1002").
  - reflexivity.
  - reflexivity.
  - right. left. reflexivity.
  - reflexivity.
Defined.

(** C9 as stated fails.  With disjoint tokens the two orders differ when a
    value of one group carries a token of the other, when a group is nested
    in a group of the body, and when a key has brackets. *)
Lemma group_order_counterexample :
  (tokens_disjoint [("a", "[B]")] [("b", "x")] = true /\
   render [("a", "[B]")] [("b", "x")] "[A]" = "x" /\
   render [("b", "x")] [("a", "[B]")] "[A]" = "[B]") /\
  (tokens_disjoint [("a", EmptyString)] [("b", "x")] = true /\
   render [("a", EmptyString)] [("b", "x")] "[[A]B]" = "x" /\
   render [("b", "x")] [("a", EmptyString)] "[[A]B]" = "[B]") /\
  (tokens_disjoint [("k", "X")] [("a]x[b", "y")] = true /\
   render [("k", "X")] [("a]x[b", "y")] "[A][K][B]" = "y" /\
   render [("a]x[b", "y")] [("k", "X")] "[A][K][B]" = "[A]X[B]").
Proof. repeat split; reflexivity. Qed.

(** C9, as amended.  When the brackets of the body are well formed, no
    supplied key or value contains a square bracket and no token of the
    customer data is a token of the company information, the customer data
    followed by the company information renders the same text as the
    company information followed by the customer data. *)
Theorem group_order_irrelevant
    (customer_data company_info : Dict.t str) (body : str) :
  well_formed body = true ->
  keys_bracket_free customer_data = true ->
  values_bracket_free customer_data = true ->
  keys_bracket_free company_info = true ->
  values_bracket_free company_info = true ->
  tokens_disjoint customer_data company_info = true ->
  render customer_data company_info body = render company_info customer_data body.
Proof.
  intros Hb Hk1 Hv1 Hk2 Hv2 Hd. unfold render. rewrite !fill_fold.
  now apply substitutions_commute.
Qed.

Lemma group_order_irrelevant_witness :
  render sample_customer sample_company
    "Dear [Customer Name], [Company Name] has opened account [Account Number]." =
  render sample_company sample_customer
    "Dear [Customer Name], [Company Name] has opened account [Account Number].".
Proof.
  apply (group_order_irrelevant sample_customer sample_company
           "Dear [Customer Name], [Company Name] has opened account [Account Number].");
    reflexivity.
Defined.

End Claims.

(** * Further properties of the code *)

(** ** More on strings and dictionaries *)

Section MoreStringFacts.

Import Str.

(** Replacing a text by itself changes nothing. *)
Lemma replace_same (old s : str) : replace old old s = s.
Proof.
  destruct old as [|a k].
  - unfold replace. induction s as [|c s IH]; [reflexivity|].
    simpl. now rewrite IH.
  - destruct (replace_pieces (String a k) (String a k)) with (s := s)
      as (pieces & E1 & E2 & _); [discriminate|].
    now rewrite E2, <- E1.
Qed.

Section StripFacts.

Variable space : char -> bool.

Lemma lstrip_with_head (s : str) :
  match lstrip_with space s with
  | EmptyString => True
  | String c _ => space c = false
  end.
Proof.
  induction s as [|c s IH]; [exact I|].
  cbn [lstrip_with]. destruct (space c) eqn:E; [exact IH | exact E].
Qed.

Lemma rstrip_with_head (c : char) (s : str) :
  space c = false -> exists r, rstrip_with space (String c s) = String c r.
Proof.
  intros H. cbn [rstrip_with]. destruct (rstrip_with space s); [rewrite H|]; eauto.
Qed.

Lemma rstrip_with_idempotent (s : str) :
  rstrip_with space (rstrip_with space s) = rstrip_with space s.
Proof.
  induction s as [|c s IH]; [reflexivity|].
  cbn [rstrip_with]. destruct (rstrip_with space s) as [|d r] eqn:E.
  - destruct (space c) eqn:Ec; [reflexivity|]. cbn [rstrip_with]. now rewrite Ec.
  - change (rstrip_with space (String c (String d r)))
      with (match rstrip_with space (String d r) with
            | EmptyString => if space c then EmptyString else String c EmptyString
            | String _ _ as r' => String c r'
            end).
    now rewrite IH.
Qed.

Lemma strip_with_idempotent (s : str) :
  rstrip_with space (lstrip_with space (rstrip_with space (lstrip_with space s))) =
  rstrip_with space (lstrip_with space s).
Proof.
  pose proof (lstrip_with_head s) as H.
  destruct (lstrip_with space s) as [|c t]; [reflexivity|].
  destruct (rstrip_with_head c t H) as [r E]. rewrite E.
  cbn [lstrip_with]. rewrite H, <- E. apply rstrip_with_idempotent.
Qed.

Lemma strip_with_not_space (s : str) :
  forallb (fun c => negb (space c)) (chars s) = true ->
  rstrip_with space (lstrip_with space s) = s.
Proof.
  intros H.
  assert (Hl : lstrip_with space s = s).
  { destruct s as [|c s]; [reflexivity|]. cbn [chars forallb lstrip_with] in *.
    apply andb_true_iff in H as [Hc _]. apply negb_true_iff in Hc. now rewrite Hc. }
  rewrite Hl. clear Hl. induction s as [|c s IH]; [reflexivity|].
  cbn [chars forallb] in H. apply andb_true_iff in H as [Hc Hs]. apply negb_true_iff in Hc.
  cbn [rstrip_with]. rewrite IH by exact Hs.
  destruct s; [now rewrite Hc | reflexivity].
Qed.

End StripFacts.

(** A stripped text has no white space left to strip. *)
Lemma strip_idempotent (s : str) : strip (strip s) = strip s.
Proof. apply strip_with_idempotent. Qed.

Lemma strip_not_space (s : str) :
  forallb (fun c => negb (is_space c)) (chars s) = true -> strip s = s.
Proof. apply strip_with_not_space. Qed.

Lemma ascii_digit_cases (c : char) :
  is_ascii_digit c = true ->
  In c [Char 48; Char 49; Char 50; Char 51; Char 52; Char 53; Char 54; Char 55; Char 56;
        Char 57].
Proof.
  destruct c as [n]. unfold is_ascii_digit. cbn [code]. intros H.
  apply andb_true_iff in H as [H1 H2]. apply N.leb_le in H1, H2.
  assert (Hn : (n = 48 \/ n = 49 \/ n = 50 \/ n = 51 \/ n = 52 \/ n = 53 \/ n = 54 \/
                n = 55 \/ n = 56 \/ n = 57)%N) by lia.
  cbn [In]. repeat (destruct Hn as [->|Hn]; [tauto|]). subst. tauto.
Qed.

(** The digits that [str] writes are decimal digits with the value of
    their place after the zero; they are no white space and no sign. *)
Lemma ascii_digit_facts (c : char) :
  is_ascii_digit c = true ->
  Unicode.decimal c = Some (Z.of_N (code c) - 48)%Z /\
  is_space c = false /\ is_literal_space c = false /\
  Char.eqb c "-" = false /\ Char.eqb c "+" = false.
Proof.
  intros H. apply ascii_digit_cases in H. cbn [In] in H.
  repeat (destruct H as [<-|H]; [vm_compute; repeat split|]). destruct H.
Qed.

Lemma of_uint_digits (d : Decimal.uint) :
  forallb is_ascii_digit (chars (of_uint d)) = true.
Proof. induction d; cbn [of_uint chars forallb]; trivial. Qed.

Lemma int_digits_digit (acc : Z) (after_digit : bool) (c : char) (s : str) :
  is_ascii_digit c = true ->
  int_digits acc after_digit (String c s) =
  int_digits (10 * acc + (Z.of_N (code c) - 48)) true s.
Proof.
  intros H. cbn [int_digits].
  now destruct (ascii_digit_facts c H) as (-> & _).
Qed.

Lemma int_digits_acc (d : Decimal.uint) (acc : positive) :
  int_digits (Zpos acc) true (of_uint d) = Some (Zpos (Pos.of_uint_acc d acc)).
Proof.
  revert acc. induction d; intros acc; cbn [of_uint]; trivial;
    rewrite int_digits_digit by reflexivity; cbn [Pos.of_uint_acc];
    rewrite <- IHd; f_equal; vm_compute (Z.of_N (code _) - 48)%Z; lia.
Qed.

(** The digits that [str] writes for a natural number read back as it. *)
Lemma int_digits_uint (d : Decimal.uint) :
  int_digits 0 true (of_uint d) = Some (Z.of_N (Pos.of_uint d)).
Proof.
  induction d; cbn [of_uint]; trivial;
    rewrite int_digits_digit by reflexivity; cbn [Pos.of_uint];
    first [exact IHd | cbn [Z.of_N]; rewrite <- int_digits_acc; f_equal].
Qed.

Lemma ascii_digits_not_space (s : str) :
  forallb is_ascii_digit (chars s) = true ->
  forallb (fun c => negb (is_space c)) (chars s) = true /\
  forallb (fun c => negb (is_literal_space c)) (chars s) = true.
Proof.
  induction s as [|c s IH]; [now split|]. cbn [chars forallb].
  intros H. apply andb_true_iff in H as [Hc Hs].
  destruct (ascii_digit_facts c Hc) as (_ & -> & -> & _).
  destruct (IH Hs) as [-> ->]. now split.
Qed.

Lemma of_uint_not_empty (p : positive) : of_uint (Pos.to_uint p) <> EmptyString.
Proof.
  pose proof (DecimalPos.Unsigned.to_uint_nonnil p) as H.
  destruct (Pos.to_uint p); [congruence | discriminate ..].
Qed.

(** [int(str(n))] is [n], unless the limit on digits forbids it. *)
Lemma int_of_int (too_long : str -> bool) (n : Z) :
  too_long (of_int n) = false -> int too_long (of_int n) = Some n.
Proof.
  intros Hlimit. destruct n as [|p|p].
  - unfold int. change (of_int 0) with "0" in *.
    change (rstrip_with is_literal_space (lstrip_with is_literal_space "0")) with "0".
    rewrite Hlimit. reflexivity.
  - cbn [of_int] in *.
    pose proof (of_uint_digits (Pos.to_uint p)) as Hd.
    pose proof (int_digits_uint (Pos.to_uint p)) as Hv.
    rewrite DecimalPos.Unsigned.of_to in Hv.
    pose proof (of_uint_not_empty p) as Hne.
    unfold int.
    rewrite strip_with_not_space by now apply ascii_digits_not_space.
    rewrite Hlimit. destruct (of_uint (Pos.to_uint p)) as [|c s]; [congruence|].
    cbn [chars forallb] in Hd. apply andb_true_iff in Hd as [Hc _].
    destruct (ascii_digit_facts c Hc) as (_ & _ & _ & -> & ->).
    rewrite int_digits_digit in * by assumption. now rewrite Hv.
  - cbn [of_int] in *.
    pose proof (of_uint_digits (Pos.to_uint p)) as Hd.
    pose proof (int_digits_uint (Pos.to_uint p)) as Hv.
    rewrite DecimalPos.Unsigned.of_to in Hv.
    pose proof (of_uint_not_empty p) as Hne.
    unfold int. rewrite strip_with_not_space.
    + rewrite Hlimit. rewrite char_eqb_refl.
      destruct (of_uint (Pos.to_uint p)) as [|c s]; [congruence|].
      cbn [chars forallb] in Hd. apply andb_true_iff in Hd as [Hc _].
      rewrite int_digits_digit in * by assumption. now rewrite Hv.
    + cbn [chars forallb]. apply andb_true_iff. split; [reflexivity|].
      now apply ascii_digits_not_space.
Qed.

End MoreStringFacts.

Section DictFacts.

Context {V : Type}.

Lemma dict_mem_in (d : Dict.t V) (k : str) :
  Dict.mem d k = true <-> In k (Dict.keys d).
Proof.
  unfold Dict.mem. induction d as [|[k' v'] d IH]; simpl; [easy|].
  destruct (text_eqb_spec k' k) as [->|Hne]; [tauto|].
  rewrite IH. split; [tauto|]. intros [H|H]; [congruence | exact H].
Qed.

Lemma dict_get_absent (d : Dict.t V) (k : str) :
  Dict.get d k = None <-> ~ In k (Dict.keys d).
Proof.
  rewrite <- dict_mem_in. unfold Dict.mem.
  destruct (Dict.get d k); split; intros; congruence.
Qed.

(** Reading a dictionary after an assignment. *)
Lemma dict_get_set (d : Dict.t V) (k k' : str) (v : V) :
  Dict.get (Dict.set d k v) k' = if Text.eqb k k' then Some v else Dict.get d k'.
Proof.
  induction d as [|[k0 v0] d IH]; simpl.
  - reflexivity.
  - destruct (text_eqb_spec k0 k) as [->|Hne]; simpl.
    + destruct (Text.eqb k k'); reflexivity.
    + rewrite IH. destruct (text_eqb_spec k0 k') as [->|Hne'];
        [|reflexivity].
      apply not_eq_sym, text_eqb_neq in Hne. now rewrite Hne.
Qed.

Lemma dict_set_new (d : Dict.t V) (k : str) (v : V) :
  ~ In k (Dict.keys d) -> Dict.set d k v = (d ++ [(k, v)])%list.
Proof.
  induction d as [|[k0 v0] d IH]; simpl; intros H; [reflexivity|].
  destruct (text_eqb_spec k0 k) as [->|Hne]; [tauto|].
  rewrite IH; tauto.
Qed.


(** Assignments of new, distinct keys add the entries at the end, in
    order. *)
Lemma fold_set_fresh {X : Type} (key : X -> str) (val : X -> V)
    (step : Dict.t V -> X -> Dict.t V) (xs : list X) :
  (forall d x, step d x = Dict.set d (key x) (val x)) ->
  NoDup (map key xs) ->
  forall acc,
    (forall x, In x xs -> ~ In (key x) (Dict.keys acc)) ->
    fold_left step xs acc = (acc ++ map (fun x => (key x, val x)) xs)%list.
Proof.
  intros Hstep. induction xs as [|x xs IH]; intros Hnd acc Hfresh; simpl.
  - now rewrite app_nil_r.
  - inversion Hnd as [|? ? Hx Hxs]; subst.
    rewrite Hstep, dict_set_new by (apply Hfresh; now left).
    rewrite IH; trivial.
    + now rewrite <- app_assoc.
    + intros y Hy. unfold Dict.keys. rewrite map_app, in_app_iff. simpl.
      intros [H|[H|[]]].
      * apply (Hfresh y); [now right | exact H].
      * apply Hx. rewrite H. now apply in_map.
Qed.

(** Reading a dictionary after [update]: the entries of the other
    dictionary come first. *)
Lemma dict_get_update (d other : Dict.t V) (k : str) :
  NoDup (Dict.keys other) ->
  Dict.get (Dict.update d other) k =
  match Dict.get other k with
  | Some v => Some v
  | None => Dict.get d k
  end.
Proof.
  unfold Dict.update. revert d.
  induction other as [|[k0 v0] other IH]; intros d Hnd; [reflexivity|].
  inversion Hnd as [|? ? Hk0 Hother]; subst.
  cbn [fold_left fst snd]. rewrite IH by assumption. cbn [Dict.get].
  rewrite dict_get_set.
  destruct (text_eqb_spec k0 k) as [->|Hne]; [|reflexivity].
  apply dict_get_absent in Hk0. now rewrite Hk0.
Qed.

(** [update] keeps the keys that were there, in their places. *)
Lemma dict_keys_update (d other : Dict.t V) :
  exists added, Dict.keys (Dict.update d other) = (Dict.keys d ++ added)%list.
Proof.
  unfold Dict.update. revert d.
  induction other as [|[k0 v0] other IH]; intros d.
  - exists []. simpl. now rewrite app_nil_r.
  - cbn [fold_left fst snd]. destruct (IH (Dict.set d k0 v0)) as [added ->].
    assert (H : exists one, Dict.keys (Dict.set d k0 v0) = (Dict.keys d ++ one)%list).
    { clear. induction d as [|[k1 v1] d [one IHd]]; simpl.
      - now exists [k0].
      - destruct (Text.eqb k1 k0); simpl.
        + exists []. now rewrite app_nil_r.
        + exists one. now rewrite IHd. }
    destruct H as [one ->]. exists (one ++ added)%list. now rewrite app_assoc.
Qed.

End DictFacts.

(** ** config_manager.py: the caches *)

Section ConfigCacheFacts.

Lemma value_assigned (doc : Config.json) : Config.value (Config.assigned doc) = doc.
Proof. destruct doc; reflexivity. Qed.

Lemma assigned_not_null (doc : Config.json) :
  doc <> Config.JNull -> Config.assigned doc = Some doc.
Proof. destruct doc; intros H; [congruence | reflexivity ..]. Qed.

(** X1.  Once one of the three properties has returned a document that is
    not null, reading it again returns the same document and opens no file,
    whatever the files hold by then. *)
Theorem config_cache_hit (fs fs' : Config.filesystem) (st st' : Config.state)
    (doc : Config.json) :
  doc <> Config.JNull ->
  (Config.templates fs st = (inl doc, st') ->
   Config.templates fs' st' = (inl doc, st')) /\
  (Config.standard_responses fs st = (inl doc, st') ->
   Config.standard_responses fs' st' = (inl doc, st')) /\
  (Config.company_config fs st = (inl doc, st') ->
   Config.company_config fs' st' = (inl doc, st')).
Proof.
  intros Hdoc.
  unfold Config.templates, Config.standard_responses, Config.company_config,
    Config._load_json_file.
  repeat split.
  - destruct (Config._templates (Config.self st)) as [d|] eqn:E.
    + intros [= <- <-]. now rewrite E.
    + destruct (fs _) as [|str_e|class_name str_e|d]; try discriminate.
      cbn [Config.self Config._templates Config.opened]. rewrite value_assigned.
      intros [= -> <-]. cbn [Config.self Config._templates].
      now rewrite assigned_not_null.
  - destruct (Config._standard_responses (Config.self st)) as [d|] eqn:E.
    + intros [= <- <-]. now rewrite E.
    + destruct (fs _) as [|str_e|class_name str_e|d]; try discriminate.
      cbn [Config.self Config._standard_responses Config.opened].
      rewrite value_assigned.
      intros [= -> <-]. cbn [Config.self Config._standard_responses].
      now rewrite assigned_not_null.
  - destruct (Config._company_config (Config.self st)) as [d|] eqn:E.
    + intros [= <- <-]. now rewrite E.
    + destruct (fs _) as [|str_e|class_name str_e|d]; try discriminate.
      cbn [Config.self Config._company_config Config.opened].
      rewrite value_assigned.
      intros [= -> <-]. cbn [Config.self Config._company_config].
      now rewrite assigned_not_null.
Qed.

Lemma config_cache_hit_witness :
  Config.templates no_files
    (snd (Config.templates sample_files fresh_manager)) =
  (inl sample_document, snd (Config.templates sample_files fresh_manager)) /\
  Config.opened (snd (Config.templates sample_files fresh_manager)) =
    ["./templates_config.json"].
Proof.
  split; [|reflexivity].
  apply (proj1 (config_cache_hit sample_files no_files fresh_manager
                  (snd (Config.templates sample_files fresh_manager))
                  sample_document ltac:(discriminate))).
  reflexivity.
Defined.

(** The path a property opens. *)
Lemma load_path (fs : Config.filesystem) (filename : str) (st : Config.state) :
  snd (Config._load_json_file fs filename st) =
  {| Config.self := Config.self st;
     Config.opened :=
       Config.opened st ++ [Config.path_join (Config.base_path (Config.self st)) filename] |}.
Proof. unfold Config._load_json_file. destruct (fs _); reflexivity. Qed.

(** X2.  A load that fails leaves the manager as it was, with its cache
    still empty, after opening the one file, and the next access opens the
    file again.  A missing file raises [FileNotFoundError] with a text that
    names the file and the base path; a file that is not JSON raises
    [ValueError] with the file's name and the parser's text; any other
    exception of [open] or [json.load] is not caught and goes on as it
    is. *)
Theorem config_load_failure (fs fs' : Config.filesystem) (st st' : Config.state)
    (e : exn) :
  Config.templates fs st = (inr e, st') ->
  let path := Config.path_join (Config.base_path (Config.self st)) "templates_config.json" in
  Config.self st' = Config.self st /\
  Config._templates (Config.self st') = None /\
  Config.opened st' = (Config.opened st ++ [path])%list /\
  match fs path with
  | Config.Missing =>
      e = FileNotFoundError
            ("Config file 'templates_config.json' not found in " ++
             Config.base_path (Config.self st))
  | Config.Malformed str_e =>
      e = ValueError ("Invalid JSON in config file 'templates_config.json': " ++ str_e)
  | Config.Unreadable class_name str_e => e = OtherError class_name str_e
  | Config.Document _ => False
  end /\
  Config.opened (snd (Config.templates fs' st')) = (Config.opened st' ++ [path])%list.
Proof.
  unfold Config.templates.
  destruct (Config._templates (Config.self st)) as [d|] eqn:E; [discriminate|].
  pose proof (load_path fs "templates_config.json" st) as Hp.
  unfold Config._load_json_file in *.
  destruct (fs _) as [|str_e|class_name str_e|d]; cbn [snd] in Hp; intros [= <- <-];
    cbn [Config.self Config.opened]; rewrite E; repeat split; trivial;
    destruct (fs' _); reflexivity.
Qed.

Lemma config_load_failure_witness :
  (exists st',
     Config.templates no_files fresh_manager =
       (inr (FileNotFoundError "Config file 'templates_config.json' not found in ."), st') /\
     Config.self st' = Config.self fresh_manager /\
     Config.opened (snd (Config.templates sample_files st')) =
       ["./templates_config.json"; "./templates_config.json"]) /\
  (exists st',
     Config.templates locked_files fresh_manager =
       (inr (OtherError "PermissionError"
               "[Errno 13] Permission denied: './templates_config.json'"), st') /\
     Config._templates (Config.self st') = None).
Proof.
  split.
  - eexists. split; [reflexivity|].
    destruct (config_load_failure no_files sample_files fresh_manager _ _ eq_refl)
      as (H1 & _ & _ & _ & H5).
    split; [exact H1 | exact H5].
  - eexists. split; [reflexivity|].
    now destruct (config_load_failure locked_files sample_files fresh_manager _ _ eq_refl)
      as (_ & H2 & _).
Defined.

(** X3.  After [reload_configs] each of the three properties opens its file
    again and returns what the file holds then, whatever was cached before;
    the base path is kept. *)
Theorem config_reload (fs : Config.filesystem) (st : Config.state) :
  let st0 := Config.reload_configs st in
  let base := Config.base_path (Config.self st) in
  Config.base_path (Config.self st0) = base /\
  (forall filename access,
      In (filename, access)
         [("templates_config.json", Config.templates);
          ("standard_responses.json", Config.standard_responses);
          ("company_config.json", Config.company_config)] ->
      Config.opened (snd (access fs st0)) =
        (Config.opened st ++ [Config.path_join base filename])%list /\
      match fs (Config.path_join base filename) with
      | Config.Document doc => fst (access fs st0) = inl doc
      | _ => exists e, fst (access fs st0) = inr e
      end).
Proof.
  split; [reflexivity|].
  intros filename access [[= <- <-]|[[= <- <-]|[[= <- <-]|[]]]];
    unfold Config.templates, Config.standard_responses, Config.company_config,
      Config._load_json_file;
    cbn [Config.reload_configs Config.self Config._templates
         Config._standard_responses Config._company_config Config.base_path
         Config.opened];
    destruct (fs _) as [|str_e|class_name str_e|doc]; cbn [fst snd Config.opened Config.self
      Config._templates Config._standard_responses Config._company_config];
    rewrite ?value_assigned; eauto.
Qed.

Lemma config_reload_witness :
  Config.opened
    (snd (Config.templates sample_files
            (Config.reload_configs (snd (Config.templates sample_files fresh_manager))))) =
  ["./templates_config.json"; "./templates_config.json"].
Proof.
  apply (proj2 (config_reload sample_files
                  (snd (Config.templates sample_files fresh_manager)))
           "templates_config.json" Config.templates).
  left. reflexivity.
Defined.

(** X4.  A document that is the JSON value null is returned but never
    cached: the cache stays empty and every access opens the file again. *)
Theorem config_null_not_cached (fs : Config.filesystem) (st : Config.state) :
  Config._standard_responses (Config.self st) = None ->
  fs (Config.path_join (Config.base_path (Config.self st)) "standard_responses.json") =
    Config.Document Config.JNull ->
  Config.standard_responses fs st =
    (inl Config.JNull,
     {| Config.self := Config.self st;
        Config.opened :=
          Config.opened st ++
          [Config.path_join (Config.base_path (Config.self st))
             "standard_responses.json"] |}) /\
  Config._standard_responses
    (Config.self (snd (Config.standard_responses fs st))) = None.
Proof.
  intros Hc Hf. unfold Config.standard_responses, Config._load_json_file.
  rewrite Hc, Hf. cbn. destruct st as [[b t r c] o]. cbn in *. subst r.
  now split.
Qed.

Lemma config_null_not_cached_witness :
  Config.opened
    (snd (Config.standard_responses sample_files
            (snd (Config.standard_responses sample_files fresh_manager)))) =
  ["./standard_responses.json"; "./standard_responses.json"].
Proof.
  destruct (config_null_not_cached sample_files fresh_manager eq_refl eq_refl)
    as [E1 E2].
  rewrite E1. cbn [snd].
  destruct (config_null_not_cached sample_files
              {| Config.self := Config.self fresh_manager;
                 Config.opened :=
                   Config.opened fresh_manager ++
                   [Config.path_join (Config.base_path (Config.self fresh_manager))
                      "standard_responses.json"] |} eq_refl eq_refl) as [E3 _].
  rewrite E3. reflexivity.
Defined.

End ConfigCacheFacts.

(** ** config_manager.py: departments *)

Section DepartmentFacts.

Import UserInterface.

Lemma base_info_keys (config : Config.company) :
  Dict.keys (Config.base_info config) =
  ["company_name"; "company_type"; "company_address"; "company_website";
   "company_phone"; "company_email"].
Proof. reflexivity. Qed.

(** Reading the profile of a department of the table. *)
Lemma department_info_get (config : Config.company) (department_key : str)
    (dept_info : Dict.t str) (k : str) :
  Dict.get (Config.departments_of config) department_key = Some dept_info ->
  NoDup (Dict.keys dept_info) ->
  Dict.get (Config.get_department_info config department_key) k =
  match Dict.get dept_info k with
  | Some v => Some v
  | None => Dict.get (Config.base_info config) k
  end.
Proof.
  intros Hget Hnd. unfold Config.get_department_info, Dict.mem, Dict.get_default.
  rewrite Hget. now apply dict_get_update.
Qed.

(** X5.  In the profile of a department of the table, an entry of the
    department takes precedence over the company's entry of the same name,
    every other company entry is kept, and the six company keys come first,
    in their order. *)
Theorem department_info_precedence (config : Config.company)
    (department_key : str) (dept_info : Dict.t str) :
  Dict.get (Config.departments_of config) department_key = Some dept_info ->
  NoDup (Dict.keys dept_info) ->
  (forall k,
      Dict.get (Config.get_department_info config department_key) k =
      match Dict.get dept_info k with
      | Some v => Some v
      | None => Dict.get (Config.base_info config) k
      end) /\
  exists added,
    Dict.keys (Config.get_department_info config department_key) =
    (["company_name"; "company_type"; "company_address"; "company_website";
      "company_phone"; "company_email"] ++ added)%list.
Proof.
  intros Hget Hnd. split.
  - intros k. now apply department_info_get.
  - unfold Config.get_department_info, Dict.mem, Dict.get_default. rewrite Hget.
    rewrite <- (base_info_keys config). apply dict_keys_update.
Qed.

Lemma department_info_precedence_witness :
  Dict.get (Config.get_department_info sample_company_config "claims") "contact_phone"
    = Some "555-0199" /\
  Dict.get (Config.get_department_info sample_company_config "claims") "company_phone"
    = Some "555-0100".
Proof.
  destruct (department_info_precedence sample_company_config "claims"
              [("department", "Claims Department"); ("contact_phone", "555-0199")]
              eq_refl) as [H _].
  - repeat constructor; simpl; intuition discriminate.
  - split; rewrite H; reflexivity.
Defined.

(** X6.  For a key that is no department of the table, the profile is the
    six company entries followed by the default department, whose contact
    phone and e-mail are the company's; [display_company_profile] prints it
    and raises nothing. *)
Theorem unknown_department_profile (config : Config.company)
    (department_key : str) (c : console) :
  Dict.mem (Config.departments_of config) department_key = false ->
  let phone := Dict.get_default (Config.entries config) "company_phone" EmptyString in
  let email := Dict.get_default (Config.entries config) "company_email" EmptyString in
  let name := Dict.get_default (Config.entries config) "company_name" "Our Company" in
  Config.get_department_info config department_key =
    (Config.base_info config ++
     [("department", "Customer Service");
      ("representative_name", "Customer Service Team");
      ("contact_phone", phone); ("contact_email", email);
      ("hours", "Business hours")])%list /\
  display_company_profile (Config.get_department_info config department_key) c =
    (Return tt,
     {| pending := pending c;
        written :=
          written c ++
          [(nl ++ "Corporate Profile: " ++ name ++ " - " ++ "Customer Service") ++ nl;
           ("Contact: " ++ phone ++ " | " ++ email ++ nl) ++ nl] |}).
Proof.
  intros H. unfold Config.get_department_info. rewrite H.
  split; [reflexivity|].
  unfold display_company_profile, then_ui, lookup, say. cbn.
  rewrite <- app_assoc. reflexivity.
Qed.

Lemma unknown_department_profile_witness :
  Dict.get (Config.get_department_info sample_company_config "customer_service")
    "contact_phone" = Some "555-0100" /\
  fst (display_company_profile
         (Config.get_department_info sample_company_config "customer_service")
         {| pending := []; written := [] |}) = Return tt.
Proof.
  destruct (unknown_department_profile sample_company_config "customer_service"
              {| pending := []; written := [] |} eq_refl) as [E1 E2].
  rewrite E2. rewrite E1. split; reflexivity.
Defined.

Lemma available_departments_fold (config : Config.company) :
  NoDup (Dict.keys (Config.departments_of config)) ->
  Config.get_available_departments config =
  map (fun entry =>
         (fst entry,
          Dict.get_default (snd entry) "department" (display_name (fst entry))))
      (Config.departments_of config).
Proof.
  intros Hnd. unfold Config.get_available_departments.
  rewrite (fold_set_fresh fst
             (fun entry => Dict.get_default (snd entry) "department"
                             (display_name (fst entry)))).
  - reflexivity.
  - now intros d [key dept_info].
  - exact Hnd.
  - intros x _ [].
Qed.

Lemma dict_get_map {A B : Type} (f : str -> A -> B) (d : Dict.t A) (k : str) :
  Dict.get (map (fun entry => (fst entry, f (fst entry) (snd entry))) d) k =
  option_map (f k) (Dict.get d k).
Proof.
  induction d as [|[k0 v0] d IH]; [reflexivity|]. simpl.
  destruct (text_eqb_spec k0 k) as [->|Hne]; [reflexivity | exact IH].
Qed.

(** X7.  The menu of departments has the keys of the table in their
    order.  A department that has an entry [department] is shown under it,
    and its profile carries it; one that has none is shown under its
    title-cased key, but its profile has no entry [department], so that
    [display_company_profile] raises [KeyError] on it before it prints. *)
Theorem available_departments_listing (config : Config.company) :
  NoDup (Dict.keys (Config.departments_of config)) ->
  Dict.keys (Config.get_available_departments config) =
    Dict.keys (Config.departments_of config) /\
  forall department_key dept_info,
    Dict.get (Config.departments_of config) department_key = Some dept_info ->
    NoDup (Dict.keys dept_info) ->
    match Dict.get dept_info "department" with
    | Some name =>
        Dict.get (Config.get_available_departments config) department_key = Some name /\
        Dict.get (Config.get_department_info config department_key) "department"
          = Some name
    | None =>
        Dict.get (Config.get_available_departments config) department_key
          = Some (Str.title (Str.replace "_" " " department_key)) /\
        forall c,
          display_company_profile (Config.get_department_info config department_key) c
            = (Uncaught (KeyError "department"), c)
    end.
Proof.
  intros Hnd. rewrite available_departments_fold by assumption. split.
  - unfold Dict.keys. rewrite map_map. reflexivity.
  - intros key dept_info Hget Hnd'.
    pose proof (fun k => department_info_get config key dept_info k Hget Hnd') as Hp.
    rewrite (dict_get_map (fun k info => Dict.get_default info "department" (display_name k))).
    rewrite Hget. cbn [option_map]. unfold Dict.get_default.
    destruct (Dict.get dept_info "department") as [name|] eqn:E.
    + split; [reflexivity|]. now rewrite Hp, E.
    + split; [reflexivity|]. intros c.
      unfold display_company_profile, then_ui, lookup.
      rewrite !Hp, E.
      destruct (Dict.get dept_info "company_name"); reflexivity.
Qed.

Lemma available_departments_listing_witness :
  Config.get_available_departments sample_company_config =
    [("claims", "Claims Department"); ("billing_team", "Billing Team")] /\
  fst (display_company_profile
         (Config.get_department_info sample_company_config "billing_team")
         {| pending := []; written := [] |}) = Uncaught (KeyError "department").
Proof.
  assert (Hnd : NoDup (Dict.keys (Config.departments_of sample_company_config)))
    by (repeat constructor; simpl; intuition discriminate).
  destruct (available_departments_listing sample_company_config Hnd) as [_ H].
  split; [reflexivity|].
  assert (Hnd' : NoDup (Dict.keys [("hours", "9-5")]))
    by (repeat constructor; simpl; intuition).
  pose proof (H "billing_team" [("hours", "9-5")] eq_refl Hnd') as [_ H'].
  now rewrite H'.
Defined.

End DepartmentFacts.

(** ** user_interface.py *)

Section UserInterfaceFacts.

Import UserInterface CommunicationEngine ResponseProcessor Render.

Lemma say_all_run (texts : list str) (c : console) :
  say_all texts c =
  (Return tt,
   {| pending := pending c; written := written c ++ map (fun t => t ++ nl) texts |}).
Proof.
  revert c. induction texts as [|t texts IH]; intros c.
  - simpl. rewrite app_nil_r. now destruct c.
  - cbn [say_all]. unfold then_ui at 1. unfold say at 1. rewrite IH. cbn.
    now rewrite <- app_assoc.
Qed.

Ltac tolerance_case :=
  split; [reflexivity|]; split; [reflexivity|]; split; [simpl; tauto|];
  split; [reflexivity|]; split; [reflexivity|];
  first [discriminate | reflexivity].

(** X8.  Whatever line is typed, [select_deviation_tolerance] returns one
    of the four keys of the tolerance table, with which the limit function
    finds the key's own ceiling and never falls back; a line that is none of
    1, 2, 3, 4 once trimmed gives minimal. *)
Theorem tolerance_selection_valid (c : console) (line : str) (rest : list str) :
  pending c = line :: rest ->
  exists tolerance ceiling c',
    select_deviation_tolerance c = (Return tolerance, c') /\
    pending c' = rest /\
    In (tolerance, ceiling) Spec.ceilings /\
    Dict.mem deviation_tolerance_settings tolerance = true /\
    get_deviation_tolerance_limit tolerance = Ok ceiling /\
    (Dict.mem deviation_map (Str.strip line) = false -> tolerance = "minimal").
Proof.
  intros Hp. unfold select_deviation_tolerance. unfold then_ui at 1.
  rewrite say_all_run. unfold then_ui at 1. unfold input, read.
  cbn [pending written]. rewrite Hp. unfold then_ui, say, unit_ui.
  cbn [pending written].
  set (choice := Str.strip line).
  exists (Dict.get_default deviation_map choice "minimal").
  unfold Dict.get_default, Dict.mem, deviation_map. cbn [Dict.get].
  destruct (Text.eqb "1" choice); [exists 10%Z; eexists; tolerance_case|].
  destruct (Text.eqb "2" choice); [exists 25%Z; eexists; tolerance_case|].
  destruct (Text.eqb "3" choice); [exists 50%Z; eexists; tolerance_case|].
  destruct (Text.eqb "4" choice); [exists 70%Z; eexists; tolerance_case|].
  exists 25%Z. eexists. tolerance_case.
Qed.

Lemma tolerance_selection_valid_witness :
  exists c',
    select_deviation_tolerance
      {| pending := [nbsp ++ " 3 " ++ nbsp; "next"]; written := [] |} =
      (Return "moderate", c') /\
    pending c' = ["next"].
Proof.
  destruct (tolerance_selection_valid
              {| pending := [nbsp ++ " 3 " ++ nbsp; "next"]; written := [] |}
              (nbsp ++ " 3 " ++ nbsp) ["next"] eq_refl)
    as (t & ceiling & c' & E & Hp & _).
  exists c'. split; [|exact Hp].
  rewrite E. f_equal. f_equal.
  assert (H : fst (select_deviation_tolerance
                     {| pending := [nbsp ++ " 3 " ++ nbsp; "next"]; written := [] |}) =
              Return t)
    by now rewrite E.
  vm_compute in H. now injection H as <-.
Defined.

(** X9.  The inquiry [get_customer_inquiry] returns is the typed line
    without the white space around it; it is never empty, and trimming it
    again changes nothing.  A blank line gives no inquiry. *)
Theorem customer_inquiry_trimmed (template_name : str) (c : console)
    (line : str) (rest : list str) :
  pending c = line :: rest ->
  (Str.strip line = EmptyString ->
   fst (get_customer_inquiry template_name c) = Return None) /\
  (forall inquiry,
      fst (get_customer_inquiry template_name c) = Return (Some inquiry) ->
      inquiry = Str.strip line /\ inquiry <> EmptyString /\
      Str.strip inquiry = inquiry).
Proof.
  intros Hp. unfold get_customer_inquiry, then_ui, say, read, unit_ui.
  cbn [pending written]. rewrite Hp.
  pose proof (strip_idempotent line) as Hi.
  destruct (Str.strip line) as [|a s] eqn:E; split; try discriminate; trivial.
  cbn [fst]. intros inquiry [= <-]. repeat split; [discriminate | exact Hi].
Qed.

Lemma customer_inquiry_trimmed_witness :
  fst (get_customer_inquiry "customer_inquiry_response"
         {| pending := [" " ++ nbsp ++ " "]; written := [] |}) = Return None.
Proof.
  apply (proj1 (customer_inquiry_trimmed "customer_inquiry_response"
                  {| pending := [" " ++ nbsp ++ " "]; written := [] |}
                  (" " ++ nbsp ++ " ") [] eq_refl)).
  reflexivity.
Defined.

(** The loop of [collect_customer_data] on enough lines. *)
Lemma collect_fields_run (fields lines : list str) :
  List.length lines = List.length fields ->
  forall (data : Dict.t str) (c : console) (rest : list str),
    pending c = (lines ++ rest)%list ->
    collect_fields fields data c =
    (Return (fold_left (fun d entry => Dict.set d (fst entry) (answer (fst entry) (snd entry)))
               (combine fields lines) data),
     {| pending := rest;
        written := written c ++ map (fun field => display_name field ++ ": ") fields |}).
Proof.
  revert lines. induction fields as [|field fields IH]; intros lines Hlen data c rest Hp.
  - destruct lines; [|discriminate]. simpl in *. rewrite app_nil_r. subst rest.
    now destruct c.
  - destruct lines as [|line lines]; [discriminate|]. injection Hlen as Hlen.
    cbn [collect_fields]. unfold then_ui, input, read. cbn [pending written].
    rewrite Hp. cbn [app].
    rewrite (IH lines Hlen _ _ rest) by reflexivity.
    cbn [pending written combine fold_left fst snd map]. now rewrite <- app_assoc.
Qed.

Lemma collect_fields_eof (fields : list str) :
  forall (data : Dict.t str) (c : console),
    List.length (pending c) < List.length fields ->
    fst (collect_fields fields data c) = EOFError.
Proof.
  induction fields as [|field fields IH]; intros data c H; [inversion H|].
  cbn [collect_fields]. unfold then_ui, input, read. cbn [pending written].
  destruct (pending c) as [|line lines] eqn:E; [reflexivity|].
  apply IH. cbn [pending]. simpl in H. lia.
Qed.

Lemma answer_not_empty (field line : str) : answer field line <> EmptyString.
Proof. unfold answer. destruct (Str.strip line); discriminate. Qed.

(** [collect_customer_data] on distinct fields and a line for each. *)
Lemma collect_customer_data_run (fields lines rest : list str) (c : console) :
  NoDup fields ->
  List.length lines = List.length fields ->
  pending c = (lines ++ rest)%list ->
  exists c',
    collect_customer_data fields c =
      (Return (map (fun entry => (fst entry, answer (fst entry) (snd entry)))
                 (combine fields lines)), c') /\
    pending c' = rest /\
    Dict.keys (map (fun entry => (fst entry, answer (fst entry) (snd entry)))
                 (combine fields lines)) = fields /\
    Forall (fun entry => snd entry <> EmptyString)
      (map (fun entry => (fst entry, answer (fst entry) (snd entry)))
         (combine fields lines)).
Proof.
  intros Hnd Hlen Hp.
  assert (Hkeys : map fst (combine fields lines) = fields).
  { clear Hnd Hp. revert lines Hlen.
    induction fields as [|f fields IH]; intros [|l lines] Hlen; try discriminate;
      [reflexivity|]. simpl. f_equal. apply IH. now injection Hlen. }
  assert (Hrun : exists c',
    collect_customer_data fields c =
      (Return (map (fun entry => (fst entry, answer (fst entry) (snd entry)))
                 (combine fields lines)), c') /\ pending c' = rest).
  { destruct fields as [|f fields].
    - destruct lines; [|discriminate]. exists c. simpl in *. now split.
    - unfold collect_customer_data, then_ui, say.
      rewrite (collect_fields_run (f :: fields) lines Hlen [] _ rest) by exact Hp.
      rewrite (fold_set_fresh fst (fun entry => answer (fst entry) (snd entry))).
      + eexists. split; reflexivity.
      + reflexivity.
      + now rewrite Hkeys.
      + intros x _ []. }
  destruct Hrun as (c' & E & Hp'). exists c'. repeat split; trivial.
  - unfold Dict.keys. rewrite map_map. exact Hkeys.
  - apply Forall_forall. intros e He. apply in_map_iff in He as (x & <- & _).
    apply answer_not_empty.
Qed.

(** X10.  Given distinct field names and a line for each, in order,
    [collect_customer_data] reads exactly these lines and returns one entry
    per field, in the order of the fields: the trimmed line, or the field's
    bracketed display name for a blank line.  No value is empty. *)
Theorem collect_customer_data_entries (fields lines rest : list str) (c : console) :
  NoDup fields ->
  List.length lines = List.length fields ->
  pending c = (lines ++ rest)%list ->
  exists c',
    collect_customer_data fields c =
      (Return (map (fun entry => (fst entry, answer (fst entry) (snd entry)))
                 (combine fields lines)), c') /\
    pending c' = rest /\
    Dict.keys (map (fun entry => (fst entry, answer (fst entry) (snd entry)))
                 (combine fields lines)) = fields /\
    Forall (fun entry => snd entry <> EmptyString)
      (map (fun entry => (fst entry, answer (fst entry) (snd entry)))
         (combine fields lines)).
Proof.
  intros Hnd Hlen Hp.
  destruct (collect_customer_data_run fields lines rest c Hnd Hlen Hp)
    as (c' & Hrun & Hrest & Hkeys & Hvalues).
  exists c'. repeat split; assumption.
Qed.

Lemma collect_customer_data_entries_witness :
  exists c',
    collect_customer_data ["customer_name"; "account_number"]
      {| pending := [" Jane Doe "; nbsp; "next"]; written := [] |} =
      (Return [("customer_name", "Jane Doe"); ("account_number", "[Account Number]")], c') /\
    pending c' = ["next"].
Proof.
  destruct (collect_customer_data_entries ["customer_name"; "account_number"]
              [" Jane Doe "; nbsp] ["next"]
              {| pending := [" Jane Doe "; nbsp; "next"]; written := [] |})
    as (c' & E & Hp & _).
  - repeat constructor; simpl; intuition discriminate.
  - reflexivity.
  - reflexivity.
  - exists c'. split; [exact E | exact Hp].
Defined.

(** X11.  With fewer lines of input than fields, [collect_customer_data]
    ends in [EOFError]; with no field it returns the empty dictionary and
    neither reads nor writes. *)
Theorem collect_customer_data_eof (fields : list str) (c : console) :
  (List.length (pending c) < List.length fields ->
   fst (collect_customer_data fields c) = EOFError) /\
  (fields = [] -> collect_customer_data fields c = (Return [], c)).
Proof.
  split.
  - intros H. destruct fields as [|f fields]; [inversion H|].
    unfold collect_customer_data, then_ui, say.
    apply collect_fields_eof. exact H.
  - now intros ->.
Qed.

Lemma collect_customer_data_eof_witness :
  fst (collect_customer_data ["customer_name"; "account_number"]
         {| pending := ["Jane Doe"]; written := [] |}) = EOFError.
Proof.
  apply (proj1 (collect_customer_data_eof ["customer_name"; "account_number"]
                  {| pending := ["Jane Doe"]; written := [] |})).
  simpl. lia.
Defined.

(** X12.  A field whose value is its own placeholder, which is what
    [collect_customer_data] stores for a blank answer, leaves the text as it
    is: [prepare_standard_response] returns the same for the customer data
    and for the customer data without these fields. *)
Theorem blank_answers_keep_placeholders :
  (forall field line,
      Str.strip line = EmptyString -> answer field line = placeholder field) /\
  (forall config_manager key customer_data company_info,
      prepare_standard_response config_manager key customer_data company_info =
      prepare_standard_response config_manager key
        (filter (fun entry => negb (Text.eqb (snd entry) (placeholder (fst entry))))
           customer_data)
        company_info).
Proof.
  split.
  - intros field line H. unfold answer. now rewrite H.
  - intros. rewrite !prepare_standard_response_eq.
    destruct (Dict.get (standard_responses config_manager) key) as [body|];
      [|reflexivity].
    f_equal. unfold render. f_equal. rewrite !fill_fold.
    generalize body. clear.
    induction customer_data as [|[field value] data IH]; intros body; [reflexivity|].
    cbn [filter fst snd fold_left].
    destruct (text_eqb_spec value (placeholder field)) as [->|Hne]; cbn [negb].
    + unfold substitute at 2. cbn [fst snd]. rewrite replace_same. apply IH.
    + cbn [fold_left]. apply IH.
Qed.

Lemma blank_answers_keep_placeholders_witness :
  answer "account_number" "   " = "[Account Number]" /\
  prepare_standard_response sample_config "customer_inquiry_response"
    [("customer_name", "Jane Doe"); ("account_number", "[Account Number]")]
    sample_company =
  prepare_standard_response sample_config "customer_inquiry_response"
    [("customer_name", "Jane Doe")] sample_company.
Proof.
  split.
  - apply (proj1 blank_answers_keep_placeholders). reflexivity.
  - apply (proj2 blank_answers_keep_placeholders sample_config
             "customer_inquiry_response"
             [("customer_name", "Jane Doe"); ("account_number", "[Account Number]")]
             sample_company).
Defined.

Lemma template_fields_distinct (template_type : str) :
  NoDup (get_template_fields template_type) /\
  forallb Bracket.free (get_template_fields template_type) = true.
Proof.
  unfold get_template_fields, Dict.get_default, template_fields. cbn [Dict.get].
  repeat match goal with
         | |- context [Text.eqb ?a template_type] =>
             destruct (Text.eqb a template_type)
         end;
    (split; [repeat constructor; simpl; intuition discriminate | reflexivity]).
Qed.

(** X13.  For every template type the required fields are distinct and
    free of square brackets, so that, given a line for each,
    [collect_customer_data] returns customer data whose keys are exactly the
    required fields, in order, all without brackets; a type that is not in
    the table requires no field. *)
Theorem required_fields_collected (template_type : str) (lines rest : list str)
    (c : console) :
  List.length lines = List.length (get_template_fields template_type) ->
  pending c = (lines ++ rest)%list ->
  (Dict.mem template_fields template_type = false ->
   get_template_fields template_type = []) /\
  exists customer_data c',
    collect_customer_data (get_template_fields template_type) c =
      (Return customer_data, c') /\
    pending c' = rest /\
    Dict.keys customer_data = get_template_fields template_type /\
    keys_bracket_free customer_data = true.
Proof.
  intros Hlen Hp. split.
  - unfold get_template_fields, Dict.get_default, Dict.mem.
    destruct (Dict.get template_fields template_type); [discriminate | reflexivity].
  - destruct (template_fields_distinct template_type) as [Hnd Hfree].
    destruct (collect_customer_data_run _ lines rest c Hnd Hlen Hp)
      as (c' & E & Hp' & Hkeys & _).
    eexists. exists c'. repeat split; try eassumption.
    unfold keys_bracket_free. unfold Dict.keys in Hkeys.
    rewrite <- Hkeys in Hfree. revert Hfree. clear.
    generalize (map (fun entry : str * str =>
                       (fst entry, answer (fst entry) (snd entry)))
                  (combine (get_template_fields template_type) lines)).
    induction l as [|e l IH]; simpl; [trivial|].
    intros H. apply andb_true_iff in H as [-> H]. now apply IH.
Qed.

Lemma required_fields_collected_witness :
  exists customer_data c',
    collect_customer_data (get_template_fields "complaint_resolution_letter")
      {| pending := ["Jane Doe"; "C-77"]; written := [] |} = (Return customer_data, c') /\
    Dict.keys customer_data = ["customer_name"; "complaint_number"].
Proof.
  destruct (required_fields_collected "complaint_resolution_letter"
              ["Jane Doe"; "C-77"] []
              {| pending := ["Jane Doe"; "C-77"]; written := [] |} eq_refl eq_refl)
    as (_ & data & c' & E & _ & Hk & _).
  exists data, c'. split; [exact E | exact Hk].
Defined.



Lemma menu_in (names : list str) :
  forall (start : Z) (k : nat),
    k < List.length names ->
    In (Str.of_int (start + Z.of_nat k) ++ ". " ++ nth k names EmptyString)
       (menu start names).
Proof.
  induction names as [|name names IH]; intros start k Hk; [inversion Hk|].
  destruct k as [|k]; cbn [menu nth].
  - left. now rewrite Z.add_0_r.
  - right. replace (start + Z.of_nat (S k))%Z with (start + 1 + Z.of_nat k)%Z by lia.
    apply IH. simpl in Hk. lia.
Qed.

Lemma of_int_positive (n : Z) :
  (0 < n)%Z ->
  exists a s, Str.of_int n = String a s /\ Str.is_ascii_digit a = true /\
              Str.strip (Str.of_int n) = Str.of_int n.
Proof.
  intros Hn. destruct n as [|p|p]; try lia. cbn [Str.of_int].
  pose proof (of_uint_digits (Pos.to_uint p)) as Hd.
  assert (Hs : Str.strip (Str.of_uint (Pos.to_uint p)) = Str.of_uint (Pos.to_uint p))
    by now apply strip_not_space, ascii_digits_not_space.
  pose proof (of_uint_not_empty p) as Hne.
  destruct (Str.of_uint (Pos.to_uint p)) as [|a s]; [congruence|].
  exists a, s. cbn [chars forallb] in Hd. apply andb_true_iff in Hd as [Ha _].
  now repeat split.
Qed.

(** A step on the manager inside a session. *)
Lemma on_manager_read {A B : Type}
    (property : Config.state -> (Config.json + exn) * Config.state)
    (shape : Config.json -> option A) (f : A -> B) (s : session) :
  on_manager (Manager.map_method f (Manager.read property shape)) s =
  match property (manager s) with
  | (inl doc, st) =>
      match shape doc with
      | Some a => Some (Return (f a), {| manager := st; terminal := terminal s |})
      | None => None
      end
  | (inr e, st) => Some (Uncaught e, {| manager := st; terminal := terminal s |})
  end.
Proof.
  unfold on_manager, Manager.map_method, Manager.read.
  destruct (property (manager s)) as [[doc|e] st]; [|reflexivity].
  destruct (shape doc); reflexivity.
Qed.

(** [select_department] step by step: the heading, the load, the menu. *)
Lemma select_department_run (too_long : str -> bool) (fs : Config.filesystem)
    (s : session) :
  select_department too_long fs s =
  let shown := headed "=== Available Departments ===" s in
  match Config.company_config fs (manager s) with
  | (inl doc, st) =>
      match Config.as_company doc with
      | Some config =>
          Some (fst (choose_department too_long
                       (Config.get_available_departments config) shown),
                {| manager := st;
                   terminal := snd (choose_department too_long
                                      (Config.get_available_departments config) shown) |})
      | None => None
      end
  | (inr e, st) => Some (Uncaught e, {| manager := st; terminal := shown |})
  end.
Proof.
  unfold select_department, Manager.get_available_departments, Manager.company_config.
  unfold then_session at 1. unfold on_terminal at 1. unfold say at 1.
  cbn [manager terminal]. unfold then_session.
  rewrite (on_manager_read _ _ Config.get_available_departments). cbn [manager terminal].
  destruct (Config.company_config fs (manager s)) as [[doc|e] st]; [|reflexivity].
  destruct (Config.as_company doc) as [config|]; [|reflexivity].
  unfold on_terminal. cbn [manager terminal].
  now destruct (choose_department too_long _ _).
Qed.



Lemma choose_department_by_number (too_long : str -> bool) (departments : Dict.t str)
    (c : console) (i : Z) (rest : list str) :
  (1 <= i <= len (Dict.keys departments))%Z ->
  too_long (Str.of_int i) = false ->
  pending c = Str.of_int i :: rest ->
  exists post,
    choose_department too_long departments c =
    (Return (item (Dict.keys departments) (i - 1)),
     {| pending := rest;
        written :=
          (written c ++ map (fun t => t ++ nl) (menu 1 (map snd departments))) ++ post |}).
Proof.
  intros Hi Hlimit Hp.
  destruct (of_int_positive i ltac:(lia)) as (a & s & Ea & Ha & Hs).
  unfold choose_department.
  destruct (Dict.keys departments) as [|k0 ks] eqn:E.
  { unfold len in Hi. simpl in Hi. lia. }
  unfold then_ui at 1. rewrite say_all_run. unfold then_ui at 1. unfold say at 1.
  unfold then_ui, read. cbn [pending written]. rewrite Hp, Hs, Ea.
  rewrite <- Ea, int_of_int by assumption.
  replace ((0 <=? i - 1)%Z && (i - 1 <? len (k0 :: ks))%Z) with true
    by (symmetry; apply andb_true_iff; split;
        [apply Z.leb_le | apply Z.ltb_lt]; lia).
  unfold unit_ui. eexists. reflexivity.
Qed.

(** X15.  Typing the number that the menu shows before a department
    selects that department: when the company configuration is there, for
    [i] from 1 to the number of departments the menu has the line of [i]
    with the name of the [i]-th department, and the line [str(i)] makes
    [select_department] return the [i]-th key. *)
Theorem department_selected_by_number (too_long : str -> bool)
    (fs : Config.filesystem) (s : session) (doc : Config.json) (st : Config.state)
    (config : Config.company) (i : Z) (rest : list str) :
  Config.company_config fs (manager s) = (inl doc, st) ->
  Config.as_company doc = Some config ->
  NoDup (Dict.keys (Config.departments_of config)) ->
  (1 <= i <= len (Config.departments_of config))%Z ->
  too_long (Str.of_int i) = false ->
  pending (terminal s) = Str.of_int i :: rest ->
  exists s',
    select_department too_long fs s =
      Some (Return (item (Dict.keys (Config.departments_of config)) (i - 1)), s') /\
    manager s' = st /\
    pending (terminal s') = rest /\
    In ((Str.of_int i ++ ". " ++
         nth (Z.to_nat (i - 1)) (map snd (Config.get_available_departments config))
           EmptyString) ++ nl)
       (written (terminal s')).
Proof.
  intros Hload Hshape Hnd Hi Hlimit Hp.
  assert (Hkeys : Dict.keys (Config.get_available_departments config) =
                  Dict.keys (Config.departments_of config)).
  { rewrite available_departments_fold by assumption.
    unfold Dict.keys. now rewrite map_map. }
  assert (Hlen : len (Dict.keys (Config.departments_of config)) =
                 len (Config.departments_of config)).
  { unfold len, Dict.keys. now rewrite length_map. }
  destruct (choose_department_by_number too_long
              (Config.get_available_departments config)
              (headed "=== Available Departments ===" s) i rest) as [post Hrun].
  { rewrite Hkeys, Hlen. exact Hi. }
  { exact Hlimit. }
  { exact Hp. }
  rewrite select_department_run, Hload, Hshape. cbv zeta. rewrite Hrun, Hkeys.
  eexists. split; [reflexivity|]. cbn [fst snd manager terminal pending written].
  repeat split.
  apply in_or_app. left. apply in_or_app. right.
  apply (in_map (fun t => t ++ nl)).
  replace i with (1 + Z.of_nat (Z.to_nat (i - 1)))%Z at 1 by lia.
  apply menu_in. rewrite length_map.
  assert (List.length (Config.get_available_departments config) =
          List.length (Config.departments_of config)).
  { rewrite available_departments_fold by assumption. apply length_map. }
  unfold len in *. lia.
Qed.

Lemma department_selected_by_number_witness :
  exists s',
    select_department no_limit office_files (fresh_session ["2"]) =
      Some (Return "billing_team", s') /\
    Config.opened (manager s') = ["./company_config.json"] /\
    In ("2. Billing Team" ++ nl) (written (terminal s')).
Proof.
  destruct (department_selected_by_number no_limit office_files (fresh_session ["2"])
              sample_company_document
              (snd (Config.company_config office_files fresh_manager))
              sample_company_config 2 []) as (s' & H1 & H2 & _ & H4).
  - reflexivity.
  - reflexivity.
  - repeat constructor; simpl; intuition discriminate.
  - unfold len. simpl. lia.
  - reflexivity.
  - reflexivity.
  - exists s'. split; [exact H1|]. split; [now rewrite H2 | exact H4].
Defined.



Lemma digit_not_exit (a : char) (s : str) :
  Str.is_ascii_digit a = true -> Text.eqb (Str.lower (String a s)) "exit" = false.
Proof.
  intros H. apply ascii_digit_cases in H. cbn [In] in H.
  repeat (destruct H as [<-|H]; [vm_compute; reflexivity|]). destruct H.
Qed.

(** How the choice of a template ends on a line. *)
Lemma choose_template_run (too_long : str -> bool) (templates : list str)
    (c : console) (line : str) (rest : list str) :
  pending c = line :: rest ->
  let user_input := Str.strip line in
  let shown :=
    {| pending := rest;
       written :=
         (written c ++ map (fun t => t ++ nl) (menu 1 (map display_name templates))) ++
         [(nl ++ "Select a template number (or type 'exit' to quit):") ++ nl] |} in
  choose_template too_long templates c =
  if Text.eqb (Str.lower user_input) "exit" then (Return (None, (-1)%Z), shown)
  else
    match Str.int too_long user_input with
    | Some n =>
        if (0 <=? n - 1)%Z && (n - 1 <? len templates)%Z
        then (Return (Some (item templates (n - 1)), (n - 1)%Z), shown)
        else (Return (None, (-2)%Z),
              {| pending := rest;
                 written := written shown ++ ["Invalid template number!" ++ nl] |})
    | None =>
        let selected := Str.replace " " "_" (Str.lower user_input) ++ "_response" in
        if Str.mem selected templates
        then (Return (Some selected, Str.index selected templates), shown)
        else (Return (None, (-2)%Z),
              {| pending := rest;
                 written :=
                   written shown ++
                   [("Template not found. Available templates: " ++
                     Str.repr_list (map display_name templates)) ++ nl] |})
    end.
Proof.
  intros Hp. cbv zeta.
  unfold choose_template.
  unfold then_ui at 1. rewrite say_all_run. unfold then_ui at 1. unfold say at 1.
  unfold then_ui at 1. unfold read. cbn [pending written]. rewrite Hp.
  destruct (Text.eqb (Str.lower (Str.strip line)) "exit"); [reflexivity|].
  destruct (Str.int too_long (Str.strip line)) as [n|].
  - destruct ((0 <=? n - 1)%Z && (n - 1 <? len templates)%Z); reflexivity.
  - destruct (Str.mem _ templates); reflexivity.
Qed.


(** [select_template] step by step: the heading, the load, the menu. *)
Lemma select_template_run (too_long : str -> bool) (fs : Config.filesystem)
    (s : session) :
  select_template too_long fs s =
  let shown := headed "Available Response Templates:" s in
  match Config.templates fs (manager s) with
  | (inl doc, st) =>
      match Config.as_keys doc with
      | Some templates =>
          Some (fst (choose_template too_long templates shown),
                {| manager := st;
                   terminal := snd (choose_template too_long templates shown) |})
      | None => None
      end
  | (inr e, st) => Some (Uncaught e, {| manager := st; terminal := shown |})
  end.
Proof.
  unfold select_template, Manager.templates.
  unfold then_session at 1. unfold on_terminal at 1. unfold say at 1.
  cbn [manager terminal]. unfold then_session.
  pose proof (on_manager_read (Config.templates fs) Config.as_keys (fun t => t)) as H.
  unfold Manager.map_method in H. unfold on_manager in *. unfold Manager.read in *.
  cbn [manager terminal].
  destruct (Config.templates fs (manager s)) as [[doc|e] st]; [|reflexivity].
  destruct (Config.as_keys doc) as [templates|]; [|reflexivity].
  unfold on_terminal. cbn [manager terminal].
  now destruct (choose_template too_long _ _).
Qed.


(** X17.  A template that is chosen by a text that is no number has a key
    that ends in [_response]: the key is the text in lower case, with
    underscores for its spaces, followed by [_response].  A template with
    another key is only returned for its number, in the digits of any
    script. *)
Theorem template_by_name_needs_suffix (too_long : str -> bool)
    (fs : Config.filesystem) (s s' : session) (line : str) (rest : list str)
    (name : str) (i : Z) :
  pending (terminal s) = line :: rest ->
  select_template too_long fs s = Some (Return (Some name, i), s') ->
  Str.int too_long (Str.strip line) = Some (i + 1)%Z \/
  name = Str.replace " " "_" (Str.lower (Str.strip line)) ++ "_response".
Proof.
  intros Hp. rewrite select_template_run. cbv zeta.
  destruct (Config.templates fs (manager s)) as [[doc|e] st]; [|discriminate].
  destruct (Config.as_keys doc) as [templates|]; [|discriminate].
  rewrite (choose_template_run too_long templates
             (headed "Available Response Templates:" s) line rest Hp). cbv zeta.
  destruct (Text.eqb _ "exit"); [discriminate|].
  destruct (Str.int too_long (Str.strip line)) as [n|].
  - destruct ((0 <=? n - 1)%Z && (n - 1 <? len templates)%Z);
      [|discriminate].
    cbn [fst]. intros [= <- <- _]. left. f_equal. lia.
  - destruct (Str.mem _ templates); [|discriminate].
    cbn [fst]. intros [= <- <- _]. now right.
Qed.

Lemma template_by_name_needs_suffix_witness :
  (exists s',
     select_template no_limit office_files (fresh_session ["Customer Inquiry"]) =
       Some (Return (Some "customer_inquiry_response", 1%Z), s')) /\
  "customer_inquiry_response" =
    Str.replace " " "_" (Str.lower (Str.strip "Customer Inquiry")) ++ "_response" /\
  (exists s',
     select_template no_limit office_files (fresh_session ["１"]) =
       Some (Return (Some "complaint_resolution_letter", 0%Z), s')) /\
  Str.int no_limit (Str.strip "１") = Some 1%Z.
Proof.
  assert (Hname : exists s',
             select_template no_limit office_files (fresh_session ["Customer Inquiry"]) =
             Some (Return (Some "customer_inquiry_response", 1%Z), s'))
    by (eexists; vm_compute; reflexivity).
  assert (Hnumber : exists s',
             select_template no_limit office_files (fresh_session ["１"]) =
             Some (Return (Some "complaint_resolution_letter", 0%Z), s'))
    by (eexists; vm_compute; reflexivity).
  split; [exact Hname|]. split; [|split; [exact Hnumber|]].
  - destruct Hname as [s' H].
    destruct (template_by_name_needs_suffix no_limit office_files
                (fresh_session ["Customer Inquiry"]) s' "Customer Inquiry" []
                "customer_inquiry_response" 1 eq_refl H) as [H'|H'];
      [discriminate H' | exact H'].
  - destruct Hnumber as [s' H].
    destruct (template_by_name_needs_suffix no_limit office_files
                (fresh_session ["１"]) s' "１" [] "complaint_resolution_letter" 0
                eq_refl H) as [H'|H']; [exact H' | discriminate H'].
Defined.

(** X18.  Typing the number that the menu shows before a template selects
    that template: when the templates are there, for [i] from 1 to the
    number of templates the menu has the line of [i] with the display name
    of the [i]-th key, and the line [str(i)] makes [select_template] return
    that key with the index [i - 1]. *)
Theorem template_selected_by_number (too_long : str -> bool)
    (fs : Config.filesystem) (s : session) (doc : Config.json) (st : Config.state)
    (templates : list str) (i : Z) (rest : list str) :
  Config.templates fs (manager s) = (inl doc, st) ->
  Config.as_keys doc = Some templates ->
  (1 <= i <= len templates)%Z ->
  too_long (Str.of_int i) = false ->
  pending (terminal s) = Str.of_int i :: rest ->
  exists s',
    select_template too_long fs s =
      Some (Return (Some (item templates (i - 1)), (i - 1)%Z), s') /\
    manager s' = st /\
    pending (terminal s') = rest /\
    In ((Str.of_int i ++ ". " ++ display_name (item templates (i - 1))) ++ nl)
       (written (terminal s')).
Proof.
  intros Hload Hshape Hi Hlimit Hp.
  rewrite select_template_run, Hload, Hshape. cbv zeta.
  rewrite (choose_template_run too_long templates
             (headed "Available Response Templates:" s) _ rest Hp). cbv zeta.
  destruct (of_int_positive i ltac:(lia)) as (a & t & Ea & Ha & Hs).
  assert (Hexit : Text.eqb (Str.lower (Str.of_int i)) "exit" = false)
    by (rewrite Ea; now apply digit_not_exit).
  rewrite Hs, Hexit, int_of_int by assumption.
  replace ((0 <=? i - 1)%Z && (i - 1 <? len templates)%Z) with true
    by (symmetry; apply andb_true_iff; split;
        [apply Z.leb_le | apply Z.ltb_lt]; lia).
  eexists. split; [reflexivity|].
  cbn [fst snd manager terminal pending written headed]. repeat split.
  apply in_or_app. left. apply in_or_app. right.
  apply (in_map (fun t => t ++ nl)).
  replace i with (1 + Z.of_nat (Z.to_nat (i - 1)))%Z at 1 by lia.
  unfold item. rewrite <- (map_nth display_name).
  change (display_name EmptyString) with EmptyString.
  apply menu_in. rewrite length_map. unfold len in Hi. lia.
Qed.

Lemma template_selected_by_number_witness :
  exists s',
    select_template no_limit office_files (fresh_session ["1"]) =
      Some (Return (Some "complaint_resolution_letter", 0%Z), s') /\
    Config.opened (manager s') = ["./templates_config.json"] /\
    In ("1. Complaint Resolution Letter" ++ nl) (written (terminal s')).
Proof.
  destruct (template_selected_by_number no_limit office_files (fresh_session ["1"])
              sample_templates_document
              (snd (Config.templates office_files fresh_manager))
              ["complaint_resolution_letter"; "customer_inquiry_response"] 1 [])
    as (s' & H1 & H2 & _ & H4).
  - reflexivity.
  - reflexivity.
  - unfold len. simpl. lia.
  - reflexivity.
  - reflexivity.
  - exists s'. split; [exact H1|]. split; [now rewrite H2 | exact H4].
Defined.

End UserInterfaceFacts.

(** ** The pipeline, further *)

Section PipelineFacts.

Import Str CommunicationEngine ResponseProcessor Render.

Lemma shr_1_nonneg (mrs : shr_record) :
  (0 <= shr_m mrs)%Z -> (0 <= shr_m (shr_1 mrs))%Z.
Proof.
  destruct mrs as [m r s]. simpl. intros H.
  destruct m as [|p|p]; [easy | destruct p; simpl; lia | lia].
Qed.

Lemma iter_shr_1_nonneg (p : positive) :
  forall mrs, (0 <= shr_m mrs)%Z -> (0 <= shr_m (iter_pos shr_1 p mrs))%Z.
Proof.
  induction p as [p IH|p IH|]; intros mrs H; simpl; auto using shr_1_nonneg.
Qed.

Lemma shr_fexp_nonneg (m e : Z) (l : location) :
  (0 <= m)%Z -> (0 <= shr_m (fst (shr_fexp Float.prec Float.emax m e l)))%Z.
Proof.
  intros H. unfold shr_fexp, shr.
  assert (H0 : (0 <= shr_m (shr_record_of_loc m l))%Z)
    by (destruct l as [|[]]; exact H).
  destruct (fexp Float.prec Float.emax (Zdigits2 m + e) - e)%Z; simpl; trivial.
  now apply iter_shr_1_nonneg.
Qed.

Lemma round_nearest_even_nonneg (m : Z) (l : location) :
  (0 <= m)%Z -> (0 <= round_nearest_even m l)%Z.
Proof.
  intros H. destruct l as [|[]]; simpl; try lia.
  destruct (Z.even m); lia.
Qed.

Lemma binary_round_aux_non_negative (m e : Z) (l : location) :
  (0 <= m)%Z ->
  Float.non_negative (binary_round_aux Float.prec Float.emax false m e l) = true.
Proof.
  intros H. unfold binary_round_aux.
  pose proof (shr_fexp_nonneg m e l H) as H1.
  destruct (shr_fexp Float.prec Float.emax m e l) as [mrs' e']. cbn [fst] in H1.
  pose proof (shr_fexp_nonneg _ e' loc_Exact
                (round_nearest_even_nonneg _ (loc_of_shr_record mrs') H1)) as H2.
  destruct (shr_fexp Float.prec Float.emax _ e' loc_Exact) as [mrs'' e''].
  cbn [fst] in H2.
  destruct (shr_m mrs'') as [|p|p]; [reflexivity | | lia].
  destruct (e'' <=? Float.emax - Float.prec)%Z; reflexivity.
Qed.

(** The float of a ratio with a positive denominator is not negative. *)
Lemma of_ratio_non_negative (num den : Z) :
  (0 < den)%Z -> Float.non_negative (Float.of_ratio num den) = true.
Proof.
  intros Hden. unfold Float.of_ratio, Float.operand.
  destruct den as [|d|d]; try lia.
  destruct num as [|n|n]; try reflexivity.
  unfold SFdiv, SFdiv_core_binary.
  set (s := (0 - 0 - _)%Z).
  set (m' := match s with Z0 => Zpos n | Zpos _ => Z.shiftl (Zpos n) s | Zneg _ => 0%Z end).
  assert (Hm : (0 <= m')%Z).
  { subst m'. destruct s; try lia. apply Z.shiftl_nonneg. lia. }
  pose proof (Z.div_pos m' (Zpos d) Hm ltac:(lia)) as Hq.
  unfold Z.div in Hq. destruct (Z.div_eucl m' (Zpos d)) as [q r]. cbn [fst] in Hq.
  now apply binary_round_aux_non_negative.
Qed.

Lemma of_str_non_negative (lexeme : str) (x : spec_float) :
  Float.of_str lexeme = Some x -> Float.non_negative x = true.
Proof.
  unfold Float.of_str. destruct (Float.is_lexeme lexeme); [|discriminate].
  destruct (Float.split_point lexeme) as [i f]. intros [= <-].
  apply of_ratio_non_negative. apply Z.pow_pos_nonneg; lia.
Qed.

Lemma non_negative_le_int (x : spec_float) (n : Z) :
  Float.non_negative x = true -> Float.le_int x n = true -> (0 <= n)%Z.
Proof.
  destruct x as [s|s| |s m e]; simpl; try discriminate.
  - intros _ H. now apply Z.leb_le in H.
  - intros Hs H. rewrite H in Hs. discriminate.
  - intros Hs. apply negb_true_iff in Hs. subst s.
    destruct e as [|k|k]; rewrite Z.leb_le; intros H; try lia;
      (assert (0 < 2 ^ Zpos k)%Z by (apply Z.pow_pos_nonneg; lia); nia).
Qed.

(** X19.  Whatever the service replies, the score is a float that is not
    a NaN and not negative (a minus sign before the number is not read), so
    that it is at most an integer only if that integer is not negative. *)
Theorem score_never_negative (svc : service) (generated standard : str)
    (w w' : world) (x : spec_float) :
  calculate_deviation_percentage svc generated standard w = (Ok x, w') ->
  Float.non_negative x = true /\
  forall n, Float.le_int x n = true -> (0 <= n)%Z.
Proof.
  intros H.
  destruct (calculate_deviation_percentage_run svc generated standard w)
    as (x0 & lines & E & Hscore).
  rewrite E in H. injection H as <- _.
  assert (Hx : Float.non_negative x0 = true).
  { unfold Spec.score_of in Hscore.
    destruct (svc (requests w) _) as [text|str_e]; [|now subst].
    destruct (search_number (strip text)) as [lexeme|]; [|now subst].
    now apply (of_str_non_negative lexeme). }
  split; [exact Hx|]. intros n. now apply non_negative_le_int.
Qed.

Lemma score_never_negative_witness :
  Float.non_negative (Float.of_int 5) = true /\
  fst (calculate_deviation_percentage (always "Deviation: -5%") "a" "b" initial_world)
    = Ok (Float.of_int 5).
Proof.
  split; [|reflexivity].
  apply (score_never_negative (always "Deviation: -5%") "a" "b" initial_world
           (snd (calculate_deviation_percentage (always "Deviation: -5%") "a" "b"
                   initial_world))
           (Float.of_int 5)).
  reflexivity.
Defined.

(** X20.  A body in which no token of the supplied fields occurs is
    returned as it is; in particular the body is returned verbatim when both
    field sets are empty. *)
Theorem standard_response_verbatim (config_manager : ConfigManager) (key body : str)
    (customer_data company_info : Dict.t str) :
  Dict.get (standard_responses config_manager) key = Some body ->
  (forall entry, In entry (customer_data ++ company_info)%list ->
                 contains (placeholder (fst entry)) body = false) ->
  prepare_standard_response config_manager key customer_data company_info = Ok body.
Proof.
  intros Hget Habsent. rewrite prepare_standard_response_eq, Hget.
  now rewrite render_fold, substitutions_absent.
Qed.

Lemma standard_response_verbatim_witness :
  prepare_standard_response sample_config "customer_inquiry_response" []
    [("hours", "9-5")] =
  Ok "Dear [Customer Name], thank you for contacting [Company Name] about account [Account Number].".
Proof.
  apply standard_response_verbatim; [reflexivity|].
  intros entry [<-|[]]. reflexivity.
Defined.

Lemma limit_at_least_25 (tolerance : str) (config : tolerance_config) :
  tolerance_lookup tolerance = Ok config ->
  tolerance <> "strict" -> (25 <= limit config)%Z.
Proof.
  unfold tolerance_lookup, subscript, Dict.get_default, deviation_tolerance_settings.
  cbn [Dict.get]. cbv iota.
  destruct (text_eqb_spec "strict" tolerance) as [<-|_]; [congruence|].
  destruct (Text.eqb "minimal" tolerance); [intros [= <-] _; simpl; lia|].
  destruct (Text.eqb "moderate" tolerance); [intros [= <-] _; simpl; lia|].
  destruct (Text.eqb "flexible" tolerance); intros [= <-] _; simpl; lia.
Qed.

(** X21.  Under every tolerance but strict, known or not, the compliance
    flag and the tier of a returned record agree: the record is compliant
    exactly when its tier is not warning. *)
Theorem tier_and_flag_agree_unless_strict (config_manager : ConfigManager)
    (svc : service) (key inquiry : str) (customer_data company_info : Dict.t str)
    (tolerance : str) (w w' : world) (r : generation_result) :
  tolerance <> "strict" ->
  generate_response config_manager svc key inquiry customer_data company_info
    tolerance w = (Ok r, w') ->
  (25 <= max_allowed_deviation r)%Z /\
  (is_compliant r = true <-> compliance_level r <> "warning").
Proof.
  intros Hstrict H.
  destruct (generate_response_ok _ _ _ _ _ _ _ _ _ _ H)
    as (body & config & text & w1 & _ & Hconfig & _ & _ & _ & _ & Hmax & Hflag & Hlevel & _).
  pose proof (limit_at_least_25 _ _ Hconfig Hstrict) as Hlimit.
  rewrite <- Hmax in Hlimit. split; [exact Hlimit|].
  rewrite Hflag, Hlevel. unfold Spec.classify.
  destruct (Float.le_int (deviation_percentage r) 10) eqn:E1.
  { rewrite (le_int_monotone _ 10 (max_allowed_deviation r)) by (assumption || lia).
    split; [discriminate | reflexivity]. }
  destruct (Float.le_int (deviation_percentage r) 25) eqn:E2.
  { rewrite (le_int_monotone _ 25 (max_allowed_deviation r)) by (assumption || lia).
    split; [discriminate | reflexivity]. }
  destruct (Float.le_int (deviation_percentage r) (max_allowed_deviation r));
    split; congruence.
Qed.

Lemma tier_and_flag_agree_unless_strict_witness :
  exists r w',
    generate_response sample_config (scripted [Completion "Dear Jane"; Completion "20"])
      "customer_inquiry_response" "Where is my card?" sample_customer sample_company
      "minimal" initial_world = (Ok r, w') /\
    compliance_level r = "good" /\
    (is_compliant r = true <-> compliance_level r <> "warning").
Proof.
  eexists. eexists. split; [vm_compute; reflexivity|].
  split; [reflexivity|].
  refine (proj2 (tier_and_flag_agree_unless_strict sample_config
            (scripted [Completion "Dear Jane"; Completion "20"])
            "customer_inquiry_response" "Where is my card?" sample_customer
            sample_company "minimal" initial_world _ _ _ _)).
  - discriminate.
  - vm_compute. reflexivity.
Defined.

(** X22.  The text [generate_personalized_response] returns, for any
    model and token budget, has no white space at its ends, and so has the
    generated text of every record of the pipeline. *)
Theorem generated_text_trimmed :
  (forall svc inquiry standard tolerance model budget w w' text,
      generate_personalized_response svc inquiry standard tolerance model budget w
        = (Ok text, w') ->
      strip text = text) /\
  (forall config_manager svc key inquiry customer_data company_info tolerance w r w',
      generate_response config_manager svc key inquiry customer_data company_info
        tolerance w = (Ok r, w') ->
      strip (generated_response r) = generated_response r).
Proof.
  split.
  - intros *. unfold generate_personalized_response, bind, lift, try_except, print,
      create, raise, ret.
    destruct (tolerance_lookup tolerance); [|discriminate].
    cbn [requests stdout]. destruct (svc _ _); [|discriminate].
    intros [= <- _]. apply strip_idempotent.
  - intros * H.
    destruct (generate_response_ok _ _ _ _ _ _ _ _ _ _ H)
      as (body & config & text & w1 & _ & _ & _ & _ & -> & _).
    apply strip_idempotent.
Qed.

Lemma generated_text_trimmed_witness :
  strip "Dear Jane" = "Dear Jane".
Proof.
  apply (proj1 generated_text_trimmed (always "  Dear Jane  ") "Where is my card?"
           "Dear [Customer Name]" "strict" "gpt-4" 100%Z initial_world
           (snd (generate_personalized_response (always "  Dear Jane  ")
                   "Where is my card?" "Dear [Customer Name]" "strict" "gpt-4" 100%Z
                   initial_world))).
  reflexivity.
Defined.



End PipelineFacts.

(** ** communication_orchestrator.py and the rest *)

Section OrchestratorFacts.

Import Str CommunicationEngine ResponseProcessor Render.

Import Orchestrator.







Lemma concat_contains (sep x : str) (xs : list str) :
  In x xs -> contains x (Text.concat sep xs) = true.
Proof.
  induction xs as [|y xs IH]; [intros []|].
  intros [->|H].
  - destruct xs as [|z xs].
    + cbn [Text.concat]. rewrite <- (append_nil_r x) at 2.
      apply (contains_append x EmptyString EmptyString).
    + rewrite concat_cons by discriminate. apply (contains_append x EmptyString).
  - destruct xs as [|z xs]; [destruct H|].
    rewrite concat_cons by discriminate.
    destruct (contains_split _ _ (IH H)) as (a & b & E). rewrite E.
    replace (y ++ sep ++ a ++ x ++ b) with ((y ++ sep ++ a) ++ x ++ b)
      by now rewrite !append_assoc.
    apply contains_append.
Qed.

(** X26.  [format_customer_data] writes every entry of non-empty data as
    its key, a colon, a space and its value; for empty data it gives the
    text "No customer data provided". *)
Theorem format_customer_data_entries (customer_data : Dict.t str) :
  (customer_data = [] ->
   format_customer_data customer_data = "No customer data provided") /\
  (forall key value,
      In (key, value) customer_data ->
      contains (key ++ ": " ++ value) (format_customer_data customer_data) = true).
Proof.
  split; [now intros ->|].
  intros key value H. unfold format_customer_data.
  destruct customer_data as [|e d]; [destruct H|]. cbn [Dict.truthy negb].
  apply concat_contains.
  apply (in_map (fun '(key, value) => key ++ ": " ++ value) _ (key, value)), H.
Qed.

Lemma format_customer_data_entries_witness :
  contains "account_number: A-1002" (format_customer_data sample_customer) = true.
Proof.
  apply (proj2 (format_customer_data_entries sample_customer) "account_number" "A-1002").
  right. left. reflexivity.
Defined.

(** X27.  The engine is built with the key given as argument when that
    is not empty, else with the value of the environment variable; an empty
    str counts as no key in both places, and without any key the
    construction raises [ValueError]. *)
Theorem engine_key_precedence (api_key environ : option str) :
  (forall key, key <> EmptyString -> api_key = Some key ->
               init api_key environ = Ok key) /\
  (api_key = None \/ api_key = Some EmptyString ->
   forall key, key <> EmptyString -> environ = Some key ->
               init api_key environ = Ok key) /\
  ((exists key, init api_key environ = Ok key) <->
   (exists key, key <> EmptyString /\ (api_key = Some key \/ environ = Some key))).
Proof.
  unfold init. repeat split.
  - intros key Hne ->. destruct key; [congruence | reflexivity].
  - intros [-> | ->] key Hne ->; destruct key; congruence || reflexivity.
  - intros [key H]. destruct api_key as [[|a k]|].
    + destruct environ as [[|a k]|]; try discriminate.
      exists (String a k). split; [discriminate | now right].
    + exists (String a k). split; [discriminate | now left].
    + destruct environ as [[|a k]|]; try discriminate.
      exists (String a k). split; [discriminate | now right].
  - intros (key & Hne & [-> | ->]).
    + destruct key; [congruence | eauto].
    + destruct key as [|a k]; [congruence|].
      destruct api_key as [[|b k']|]; eauto.
Qed.

Lemma engine_key_precedence_witness :
  init (Some EmptyString) (Some "sk-env") = Ok "sk-env" /\
  init (Some "sk-arg") (Some "sk-env") = Ok "sk-arg".
Proof.
  split.
  - apply (proj1 (proj2 (engine_key_precedence (Some EmptyString) (Some "sk-env"))));
      [now right | discriminate | reflexivity].
  - apply (proj1 (engine_key_precedence (Some "sk-arg") (Some "sk-env")));
      [discriminate | reflexivity].
Defined.

End OrchestratorFacts.


